(** * steam.py: trade offers, inventories and mobile confirmations

    A shallow embedding of [steam/guard.py], [steam/trade.py] and the
    trade branch of [User.send] in [steam/user.py], followed by the
    properties of the code generator, the confirmation retry policy, the
    inventory reconciliation and the trade-offer guards.

    Python values are embedded as follows: [int] is [Z], [bytes] is
    [list byte], [str] is [string] (code points below 256), a JSON
    mapping is a [gmap string pyval], a raised exception is the [Raise]
    branch of [result]. *)

From Stdlib Require Import ZArith List Bool Ascii String Lia.
From Stdlib Require Import Strings.Byte Sorting.Sorted.
From stdpp Require Import base option list gmap strings fin_maps.
Import ListNotations.

Local Open Scope string_scope.
Local Open Scope list_scope.
Local Open Scope Z_scope.

(** ** Exceptions and results *)

(** The exception classes that the embedded code raises or meets. *)
Inductive exn : Type :=
| KeyError (key : string)
| IndexError
| ValueError
| TypeError
| AttributeError
| OverflowError
| StructError            (* struct.error *)
| BinasciiError          (* binascii.Error *)
| UnicodeEncodeError
| ClientException (msg : string)
| ConfirmationError (msg : string)
| HTTPException
| NameError
| TryAgain               (* tenacity.TryAgain *)
| RetryError.            (* tenacity.RetryError *)

Inductive result (A : Type) : Type :=
| Ok (a : A)
| Raise (e : exn).
Arguments Ok {A} a.
Arguments Raise {A} e.

Definition rbind {A B : Type} (r : result A) (k : A -> result B) : result B :=
  match r with
  | Ok a => k a
  | Raise e => Raise e
  end.

Declare Scope result_scope.
Delimit Scope result_scope with res.
Notation "x <- c1 ;; c2" := (rbind c1 (fun x => c2))
  (at level 100, c1 at next level, right associativity) : result_scope.

(** ** Python values found in JSON payloads *)

Inductive pyval : Type :=
| VNone
| VBool (b : bool)
| VInt (z : Z)
| VStr (s : string).

Definition pyval_num (v : pyval) : option Z :=
  match v with
  | VBool b => Some (if b then 1 else 0)
  | VInt z => Some z
  | _ => None
  end.

(** [a == b]: numbers (bools included) compare by value, strings by
    content, [None] equals only [None]. *)
Definition py_eq (a b : pyval) : bool :=
  match a, b with
  | VNone, VNone => true
  | VStr s, VStr t => String.eqb s t
  | _, _ =>
      match pyval_num a, pyval_num b with
      | Some x, Some y => Z.eqb x y
      | _, _ => false
      end
  end.

(** [bool(v)] *)
Definition py_truthy (v : pyval) : bool :=
  match v with
  | VNone => false
  | VBool b => b
  | VInt z => negb (Z.eqb z 0)
  | VStr s => negb (String.eqb s "")
  end.

(** [d[key]] *)
Definition getitem (d : gmap string pyval) (key : string) : result pyval :=
  match d !! key with
  | Some v => Ok v
  | None => Raise (KeyError key)
  end.

(** [d.get(key, default)] *)
Definition dict_get (d : gmap string pyval) (key : string) (dflt : pyval) : pyval :=
  match d !! key with
  | Some v => v
  | None => dflt
  end.

(** [a == b] on two mappings: same keys, equal values. *)
Definition dict_eq (a b : gmap string pyval) : bool :=
  Nat.eqb (size a) (size b) &&
  forallb (fun kv => match b !! kv.1 with
                     | Some v => py_eq kv.2 v
                     | None => false
                     end) (map_to_list a).

(** *** [int(v)] and [int(v, 16)] *)

Definition is_space (c : ascii) : bool :=
  let n := nat_of_ascii c in
  ((9 <=? n) && (n <=? 13) || (n =? 32) || (n =? 133) || (n =? 160))%nat.

Fixpoint lstrip (s : list ascii) : list ascii :=
  match s with
  | c :: s' => if is_space c then lstrip s' else s
  | [] => []
  end.

Definition strip (s : list ascii) : list ascii :=
  rev (lstrip (rev (lstrip s))).

Definition digit_value (c : ascii) : option Z :=
  let n := Z.of_nat (nat_of_ascii c) in
  if (48 <=? n) && (n <=? 57) then Some (n - 48)
  else if (97 <=? n) && (n <=? 122) then Some (n - 87)
  else if (65 <=? n) && (n <=? 90) then Some (n - 55)
  else None.

(** Digits of a literal in the given base; a single underscore may
    separate two digits. [acc] is [None] until the first digit is read;
    [us] tells that the previous character was an underscore. *)
Fixpoint parse_digits (base : Z) (acc : option Z) (us : bool) (s : list ascii) : option Z :=
  match s with
  | [] => if us then None else acc
  | c :: s' =>
      if Ascii.eqb c "_" then
        match acc with
        | Some _ => if us then None else parse_digits base acc true s'
        | None => None
        end
      else
        match digit_value c with
        | Some d =>
            if d <? base
            then parse_digits base (Some (match acc with Some a => a * base + d | None => d end)) false s'
            else None
        | None => None
        end
  end.

Definition parse_signed (base : Z) (s : list ascii) : option Z :=
  match s with
  | c :: s' =>
      if Ascii.eqb c "-" then Z.opp <$> parse_digits base None false s'
      else if Ascii.eqb c "+" then parse_digits base None false s'
      else parse_digits base None false s
  | [] => None
  end.

(** An optional [0x]/[0X] prefix, itself optionally followed by one
    underscore, is accepted by [int(s, 16)]. *)
Definition drop_hex_prefix (s : list ascii) : list ascii :=
  match s with
  | c0 :: c1 :: s' =>
      if Ascii.eqb c0 "0" && (Ascii.eqb c1 "x" || Ascii.eqb c1 "X") then
        match s' with
        | c2 :: s'' => if Ascii.eqb c2 "_" then s'' else s'
        | [] => s'
        end
      else s
  | _ => s
  end.

Definition parse_hex (s : list ascii) : option Z :=
  match strip s with
  | c :: s' =>
      if Ascii.eqb c "-" then Z.opp <$> parse_digits 16 None false (drop_hex_prefix s')
      else if Ascii.eqb c "+" then parse_digits 16 None false (drop_hex_prefix s')
      else parse_digits 16 None false (drop_hex_prefix (c :: s'))
  | [] => None
  end.

(** [int(v)] *)
Definition py_int (v : pyval) : result Z :=
  match v with
  | VNone => Raise TypeError
  | VBool b => Ok (if b then 1 else 0)
  | VInt z => Ok z
  | VStr s =>
      match parse_signed 10 (strip (list_ascii_of_string s)) with
      | Some z => Ok z
      | None => Raise ValueError
      end
  end.

(** [int(v, 16)] *)
Definition py_int16 (v : pyval) : result Z :=
  match v with
  | VStr s =>
      match parse_hex (list_ascii_of_string s) with
      | Some z => Ok z
      | None => Raise ValueError
      end
  | _ => Raise TypeError
  end.

(** ** Bytes, [struct], [hashlib.sha1], [hmac] and [base64]

    The standard-library functions that [guard.py] calls, written out so
    that the code generator can be run. *)

Definition byte_to_Z (b : byte) : Z := Z.of_N (Byte.to_N b).

Definition Z_to_byte (z : Z) : byte :=
  match Byte.of_N (Z.to_N (z mod 256)) with
  | Some b => b
  | None => x00
  end.

(** The [n] low bytes of [z], most significant first. *)
Fixpoint be_bytes (n : nat) (z : Z) : list byte :=
  match n with
  | O => []
  | S n' => be_bytes n' (z / 256) ++ [Z_to_byte z]
  end.

(** The number that a byte string denotes in big-endian order. *)
Definition be_decode (bs : list byte) : Z :=
  fold_left (fun acc b => acc * 256 + byte_to_Z b) bs 0.

(** [struct.pack(">Q", v)] *)
Definition struct_pack_Q (v : Z) : result (list byte) :=
  if (0 <=? v) && (v <? 2 ^ 64) then Ok (be_bytes 8 v) else Raise StructError.

(** [struct.unpack(">I", bs)[0]] *)
Definition struct_unpack_I (bs : list byte) : result Z :=
  if Nat.eqb (length bs) 4 then Ok (be_decode bs) else Raise StructError.

(** [bs[i]] for a byte string, negative indices counting from the end. *)
Definition bytes_index (bs : list byte) (i : Z) : result Z :=
  let n := Z.of_nat (length bs) in
  let j := if i <? 0 then i + n else i in
  if (0 <=? j) && (j <? n)
  then match bs !! Z.to_nat j with
       | Some b => Ok (byte_to_Z b)
       | None => Raise IndexError
       end
  else Raise IndexError.

(** [l[lo:hi]] for non-negative bounds. *)
Definition slice {A : Type} (l : list A) (lo hi : Z) : list A :=
  take (Z.to_nat (hi - lo)) (drop (Z.to_nat lo) l).

(** [s[i]] for a string, negative indices counting from the end. *)
Definition str_index (s : string) (i : Z) : result ascii :=
  let n := Z.of_nat (String.length s) in
  let j := if i <? 0 then i + n else i in
  if (0 <=? j) && (j <? n)
  then match String.get (Z.to_nat j) s with
       | Some c => Ok c
       | None => Raise IndexError
       end
  else Raise IndexError.

(** [s.encode("ascii")] *)
Definition encode_ascii (s : string) : result (list byte) :=
  if forallb (fun c => (nat_of_ascii c <? 128)%nat) (list_ascii_of_string s)
  then Ok (list_byte_of_string s)
  else Raise UnicodeEncodeError.

(** *** SHA-1 (FIPS 180-4) *)

Definition w32 (z : Z) : Z := z mod 2 ^ 32.

Definition rotl (n x : Z) : Z :=
  w32 (Z.lor (Z.shiftl x n) (Z.shiftr x (32 - n))).

Record sha1_state : Type := Sha1State { h0 : Z; h1 : Z; h2 : Z; h3 : Z; h4 : Z }.

Definition sha1_init : sha1_state :=
  Sha1State 0x67452301 0xEFCDAB89 0x98BADCFE 0x10325476 0xC3D2E1F0.

Definition sha1_pad (m : list byte) : list byte :=
  let l := Z.of_nat (length m) in
  m ++ [x80] ++ repeat x00 (Z.to_nat ((55 - l) mod 64)) ++ be_bytes 8 (8 * l).

(** Cut a list into pieces of [n] elements; [fuel] bounds the number of
    pieces. *)
Fixpoint chunks {A : Type} (fuel n : nat) (l : list A) : list (list A) :=
  match fuel with
  | O => []
  | S fuel' =>
      match l with
      | [] => []
      | _ => take n l :: chunks fuel' n (drop n l)
      end
  end.

(** Append [n] further words to the message schedule [w]. *)
Fixpoint sha1_extend (n : nat) (w : list Z) : list Z :=
  match n with
  | O => w
  | S n' =>
      let i := length w in
      let at_back k := nth (i - k) w 0 in
      sha1_extend n'
        (w ++ [rotl 1 (Z.lxor (Z.lxor (Z.lxor (at_back 3%nat) (at_back 8%nat))
                                      (at_back 14%nat)) (at_back 16%nat))])
  end.

Definition sha1_f (t : nat) (b c d : Z) : Z :=
  if (t <? 20)%nat then Z.lor (Z.land b c) (Z.land (Z.lxor b 0xFFFFFFFF) d)
  else if (t <? 40)%nat then Z.lxor (Z.lxor b c) d
  else if (t <? 60)%nat then Z.lor (Z.lor (Z.land b c) (Z.land b d)) (Z.land c d)
  else Z.lxor (Z.lxor b c) d.

Definition sha1_k (t : nat) : Z :=
  if (t <? 20)%nat then 0x5A827999
  else if (t <? 40)%nat then 0x6ED9EBA1
  else if (t <? 60)%nat then 0x8F1BBCDC
  else 0xCA62C1D6.

Definition sha1_round (st : sha1_state) (tw : nat * Z) : sha1_state :=
  let '(Sha1State a b c d e) := st in
  let temp := w32 (rotl 5 a + sha1_f tw.1 b c d + e + sha1_k tw.1 + tw.2) in
  Sha1State temp a (rotl 30 b) c d.

Definition sha1_block (st : sha1_state) (block : list byte) : sha1_state :=
  let w := sha1_extend 64 (map be_decode (chunks 16 4 block)) in
  let '(Sha1State a b c d e) := fold_left sha1_round (combine (seq 0 80) w) st in
  Sha1State (w32 (h0 st + a)) (w32 (h1 st + b)) (w32 (h2 st + c))
            (w32 (h3 st + d)) (w32 (h4 st + e)).

(** [hashlib.sha1(m).digest()] *)
Definition sha1 (m : list byte) : list byte :=
  let padded := sha1_pad m in
  let st := fold_left sha1_block (chunks (length padded) 64 padded) sha1_init in
  be_bytes 4 (h0 st) ++ be_bytes 4 (h1 st) ++ be_bytes 4 (h2 st)
    ++ be_bytes 4 (h3 st) ++ be_bytes 4 (h4 st).

(** *** HMAC (RFC 2104) with SHA-1 *)

Definition xor_pad (c : Z) (k : list byte) : list byte :=
  map (fun b => Z_to_byte (Z.lxor (byte_to_Z b) c)) k.

(** [hmac.new(key, msg, digestmod=sha1).digest()] *)
Definition hmac_sha1 (key msg : list byte) : list byte :=
  let k0 := if (64 <? length key)%nat then sha1 key else key in
  let k := k0 ++ repeat x00 (64 - length k0) in
  sha1 (xor_pad 0x5C k ++ sha1 (xor_pad 0x36 k ++ msg)).

(** *** Base64 *)

Definition b64_alphabet : string :=
  "ABCDEFGHIJKLMNOPQRSTUVWXYZabcdefghijklmnopqrstuvwxyz0123456789+/".

Fixpoint index_of (c : ascii) (s : string) (i : Z) : option Z :=
  match s with
  | EmptyString => None
  | String c' s' => if Ascii.eqb c c' then Some i else index_of c s' (i + 1)
  end.

Definition b64_value (c : ascii) : option Z := index_of c b64_alphabet 0.

Record a2b_state : Type :=
  A2b { quad_pos : Z; leftchar : Z; pads : Z; bin_data : list byte }.

(** The decoding loop of [binascii.a2b_base64] in its default,
    non-strict mode: characters outside the alphabet are skipped, a
    complete pad sequence ends the decoding, an incomplete final quad is
    an error. *)
Fixpoint a2b_base64 (s : list ascii) (st : a2b_state) : result (list byte) :=
  match s with
  | [] => if quad_pos st =? 0 then Ok (bin_data st) else Raise BinasciiError
  | this_ch :: s' =>
      if Ascii.eqb this_ch "=" then
        if 2 <=? quad_pos st then
          if 4 <=? quad_pos st + (pads st + 1) then Ok (bin_data st)
          else a2b_base64 s' (A2b (quad_pos st) (leftchar st) (pads st + 1) (bin_data st))
        else a2b_base64 s' st
      else
        match b64_value this_ch with
        | None => a2b_base64 s' st
        | Some v =>
            let lc := leftchar st in
            let out := bin_data st in
            if quad_pos st =? 0 then a2b_base64 s' (A2b 1 v 0 out)
            else if quad_pos st =? 1 then
              a2b_base64 s' (A2b 2 (Z.land v 0x0F) 0
                (out ++ [Z_to_byte (Z.lor (Z.shiftl lc 2) (Z.shiftr v 4))]))
            else if quad_pos st =? 2 then
              a2b_base64 s' (A2b 3 (Z.land v 0x03) 0
                (out ++ [Z_to_byte (Z.lor (Z.shiftl lc 4) (Z.shiftr v 2))]))
            else
              a2b_base64 s' (A2b 0 0 0
                (out ++ [Z_to_byte (Z.lor (Z.shiftl lc 6) v)]))
        end
  end.

(** [base64.b64decode(s)] for a [str] argument: the string must be
    ASCII, then [binascii.a2b_base64] decodes it. *)
Definition b64decode (s : string) : result (list byte) :=
  if forallb (fun c => (nat_of_ascii c <? 128)%nat) (list_ascii_of_string s)
  then a2b_base64 (list_ascii_of_string s) (A2b 0 0 0 [])
  else Raise ValueError.

Definition b64_char (v : Z) : ascii :=
  match String.get (Z.to_nat v) b64_alphabet with
  | Some c => c
  | None => "="%char
  end.

(** [base64.b64encode(bs).decode()] *)
Fixpoint b64encode (bs : list byte) : string :=
  match bs with
  | [] => ""
  | [a] =>
      let x := byte_to_Z a in
      String (b64_char (Z.shiftr x 2))
        (String (b64_char (Z.shiftl (Z.land x 3) 4)) "==")
  | [a; b] =>
      let x := byte_to_Z a in
      let y := byte_to_Z b in
      String (b64_char (Z.shiftr x 2))
        (String (b64_char (Z.lor (Z.shiftl (Z.land x 3) 4) (Z.shiftr y 4)))
           (String (b64_char (Z.shiftl (Z.land y 15) 2)) "="))
  | a :: b :: c :: rest =>
      let x := byte_to_Z a in
      let y := byte_to_Z b in
      let z := byte_to_Z c in
      String (b64_char (Z.shiftr x 2))
        (String (b64_char (Z.lor (Z.shiftl (Z.land x 3) 4) (Z.shiftr y 4)))
           (String (b64_char (Z.lor (Z.shiftl (Z.land y 15) 2) (Z.shiftr z 6)))
              (String (b64_char (Z.land z 63)) (b64encode rest))))
  end.

(** ** guard.py: the code generator *)

(** The objects that the name [time] can denote in [guard.py]. *)
Inductive pyobj : Type :=
| TimeModule      (* the module [time] *)
| TimeFunction.   (* the function [time.time] *)

(** The import statements of [guard.py] that bind [time], in source
    order: [from time import time] (line 5), then [import time]
    (line 11). Each statement (re)binds the name in the module's
    globals. *)
Definition guard_imports : list (string * pyobj) :=
  [("time", TimeFunction); ("time", TimeModule)].

Definition guard_globals : gmap string pyobj :=
  fold_left (fun g kv => <[kv.1 := kv.2]> g) guard_imports ∅.

Definition load_global (name : string) : result pyobj :=
  match guard_globals !! name with
  | Some o => Ok o
  | None => Raise NameError
  end.

(** [o.attr] *)
Definition py_getattr (o : pyobj) (attr : string) : result pyobj :=
  match o with
  | TimeModule => if String.eqb attr "time" then Ok TimeFunction else Raise AttributeError
  | TimeFunction => Raise AttributeError
  end.

(** [int(o())], where [now] is the clock's reading in whole seconds: a
    module is not callable. *)
Definition py_call_int (now : Z) (o : pyobj) : result Z :=
  match o with
  | TimeFunction => Ok now
  | TimeModule => Raise TypeError
  end.

(** [timestamp or default]: [None] and [0] are falsy. *)
Definition timestamp_or (timestamp : option Z) (dflt : result Z) : result Z :=
  match timestamp with
  | Some t => if t =? 0 then dflt else Ok t
  | None => dflt
  end.

Definition chars : string := "23456789BCDFGHJKMNPQRTVWXY".

(** The loop [for _ in range(5)] of [generate_one_time_code], with [n]
    iterations left. *)
Fixpoint code_loop (n : nat) (full_code : Z) (code : list ascii) : result (list ascii) :=
  match n with
  | O => Ok code
  | S n' =>
      let full_code' := full_code / Z.of_nat (String.length chars) in
      let i := full_code mod Z.of_nat (String.length chars) in
      (c <- str_index chars i ;;
       code_loop n' full_code' (code ++ [c]))%res
  end.

Definition generate_one_time_code (now : Z) (shared_secret : string)
    (timestamp : option Z) : result string :=
  (timestamp <- timestamp_or timestamp
     (m <- load_global "time" ;; f <- py_getattr m "time" ;; py_call_int now f) ;;
   time_buffer <- struct_pack_Q (timestamp / 30) ;;
   key <- b64decode shared_secret ;;
   let time_hmac := hmac_sha1 key time_buffer in
   last <- bytes_index time_hmac 19 ;;
   let begin := Z.land last 0xF in
   unpacked <- struct_unpack_I (slice time_hmac begin (begin + 4)) ;;
   let full_code := Z.land unpacked 0x7FFFFFFF in
   code <- code_loop 5 full_code [] ;;
   Ok (string_of_list_ascii code))%res.

Definition generate_confirmation_code (now : Z) (identity_secret tag : string)
    (timestamp : option Z) : result string :=
  (timestamp <- timestamp_or timestamp
     (f <- load_global "time" ;; py_call_int now f) ;;
   packed <- struct_pack_Q timestamp ;;
   encoded <- encode_ascii tag ;;
   let buffer := packed ++ encoded in
   key <- b64decode identity_secret ;;
   Ok (b64encode (hmac_sha1 key buffer)))%res.

(** The one-time code in the words of the specification: HMAC-SHA1 of
    the 8-byte big-endian window index under the decoded secret, the
    4-byte big-endian slice at the offset given by the low nibble of
    byte 19, masked to 31 bits, then five base-26 digits over the
    alphabet, least significant first. *)
Definition spec_digit (v : Z) (i : nat) : ascii :=
  match String.get (Z.to_nat ((v / 26 ^ Z.of_nat i) mod 26)) "23456789BCDFGHJKMNPQRTVWXY" with
  | Some c => c
  | None => "?"%char
  end.

Definition spec_one_time_code (key : list byte) (timestamp : Z) : string :=
  let digest := hmac_sha1 key (be_bytes 8 (timestamp / 30)) in
  let offset := Z.to_nat (byte_to_Z (nth 19 digest x00) mod 16) in
  let word := be_decode (take 4 (drop offset digest)) in
  let v := word mod 2 ^ 31 in
  string_of_list_ascii (map (spec_digit v) (seq 0 5)).

(** *** [str(n)], [hexdigest] and [generate_device_id] *)

Definition digit_char (d : Z) : ascii := ascii_of_nat (48 + Z.to_nat d).

(** The decimal digits of [n >= 0] in front of [acc], most significant
    first; [fuel] bounds the number of digits. *)
Fixpoint decimal_digits (fuel : nat) (n : Z) (acc : list ascii) : list ascii :=
  match fuel with
  | O => acc
  | S fuel' =>
      let acc' := digit_char (n mod 10) :: acc in
      if n <? 10 then acc' else decimal_digits fuel' (n / 10) acc'
  end.

(** A number has no more decimal digits than binary ones. *)
Definition digits_fuel (n : Z) : nat := S (Z.to_nat (Z.log2 n)).

(** [str(n)] for an integer. *)
Definition py_str (n : Z) : string :=
  if n <? 0
  then String "-" (string_of_list_ascii (decimal_digits (digits_fuel (- n)) (- n) []))
  else string_of_list_ascii (decimal_digits (digits_fuel n) n []).

Definition hex_char (d : Z) : ascii :=
  match String.get (Z.to_nat d) "0123456789abcdef" with
  | Some c => c
  | None => "?"%char
  end.

(** [h.hexdigest()] for the digest [bs]. *)
Definition hexdigest (bs : list byte) : list ascii :=
  flat_map (fun b => [hex_char (byte_to_Z b / 16); hex_char (byte_to_Z b mod 16)]) bs.

(** ["-".join(parts)] *)
Fixpoint join_hyphen (parts : list (list ascii)) : list ascii :=
  match parts with
  | [] => []
  | [part] => part
  | part :: rest => part ++ "-"%char :: join_hyphen rest
  end.

Definition generate_device_id (user_id64 : pyval) : result string :=
  (n <- py_int user_id64 ;;
   encoded <- encode_ascii (py_str n) ;;
   let hexed_steam_id := hexdigest (sha1 encoded) in
   let partial_id :=
     [slice hexed_steam_id 0 8;
      slice hexed_steam_id 8 12;
      slice hexed_steam_id 12 16;
      slice hexed_steam_id 16 20;
      slice hexed_steam_id 20 32] in
   Ok ("android:" ++ string_of_list_ascii (join_hyphen partial_id))%string)%res.

(** ** The connection state and its collaborators *)

(** What the calls of the transport return: a [dict]. guard.py
    declares it so ([_assert_valid(self, resp: dict[str, Any])]) and
    reads it so ([resp.get("success", False)], [resp["html"]]), as do
    [accept] and [send] in trade.py and user.py. *)
Definition Response : Type := gmap string pyval.

(** [resp.get(key, dflt)] *)
Definition resp_get (resp : Response) (key : string) (dflt : pyval) : pyval :=
  dict_get resp key dflt.

(** [resp.json()]: the attribute is looked up before anything is
    called, and a [dict] has no attribute [json]. *)
Definition dict_json (resp : Response) : result (gmap string pyval) :=
  Raise AttributeError.

(** The calls that the embedded code makes on the network. [HttpGet]
    carries the path below [URL.COMMUNITY]. *)
Inductive Call : Type :=
| HttpGet (path : string) (params : gmap string pyval)
| AcceptUserTrade (partner_id64 trade_id : Z)
| DeclineUserTrade (trade_id : Z)
| CancelUserTrade (trade_id : Z).

Inductive LogEvent : Type :=
| LogReceived                      (* 'recivied confirmation' *)
| LogPerformingOp (op : string)    (* 'performing op %s' *)
| LogResponse (resp : Response)    (* f'{resp} responsee' *)
| LogAfter.                        (* tenacity's [after_log] *)

Record Confirmation : Type := {
  conf_id : string;                (* [id] *)
  data_conf_id : Z;
  data_key : string;
  conf_trade_id : Z                (* [trade_id] *)
}.

(** What the code mutates or emits: the network calls issued, the
    delays slept, the list [_confirmations_to_ignore] of the connection
    state and the debug log, each oldest first. *)
Record World : Type := {
  calls : list Call;
  slept : list Z;
  confirmations_to_ignore : list Z;
  log : list LogEvent
}.

Definition world0 : World := Build_World [] [] [] [].

(** Modelled from the spec: the collaborators of section 6, which live
    in files that are not at hand. [transport n c] is the outcome of the
    network call [c] when [n] calls were issued before it;
    [generate_code tag] is [ConnectionState._generate_confirmation_code],
    returning [(code, timestamp)]; [get_confirmation n trade_id] is the
    answer of the confirmation manager to a lookup by trade id made when
    [n] calls were issued (the manager may drop a confirmation that has
    been used); [identity_secret] is the client's configured secret, if
    any. *)
Record Env : Type := {
  device_id : string;
  user_id64 : Z;
  generate_code : string -> result (string * Z);
  transport : nat -> Call -> result Response;
  get_confirmation : nat -> Z -> option Confirmation;
  identity_secret : option string
}.

(** Computations that read the collaborators, change the world and may
    raise. The world survives a raise. *)
Definition M (A : Type) : Type := Env -> World -> result A * World.

Definition ret {A : Type} (a : A) : M A := fun _ w => (Ok a, w).

Definition raise {A : Type} (e : exn) : M A := fun _ w => (Raise e, w).

Definition bind {A B : Type} (m : M A) (k : A -> M B) : M B :=
  fun env w =>
    match m env w with
    | (Ok a, w') => k a env w'
    | (Raise e, w') => (Raise e, w')
    end.

Declare Scope eff_scope.
Delimit Scope eff_scope with eff.
Notation "x <- c1 ;; c2" := (bind c1 (fun x => c2))
  (at level 100, c1 at next level, right associativity) : eff_scope.
Notation "c1 ;; c2" := (bind c1 (fun _ => c2))
  (at level 100, right associativity) : eff_scope.

Definition lift {A : Type} (r : result A) : M A := fun _ w => (r, w).

Definition ask : M Env := fun env w => (Ok env, w).

Definition add_call (c : Call) (w : World) : World :=
  Build_World (calls w ++ [c]) (slept w) (confirmations_to_ignore w) (log w).

Definition add_sleep (delay : Z) (w : World) : World :=
  Build_World (calls w) (slept w ++ [delay]) (confirmations_to_ignore w) (log w).

Definition add_ignored (trade_id : Z) (w : World) : World :=
  Build_World (calls w) (slept w) (confirmations_to_ignore w ++ [trade_id]) (log w).

Definition add_log (ev : LogEvent) (w : World) : World :=
  Build_World (calls w) (slept w) (confirmations_to_ignore w) (log w ++ [ev]).

Definition request (c : Call) : M Response :=
  fun env w => (transport env (length (calls w)) c, add_call c w).

(** [await confirmation_manager.get_confirmation(trade_id)] *)
Definition lookup_confirmation (trade_id : Z) : M (option Confirmation) :=
  fun env w => (Ok (get_confirmation env (length (calls w)) trade_id), w).

Definition sleep (delay : Z) : M unit := fun _ w => (Ok tt, add_sleep delay w).

Definition ignore_confirmation (trade_id : Z) : M unit :=
  fun _ w => (Ok tt, add_ignored trade_id w).

Definition debug (ev : LogEvent) : M unit := fun _ w => (Ok tt, add_log ev w).

(** The operations whose attempts the log records, oldest first. *)
Definition performed_ops (w : World) : list string :=
  omap (fun ev => match ev with LogPerformingOp op => Some op | _ => None end) (log w).

(** ** tenacity *)

(** [@retry(stop=stop_after_attempt(n), wait=wait_fixed(delay),
    after=after_log(...))] around [body], with [more = n - 1] further
    attempts allowed. No [retry=] argument is given, so tenacity's
    default [retry_if_exception_type()] applies: every exception raised
    by an attempt ([TryAgain] included) calls for another attempt. When
    the last allowed attempt has failed, [RetryError] is raised
    ([reraise] is off by default). *)
Fixpoint retry {A : Type} (more : nat) (delay : Z) (body : M A) : M A :=
  fun env w =>
    match body env w with
    | (Ok a, w') => (Ok a, w')
    | (Raise _, w') =>
        match more with
        | O => (debug LogAfter ;; raise RetryError)%eff env w'
        | S more' => (debug LogAfter ;; sleep delay ;; retry more' delay body)%eff env w'
        end
    end.

(** ** guard.py: [Confirmation] *)

Module Confirmation.

Definition _confirm_params (tag : string) : M (gmap string pyval) :=
  (env <- ask ;;
   ct <- lift (generate_code env tag) ;;
   ret (<["p" := VStr (device_id env)]>
        (<["a" := VInt (user_id64 env)]>
        (<["k" := VStr ct.1]>
        (<["t" := VInt ct.2]>
        (<["m" := VStr "android"]>
        (<["tag" := VStr tag]> ∅)))))))%eff.

Definition _assert_valid (self : Confirmation) (resp : Response) : M unit :=
  if negb (py_truthy (resp_get resp "success" (VBool false)))
  then (ignore_confirmation (conf_trade_id self) ;; raise (ConfirmationError ""))%eff
  else ret tt.

(** The body of [_perform_op], one attempt. *)
Definition _perform_op_attempt (self : Confirmation) (op : string) : M unit :=
  (debug (LogPerformingOp op) ;;
   params <- _confirm_params op ;;
   let params := <["op" := VStr op]> params in
   let params := <["cid" := VInt (data_conf_id self)]> params in
   let params := <["ck" := VStr (data_key self)]> params in
   resp <- request (HttpGet "mobileconf/ajaxop" params) ;;
   resp_json <- lift (dict_json resp) ;;
   debug (LogResponse resp) ;;
   _assert_valid self resp ;;
   if String.eqb op "allow"
   then if dict_eq resp_json {["success" := VBool false]}
        then raise TryAgain
        else ret tt
   else ret tt)%eff.

(** [_perform_op] as decorated: at most 4 attempts, 4 time units
    apart. *)
Definition _perform_op (self : Confirmation) (op : string) : M unit :=
  retry 3 4 (_perform_op_attempt self op).

Definition confirm (self : Confirmation) : M unit :=
  (debug LogReceived ;; _perform_op self "allow")%eff.

Definition cancel (self : Confirmation) : M unit :=
  _perform_op self "cancel".

(** The property [tag]. *)
Definition tag (self : Confirmation) : string :=
  ("details" ++ py_str (data_conf_id self))%string.

Definition details (self : Confirmation) : M pyval :=
  (params <- _confirm_params (tag self) ;;
   resp <- request (HttpGet ("mobileconf/details/" ++ conf_id self)%string params) ;;
   _assert_valid self resp ;;
   lift (getitem resp "html"))%eff.

End Confirmation.

(** ** trade.py: [Asset], [Item], [Inventory] *)

(** [Game] is declared in [game.py], which is not at hand; only the
    [app_id] it is built from is kept. *)
Record Game : Type := { game_app_id : pyval }.

Record Asset : Type := {
  game : Game;
  asset_id : Z;
  app_id : Z;
  amount : Z;
  instance_id : Z;
  class_id : Z
}.

(** [Item] extends [Asset]: [item_asset] holds the inherited slots. *)
Record Item : Type := {
  item_asset : Asset;
  name : pyval;
  colour : option Z;
  market_name : pyval;
  type : pyval;
  missing : bool;
  _is_tradable : bool;
  _is_marketable : bool
}.

(** The objects that can stand on the right of [==]. *)
Inductive pyobject : Type :=
| ObjAsset (a : Asset)
| ObjItem (i : Item)
| ObjValue (v : pyval).

(** [isinstance(o, Asset)], with the slots of the [Asset] inside. *)
Definition as_asset (o : pyobject) : option Asset :=
  match o with
  | ObjAsset a => Some a
  | ObjItem i => Some (item_asset i)
  | ObjValue _ => None
  end.

Module Asset.

Definition __init__ (data : gmap string pyval) : result Asset :=
  (assetid <- getitem data "assetid" ;;
   asset_id <- py_int assetid ;;
   appid <- getitem data "appid" ;;
   let game := Build_Game appid in
   app_id <- py_int appid ;;
   amount_ <- getitem data "amount" ;;
   amount <- py_int amount_ ;;
   instanceid <- getitem data "instanceid" ;;
   instance_id <- py_int instanceid ;;
   classid <- getitem data "classid" ;;
   class_id <- py_int classid ;;
   Ok (Build_Asset game asset_id app_id amount instance_id class_id))%res.

Definition __eq__ (self : Asset) (other : pyobject) : bool :=
  match as_asset other with
  | Some o => Z.eqb (instance_id self) (instance_id o) && Z.eqb (class_id self) (class_id o)
  | None => false
  end.

Definition __ne__ (self : Asset) (other : pyobject) : bool :=
  negb (__eq__ self other).

(** [to_dict]. [context_id] stands for [self.game.context_id], an
    attribute that [game.py] gives every [Game]. *)
Definition to_dict (context_id : Game -> Z) (self : Asset) : gmap string pyval :=
  list_to_map [("assetid", VStr (py_str (asset_id self)));
               ("amount", VInt (amount self));
               ("appid", VStr (py_str (app_id self)));
               ("contextid", VStr (py_str (context_id (game self))))].

End Asset.

Module Item.

Definition __init__ (data : gmap string pyval) (missing : bool) : result Item :=
  (base <- Asset.__init__ data ;;
   (* _from_data *)
   let name := dict_get data "name" VNone in
   colour <- match data !! "name_color" with
             | Some c => c' <- py_int16 c ;; Ok (Some c')
             | None => Ok None
             end ;;
   let market_name := dict_get data "market_name" VNone in
   let type := dict_get data "type" VNone in
   let tradable := py_truthy (dict_get data "tradable" (VBool false)) in
   let marketable := py_truthy (dict_get data "marketable" (VBool false)) in
   Ok (Build_Item base name colour market_name type missing tradable marketable))%res.

(** [x == y] on two items: [Asset.__eq__], which [Item] inherits. *)
Definition eqb (x y : Item) : bool := Asset.__eq__ (item_asset x) (ObjItem y).

Definition is_asset (self : Item) : bool := missing self.

End Item.

(** The payload of an inventory request: each field is [None] when the
    key is absent from the mapping. *)
Record Payload : Type := {
  assets : option (list (gmap string pyval));
  descriptions : option (list (gmap string pyval));
  total_inventory_count : option pyval
}.

Record Inventory : Type := {
  inv_game : option Game;          (* [game] *)
  items : list Item;
  _total_inventory_count : pyval
}.

(** [l[:n]] *)
Definition slice_to {A : Type} (l : list A) (n : Z) : list A :=
  if n <? 0 then take (Z.to_nat (Z.of_nat (length l) + n)) l else take (Z.to_nat n) l.

(** [l.remove(x)]: the first element equal to [x] goes; [ValueError]
    when there is none. *)
Fixpoint list_remove (x : Item) (l : list Item) : result (list Item) :=
  match l with
  | [] => Raise ValueError
  | y :: l' =>
      if Item.eqb y x then Ok l'
      else (l'' <- list_remove x l' ;; Ok (y :: l''))%res
  end.

(** [sys.maxsize] on a 64-bit build. *)
Definition sys_maxsize : Z := 2 ^ 63 - 1.

Module Inventory.

(** The inner loop of [_update] for one asset: [for item in
    data['descriptions']]. A matching description is updated in place
    from the asset, so the descriptions are returned as they stand
    after the loop, together with the items appended. *)
Fixpoint scan_descriptions (asset : gmap string pyval)
    (descs : list (gmap string pyval))
    : result (list (gmap string pyval) * list Item) :=
  match descs with
  | [] => Ok ([], [])
  | item :: rest =>
      (i_inst <- getitem item "instanceid" ;;
       a_inst <- getitem asset "instanceid" ;;
       matched <- (if py_eq i_inst a_inst
                   then (i_cls <- getitem item "classid" ;;
                         a_cls <- getitem asset "classid" ;;
                         Ok (py_eq i_cls a_cls))
                   else Ok false) ;;
       if (matched : bool)
       then
         let item' := asset ∪ item in          (* item.update(asset) *)
         new <- Item.__init__ item' false ;;
         r <- scan_descriptions asset rest ;;
         Ok (item' :: r.1, new :: r.2)
       else
         r <- scan_descriptions asset rest ;;
         Ok (item :: r.1, r.2))%res
  end.

(** The outer loop of [_update]: [for asset in data['assets']]. [acc]
    is [self.items]. *)
Fixpoint reconcile (assets : list (gmap string pyval))
    (descs : option (list (gmap string pyval))) (acc : list Item)
    : result (list Item) :=
  match assets with
  | [] => Ok acc
  | asset :: more =>
      match descs with
      | None => Raise (KeyError "descriptions")
      | Some ds =>
          (r <- scan_descriptions asset ds ;;
           lone <- Item.__init__ asset true ;;
           reconcile more (Some r.1) (acc ++ r.2 ++ [lone]))%res
      end
  end.

(** [Game(app_id=int(data['assets'][0]['appid']))], the [try] block of
    [_update]. *)
Definition first_game (data : Payload) : result Game :=
  match assets data with
  | None => Raise (KeyError "assets")
  | Some [] => Raise IndexError
  | Some (first :: _) =>
      (appid <- getitem first "appid" ;;
       n <- py_int appid ;;
       Ok (Build_Game (VInt n)))%res
  end.

Definition _update (self : Inventory) (data : Payload) : result Inventory :=
  match first_game data with
  | Raise (KeyError _) => Ok (Build_Inventory None [] (VInt 0))
  | Raise e => Raise e
  | Ok g =>
      (its <- reconcile (default [] (assets data)) (descriptions data) (items self) ;;
       match total_inventory_count data with
       | Some total => Ok (Build_Inventory (Some g) its total)
       | None => Raise (KeyError "total_inventory_count")
       end)%res
  end.

Definition __init__ (data : Payload) : result Inventory :=
  _update (Build_Inventory None [] VNone) data.

(** [len(x)]: the value that [__len__] returns must be an integer, not
    negative and not above [sys.maxsize]. *)
Definition __len__ (self : Inventory) : result Z :=
  match _total_inventory_count self with
  | VInt n => if n <? 0 then Raise ValueError
              else if sys_maxsize <? n then Raise OverflowError
              else Ok n
  | VBool b => Ok (if b then 1 else 0)
  | _ => Raise TypeError
  end.

(** The loop [for item in items: self.items.remove(item)]; the list
    reached so far stays in place when a removal raises. *)
Fixpoint remove_each (found : list Item) (current : list Item)
    : result unit * list Item :=
  match found with
  | [] => (Ok tt, current)
  | item :: found' =>
      match list_remove item current with
      | Ok current' => remove_each found' current'
      | Raise e => (Raise e, current)
      end
  end.

Definition filter_items (self : Inventory) (item_name : pyval) (limit : option Z)
    : result (list Item) * Inventory :=
  let found := filter (fun i => py_eq (name i) item_name = true) (items self) in
  let found := slice_to found (match limit with
                               | None => Z.of_nat (length found) - 1
                               | Some m => m
                               end) in
  let r := remove_each found (items self) in
  (match r.1 with Ok _ => Ok found | Raise e => Raise e end,
   Build_Inventory (inv_game self) r.2 (_total_inventory_count self)).

(** [update]: the inventory is fetched again and [_update] runs on the
    object as it stands. [fetch_user_inventory] is the transport's call
    and [context_id] stands for [self.game.context_id]; [self.game] is
    [None] after a payload without assets, and [None.app_id] raises. *)
Definition update (fetch_user_inventory : Z -> pyval -> pyval -> result Payload)
    (context_id : Game -> pyval) (owner_id64 : Z) (self : Inventory) : result Inventory :=
  match inv_game self with
  | None => Raise AttributeError
  | Some g =>
      (data <- fetch_user_inventory owner_id64 (game_app_id g) (context_id g) ;;
       _update self data)%res
  end.

End Inventory.

(** ** trade.py: [TradeOffer] *)

(** Modelled from the spec: the enumeration of trade-offer states, which
    [trade.py] imports from [enums.py]; the members are those that
    section 4.3 of the specification lists. *)
Inductive ETradeOfferState : Type :=
| Invalid
| Active
| Accepted
| Countered
| Expired
| Canceled
| Declined
| InvalidItems
| ConfirmationNeed
| CanceledBySecondFactor
| InEscrow.

Module ETradeOfferState.

(** [x == y] on members. *)
Definition eqb (x y : ETradeOfferState) : bool :=
  match x, y with
  | Invalid, Invalid | Active, Active | Accepted, Accepted
  | Countered, Countered | Expired, Expired | Canceled, Canceled
  | Declined, Declined | InvalidItems, InvalidItems
  | ConfirmationNeed, ConfirmationNeed
  | CanceledBySecondFactor, CanceledBySecondFactor
  | InEscrow, InEscrow => true
  | _, _ => false
  end.

(** [bool(x)]: the members of an enumeration are true (the integer
    values behind the states are not zero). *)
Definition truthy (x : ETradeOfferState) : bool := true.

(** [x or y] *)
Definition or (x y : ETradeOfferState) : ETradeOfferState :=
  if truthy x then x else y.

(** The right operands of [in] that [trade.py] writes: a tuple of
    members, as in [(Active, ConfirmationNeed)], or a parenthesised
    expression whose value is one member, as in
    [(Active or ConfirmationNeed)]. *)
Inductive operand : Type :=
| Tuple (members : list ETradeOfferState)
| Member (m : ETradeOfferState).

(** [x in c]. A tuple is searched with [==]. A member of an enumeration
    is not a container (it has no [__contains__], [__iter__] or
    [__getitem__]), so the test raises [TypeError: argument of type
    'ETradeOfferState' is not iterable]. *)
Definition contains (c : operand) (x : ETradeOfferState) : result bool :=
  match c with
  | Tuple members => Ok (existsb (eqb x) members)
  | Member _ => Raise TypeError
  end.

(** [x not in c] *)
Definition not_in (x : ETradeOfferState) (c : operand) : result bool :=
  (b <- contains c x ;; Ok (negb b))%res.

End ETradeOfferState.

Record TradeOffer : Type := {
  id : Z;
  state : ETradeOfferState;
  escrow : option Z;
  partner : option Z;              (* [partner.id64]; unset before [__ainit__] *)
  message : option string;
  expires : Z;
  items_to_send : list Item;
  items_to_receive : list Item;
  _id_other : Z;
  _is_our_offer : bool
}.

(** [if l] for a list. *)
Definition nonempty {A : Type} (l : list A) : bool :=
  match l with
  | [] => false
  | _ => true
  end.

Module TradeOffer.

Definition is_gift (self : TradeOffer) : bool :=
  if nonempty (items_to_receive self) && negb (nonempty (items_to_send self))
  then true else false.

Definition is_one_sided (self : TradeOffer) : bool :=
  if negb (nonempty (items_to_receive self)) && nonempty (items_to_send self) then true
  else if nonempty (items_to_receive self) && negb (nonempty (items_to_send self)) then true
  else false.

Definition is_our_offer (self : TradeOffer) : bool := _is_our_offer self.

Definition confirm (self : TradeOffer) : M unit :=
  if is_gift self then ret tt
  else
    (outside <- lift (ETradeOfferState.not_in (state self)
                        (ETradeOfferState.Tuple [Active; ConfirmationNeed])) ;;
     if (outside : bool)
     then raise (ClientException "This trade cannot be confirmed")
     else
       confirmation <- lookup_confirmation (id self) ;;
       match confirmation with
       | Some confirmation => Confirmation.confirm confirmation
       | None => raise (ConfirmationError "No matching confirmation could be found for this trade")
       end)%eff.

Definition accept (self : TradeOffer) : M unit :=
  if negb (ETradeOfferState.eqb (state self) Active)
  then raise (ClientException "This trade is not active")
  else if ETradeOfferState.eqb (state self) Accepted
  then raise (ClientException "This trade has already been accepted")
  else if is_our_offer self
  then raise (ClientException "You cannot accept an offer the ClientUser has made")
  else
    (partner_id64 <- lift (match partner self with
                           | Some p => Ok p
                           | None => Raise AttributeError
                           end) ;;
     resp <- request (AcceptUserTrade partner_id64 (id self)) ;;
     if py_truthy (resp_get resp "needs_mobile_confirmation" (VBool false))
     then
       env <- ask ;;
       match identity_secret env with
       | Some secret => if negb (String.eqb secret "") then confirm self else ret tt
       | None => ret tt
       end
     else ret tt)%eff.

(** Lines 424-428: the checks of [decline] that follow the state
    test, and the call. *)
Definition decline_checked (self : TradeOffer) : M unit :=
  if ETradeOfferState.eqb (state self) Declined
  then raise (ClientException "This trade has already been declined")
  else if is_our_offer self
  then raise (ClientException "You cannot decline an offer the ClientUser has made")
  else (request (DeclineUserTrade (id self)) ;; ret tt)%eff.

Definition decline (self : TradeOffer) : M unit :=
  (outside <- lift (ETradeOfferState.not_in (state self)
                      (ETradeOfferState.Member (ETradeOfferState.or Active ConfirmationNeed))) ;;
   if (outside : bool)
   then raise (ClientException "This trade is not active")
   else decline_checked self)%eff.

(** Lines 441-445: the checks of [cancel] that follow the state test,
    and the call. *)
Definition cancel_checked (self : TradeOffer) : M unit :=
  if ETradeOfferState.eqb (state self) Canceled
  then raise (ClientException "This trade has already been cancelled")
  else if negb (is_gift self)
  then raise (ClientException "Offer wasn't created by the ClientUser and therefore cannot be canceled")
  else (request (CancelUserTrade (id self)) ;; ret tt)%eff.

Definition cancel (self : TradeOffer) : M unit :=
  (outside <- lift (ETradeOfferState.not_in (state self)
                      (ETradeOfferState.Member (ETradeOfferState.or Active ConfirmationNeed))) ;;
   if (outside : bool)
   then raise (ClientException "This trade is not active")
   else cancel_checked self)%eff.

End TradeOffer.

(** ** user.py: the confirmation phase of [User.send] *)

Definition set_state (trade : TradeOffer) (st : ETradeOfferState) : TradeOffer :=
  {| id := id trade; state := st; escrow := escrow trade; partner := partner trade;
     message := message trade; expires := expires trade;
     items_to_send := items_to_send trade; items_to_receive := items_to_receive trade;
     _id_other := _id_other trade; _is_our_offer := _is_our_offer trade |}.

Module User.

(** [for tries in range(5): try: await trade.confirm() ...], with
    [range] the values of [tries] still to come. [confirm] is the
    bound method [trade.confirm]. A [ConfirmationError] breaks out of
    the loop, a [ClientException] is followed by a sleep, any other
    exception leaves the loop and [send] with it. *)
Fixpoint confirm_loop (confirm : M unit) (range : list Z) : M unit :=
  match range with
  | [] => ret tt
  | tries :: range' =>
      fun env w =>
        match confirm env w with
        | (Ok _, w') => confirm_loop confirm range' env w'
        | (Raise (ConfirmationError _), w') => (Ok tt, w')
        | (Raise (ClientException _), w') =>
            (sleep (tries * 2) ;; confirm_loop confirm range')%eff env w'
        | (Raise e, w') => (Raise e, w')
        end
  end.

(** Lines 220-228 of [send]: [if needs_confirmation:] the loop, then
    [trade.state = TradeOfferState.Active]. *)
Definition send_confirmation (confirm : TradeOffer -> M unit)
    (needs_confirmation : bool) (trade : TradeOffer) : M TradeOffer :=
  if needs_confirmation
  then (confirm_loop (confirm trade) [0; 1; 2; 3; 4] ;;
        ret (set_state trade Active))%eff
  else ret trade.

End User.

(** A stand-in for [trade.confirm()] in simulations: the invocation made
    when [n] requests have been issued ends as [script n] says, and is
    itself recorded as one request. *)
Definition scripted_confirm (script : nat -> result unit) (trade : TradeOffer) : M unit :=
  fun _ w =>
    (script (length (calls w)), add_call (HttpGet "mobileconf/ajaxop" ∅) w).

(** An environment for simulations: the transport answers the [n]-th
    call with the [n]-th response of [feed] and fails once the feed is
    used up; confirmation codes are generated, the manager knows the
    confirmations of [known]. *)
Definition scripted_env (feed : list Response) (known : list Confirmation) : Env :=
  {| device_id := "android:0";
     user_id64 := 76561197960265728;
     generate_code := fun tag => Ok ("code", 1600000000);
     transport := fun n _ => match feed !! n with
                             | Some r => Ok r
                             | None => Raise HTTPException
                             end;
     get_confirmation := fun _ trade_id =>
       List.find (fun c => Z.eqb (conf_trade_id c) trade_id) known;
     identity_secret := Some "YWJj" |}.

(** The degenerate failure [{"success": false}] and a success. *)
Definition rejected : Response := {["success" := VBool false]}.
Definition accepted : Response := {["success" := VBool true]}.

(** [resp.get("success", False)] as a truth value. *)
Definition success (r : Response) : bool :=
  py_truthy (resp_get r "success" (VBool false)).

(** The transport answers the calls issued from [w] on with the
    responses of [feed], in order. *)
Definition answers (env : Env) (w : World) (feed : list Response) : Prop :=
  forall (i : nat) (r : Response),
    feed !! i = Some r -> forall c, transport env (length (calls w) + i) c = Ok r.

(** The loop only lets exceptions through that are neither
    [ConfirmationError] nor [ClientException]. *)
Definition handled (r : result unit) : Prop :=
  match r with
  | Ok _ | Raise (ClientException _) | Raise (ConfirmationError _) => True
  | Raise _ => False
  end.

(** ** Notions used in the statements about inventories *)

(** The items flagged [missing]. *)
Definition flagged_missing (l : list Item) : list Item :=
  filter (fun i => missing i = true) l.

(** What [==] on items looks at. *)
Definition item_key (i : Item) : Z * Z :=
  (instance_id (item_asset i), class_id (item_asset i)).

(** [l] without the first element equal to [x], if any. *)
Fixpoint remove_first (x : Item) (l : list Item) : list Item :=
  match l with
  | [] => []
  | y :: l' => if Item.eqb y x then l' else y :: remove_first x l'
  end.

(** [l] without its first [j] elements named [item_name]. *)
Fixpoint without_first_named (item_name : pyval) (j : nat) (l : list Item) : list Item :=
  match l with
  | [] => []
  | x :: l' =>
      match j with
      | O => x :: l'
      | S j' =>
          if py_eq (name x) item_name
          then without_first_named item_name j' l'
          else x :: without_first_named item_name j l'
      end
  end.

(** ** Sample data *)

Definition sample_confirmation : Confirmation :=
  {| conf_id := "10"; data_conf_id := 11; data_key := "12"; conf_trade_id := 42 |}.

(** An offer received from a partner, with nothing on either side. *)
Definition sample_offer (st : ETradeOfferState) : TradeOffer :=
  {| id := 42; state := st; escrow := None; partner := Some 76561197960265729;
     message := None; expires := 1600000000;
     items_to_send := []; items_to_receive := [];
     _id_other := 1; _is_our_offer := false |}.

(** [confirm()] fails with [ClientException] until four requests have
    been issued, then returns. *)
Definition busy_four_times (n : nat) : result unit :=
  if (n <? 4)%nat then Raise (ClientException "busy") else Ok tt.

Definition sample_asset (assetid : string) : gmap string pyval :=
  list_to_map [("assetid", VStr assetid); ("appid", VInt 440); ("contextid", VStr "2");
               ("amount", VStr "1"); ("instanceid", VStr "0"); ("classid", VStr "7")].

Definition sample_description : gmap string pyval :=
  list_to_map [("instanceid", VStr "0"); ("classid", VStr "7"); ("name", VStr "key");
               ("tradable", VInt 1)].

(** One asset and the one description that matches it. *)
Definition payload_one : Payload :=
  {| assets := Some [sample_asset "1"];
     descriptions := Some [sample_description];
     total_inventory_count := Some (VInt 1) |}.

(** Two assets of the same kind, sharing one description. *)
Definition payload_two : Payload :=
  {| assets := Some [sample_asset "1"; sample_asset "2"];
     descriptions := Some [sample_description];
     total_inventory_count := Some (VInt 2) |}.

(** An asset that no description matches. *)
Definition payload_lone : Payload :=
  {| assets := Some [sample_asset "1"];
     descriptions := Some [];
     total_inventory_count := Some (VInt 1) |}.

(** What distinguishes the items of the samples: asset id, name and the
    [missing] flag. *)
Definition summary (i : Item) : Z * pyval * bool :=
  (asset_id (item_asset i), name i, missing i).

(** The inventory that [payload_two] gives. *)
Definition inventory_two : Inventory :=
  match Inventory.__init__ payload_two with
  | Ok inv => inv
  | Raise _ => Build_Inventory None [] VNone
  end.

(** The items of [l] named [item_name], in order. *)
Definition named (item_name : pyval) (l : list Item) : list Item :=
  filter (fun i => py_eq (name i) item_name = true) l.

(** ** Notions used in the statements about the code generator *)

Definition is_hex (c : ascii) : Prop := In c (list_ascii_of_string "0123456789abcdef").

Definition in_alphabet (c : ascii) : Prop := In c (list_ascii_of_string chars).

(** The timestamp that the generators work with: the one given, or the
    clock's reading when it is omitted or zero. *)
Definition effective_timestamp (now : Z) (timestamp : option Z) : Z :=
  match timestamp with
  | Some t => if t =? 0 then now else t
  | None => now
  end.

(** ** Notions used in the statements about confirmations *)

(** The request that an attempt of [_perform_op] sends once the code
    and timestamp [ct] have been generated. *)
Definition ajaxop_call (env : Env) (self : Confirmation) (op : string) (ct : string * Z)
    : Call :=
  HttpGet "mobileconf/ajaxop"
    (<["ck" := VStr (data_key self)]>
     (<["cid" := VInt (data_conf_id self)]>
      (<["op" := VStr op]>
       (<["p" := VStr (device_id env)]>
        (<["a" := VInt (user_id64 env)]>
         (<["k" := VStr ct.1]>
          (<["t" := VInt ct.2]>
           (<["m" := VStr "android"]>
            (<["tag" := VStr op]> ∅))))))))).

(** A request to the confirmation endpoint, signed for operation [op]
    of the confirmation [self]. *)
Definition ajaxop_request (env : Env) (self : Confirmation) (op : string) (c : Call) : Prop :=
  exists params,
    c = HttpGet "mobileconf/ajaxop" params
    /\ params !! "op" = Some (VStr op)
    /\ params !! "tag" = Some (VStr op)
    /\ params !! "cid" = Some (VInt (data_conf_id self))
    /\ params !! "ck" = Some (VStr (data_key self))
    /\ params !! "p" = Some (VStr (device_id env))
    /\ params !! "a" = Some (VInt (user_id64 env))
    /\ params !! "m" = Some (VStr "android").

(** The response of the accept endpoint asks for a mobile
    confirmation. *)
Definition needs_mobile_confirmation (r : Response) : bool :=
  py_truthy (resp_get r "needs_mobile_confirmation" (VBool false)).

(** A response that asks for a mobile confirmation. *)
Definition confirmation_needed : Response :=
  {["needs_mobile_confirmation" := VBool true]}.

(** An offer to give one item and receive none. *)
Definition sample_item : Item :=
  {| item_asset := Build_Asset (Build_Game (VInt 440)) 1 440 1 0 7;
     name := VStr "key"; colour := None; market_name := VNone; type := VNone;
     missing := false; _is_tradable := true; _is_marketable := false |}.

Definition sample_giving_offer (st : ETradeOfferState) : TradeOffer :=
  {| id := 42; state := st; escrow := None; partner := Some 76561197960265729;
     message := None; expires := 1600000000;
     items_to_send := [sample_item]; items_to_receive := [];
     _id_other := 1; _is_our_offer := false |}.

(** A client without identity secret whose transport always asks for a
    mobile confirmation. *)
Definition env_without_secret : Env :=
  {| device_id := "android:0"; user_id64 := 1;
     generate_code := fun _ => Ok ("code", 1);
     transport := fun _ _ => Ok confirmation_needed;
     get_confirmation := fun _ _ => Some sample_confirmation;
     identity_secret := None |}.

(** A transport that accepts every request. *)
Definition env_always_accepting : Env :=
  {| device_id := "android:0"; user_id64 := 1;
     generate_code := fun _ => Ok ("code", 1);
     transport := fun _ _ => Ok accepted;
     get_confirmation := fun _ _ => Some sample_confirmation;
     identity_secret := Some "YWJj" |}.

(** The value that a character contributes as a decimal digit. *)
Definition digit_of (c : ascii) : Z :=
  match digit_value c with
  | Some d => d
  | None => 0
  end.

(** The characters that [decimal_digits] produces. *)
Definition decimal (c : ascii) : Prop := exists d, 0 <= d < 10 /\ c = digit_char d.

(** Two assets, the first of which has lost its [appid]. *)
Definition payload_first_without_appid : Payload :=
  {| assets := Some [delete "appid" (sample_asset "1"); sample_asset "2"];
     descriptions := Some [sample_description];
     total_inventory_count := Some (VInt 2) |}.

(** The integers [0 .. n-1]. *)
Definition below (n : nat) : list Z := map Z.of_nat (seq 0 n).

(** * Properties *)

(** ** Asset equality *)

Lemma Asset_eq_unfold (a b : Asset) :
  Asset.__eq__ a (ObjAsset b)
  = Z.eqb (instance_id a) (instance_id b) && Z.eqb (class_id a) (class_id b).
Proof. reflexivity. Qed.

(** C9. Two assets compare equal exactly when their [class_id] and
    [instance_id] agree, whatever their [amount] and [asset_id]; they
    compare unequal exactly when one of the two differs; and [!=] is the
    negation of [==]. *)
Theorem Asset_eq_class_instance (a b : Asset) :
  (Asset.__eq__ a (ObjAsset b) = true
     <-> class_id a = class_id b /\ instance_id a = instance_id b) /\
  (Asset.__eq__ a (ObjAsset b) = false
     <-> class_id a <> class_id b \/ instance_id a <> instance_id b) /\
  Asset.__ne__ a (ObjAsset b) = negb (Asset.__eq__ a (ObjAsset b)).
Proof.
  split; [| split; [| reflexivity]]; rewrite Asset_eq_unfold;
    destruct (Z.eqb_spec (instance_id a) (instance_id b)) as [Hi | Hi];
    destruct (Z.eqb_spec (class_id a) (class_id b)) as [Hc | Hc]; simpl;
    intuition congruence.
Qed.

(** Assets that differ only in quantity and owner are equal. *)
Example Asset_eq_other_amount :
  Asset.__eq__ (Build_Asset (Build_Game (VInt 440)) 1 440 1 0 7)
               (ObjAsset (Build_Asset (Build_Game (VInt 440)) 2 440 30 0 7)) = true.
Proof. reflexivity. Qed.

(** An item is an asset: the inherited comparison looks at the same two
    slots. *)
Lemma Item_eqb_spec (x y : Item) :
  Item.eqb x y = true
  <-> instance_id (item_asset x) = instance_id (item_asset y)
      /\ class_id (item_asset x) = class_id (item_asset y).
Proof.
  unfold Item.eqb, Asset.__eq__; simpl.
  rewrite andb_true_iff, !Z.eqb_eq. tauto.
Qed.

(** ** The code generator *)

Lemma length_be_bytes (n : nat) (z : Z) : length (be_bytes n z) = n.
Proof.
  revert z; induction n as [| n IH]; intros z; simpl; [reflexivity |].
  rewrite length_app, IH; simpl; lia.
Qed.

Lemma length_sha1 (m : list byte) : length (sha1 m) = 20%nat.
Proof. unfold sha1; rewrite !length_app, !length_be_bytes; reflexivity. Qed.

Lemma length_hmac_sha1 (key msg : list byte) : length (hmac_sha1 key msg) = 20%nat.
Proof. apply length_sha1. Qed.

Lemma byte_to_Z_range (b : byte) : 0 <= byte_to_Z b < 256.
Proof.
  unfold byte_to_Z. pose proof (Byte.to_N_bounded b) as H.
  split; [apply N2Z.is_nonneg |]. lia.
Qed.

Lemma bytes_index_nth (bs : list byte) (i : nat) :
  (i < length bs)%nat ->
  bytes_index bs (Z.of_nat i) = Ok (byte_to_Z (nth i bs x00)).
Proof.
  intros Hi. unfold bytes_index.
  destruct (Z.ltb_spec (Z.of_nat i) 0) as [? | _]; [lia |].
  destruct (Z.leb_spec 0 (Z.of_nat i)) as [_ | ?]; [| lia].
  destruct (Z.ltb_spec (Z.of_nat i) (Z.of_nat (length bs))) as [_ | ?]; [| lia].
  simpl. rewrite Nat2Z.id.
  destruct (bs !! i) as [b |] eqn:Hb.
  - rewrite (nth_lookup_Some _ _ _ _ Hb). reflexivity.
  - apply lookup_ge_None in Hb. lia.
Qed.

(** The alphabet has 26 symbols and every remainder modulo 26 picks
    one. *)
Lemma str_index_chars (i : Z) :
  0 <= i < 26 ->
  str_index chars i
  = Ok (match String.get (Z.to_nat i) chars with Some c => c | None => "?"%char end).
Proof.
  intros Hi. rewrite <- (Z2Nat.id i) at 1 by lia.
  assert (Hn : (Z.to_nat i < 26)%nat) by lia.
  revert Hn. generalize (Z.to_nat i) as n. intros n Hn.
  do 26 (destruct n as [| n]; [reflexivity |]). lia.
Qed.

Lemma code_loop_digits (v : Z) (n k : nat) (acc : list ascii) :
  0 <= v ->
  code_loop n (v / 26 ^ Z.of_nat k) acc = Ok (acc ++ map (spec_digit v) (seq k n)).
Proof.
  intros Hv. revert k acc. induction n as [| n IH]; intros k acc.
  - cbn [code_loop seq map]. rewrite app_nil_r. reflexivity.
  - cbn [code_loop seq map].
    change (Z.of_nat (String.length chars)) with 26.
    rewrite str_index_chars by (apply Z.mod_pos_bound; lia).
    cbn [rbind].
    rewrite Z.div_div by (try apply Z.pow_pos_nonneg; lia).
    replace (26 ^ Z.of_nat k * 26) with (26 ^ Z.of_nat (S k))
      by (rewrite Nat2Z.inj_succ, Z.pow_succ_r by lia; lia).
    rewrite IH, <- app_assoc. reflexivity.
Qed.

Lemma load_global_time : load_global "time" = Ok TimeModule.
Proof. vm_compute. reflexivity. Qed.

Lemma timestamp_or_explicit (t : Z) (dflt : result Z) :
  t <> 0 -> timestamp_or (Some t) dflt = Ok t.
Proof.
  intros Ht. unfold timestamp_or.
  destruct (Z.eqb_spec t 0) as [? | _]; [contradiction | reflexivity].
Qed.

(** In [generate_one_time_code] the clock is read through the module:
    [time.time()] is the function. *)
Lemma one_time_code_clock (now : Z) :
  (m <- load_global "time" ;; f <- py_getattr m "time" ;; py_call_int now f)%res = Ok now.
Proof. rewrite load_global_time. reflexivity. Qed.

(** In [generate_confirmation_code] the name [time] itself is called,
    and it is the module. *)
Lemma confirmation_code_clock (now : Z) :
  (f <- load_global "time" ;; py_call_int now f)%res = Raise TypeError.
Proof. rewrite load_global_time. reflexivity. Qed.

(** C7, as amended. For a secret that decodes and a positive timestamp
    whose 30-second window index fits the unsigned 64-bit field
    ([timestamp < 30 * 2^64]), [generate_one_time_code] returns the
    five-character string that the specification describes; the result
    does not depend on the clock. *)
Theorem generate_one_time_code_spec (now : Z) (shared_secret : string)
    (key : list byte) (timestamp : Z) :
  b64decode shared_secret = Ok key ->
  0 < timestamp ->
  timestamp < 30 * 2 ^ 64 ->
  generate_one_time_code now shared_secret (Some timestamp)
    = Ok (spec_one_time_code key timestamp)
  /\ String.length (spec_one_time_code key timestamp) = 5%nat
  /\ (forall now', generate_one_time_code now' shared_secret (Some timestamp)
                   = generate_one_time_code now shared_secret (Some timestamp)).
Proof.
  intros Hkey Hpos Hmax.
  assert (Hcode : forall clock, generate_one_time_code clock shared_secret (Some timestamp)
                                = Ok (spec_one_time_code key timestamp)).
  { intros clock. unfold generate_one_time_code.
    rewrite timestamp_or_explicit by lia. cbn [rbind].
    unfold struct_pack_Q.
    assert (Hlo : 0 <= timestamp / 30) by (apply Z.div_pos; lia).
    assert (Hhi : timestamp / 30 < 2 ^ 64) by (apply Z.div_lt_upper_bound; lia).
    destruct (Z.leb_spec 0 (timestamp / 30)) as [_ | ?]; [| lia].
    destruct (Z.ltb_spec (timestamp / 30) (2 ^ 64)) as [_ | ?]; [| lia].
    cbn [andb rbind]. rewrite Hkey. cbn [rbind].
    set (digest := hmac_sha1 key (be_bytes 8 (timestamp / 30))).
    assert (Hlen : length digest = 20%nat) by apply length_hmac_sha1.
    change 19 with (Z.of_nat 19).
    rewrite bytes_index_nth by lia. cbn [rbind].
    set (last := byte_to_Z (nth 19 digest x00)).
    assert (Hlast : 0 <= last < 256) by apply byte_to_Z_range.
    change 15 with (Z.ones 4). rewrite Z.land_ones by lia.
    change (2 ^ 4) with 16.
    assert (Hbegin : 0 <= last mod 16 < 16) by (apply Z.mod_pos_bound; lia).
    unfold slice, struct_unpack_I.
    replace (last mod 16 + 4 - last mod 16) with 4 by lia.
    rewrite length_take, length_drop, Hlen.
    replace (Z.to_nat 4 `min` (20 - Z.to_nat (last mod 16)))%nat with 4%nat by lia.
    cbn [Nat.eqb rbind].
    change 2147483647 with (Z.ones 31). rewrite Z.land_ones by lia.
    set (v := be_decode _ mod 2 ^ 31).
    assert (Hv : 0 <= v) by (apply Z.mod_pos_bound; lia).
    pose proof (code_loop_digits v 5 0 [] Hv) as Hloop.
    change (26 ^ Z.of_nat 0) with 1 in Hloop. rewrite Z.div_1_r in Hloop.
    rewrite Hloop. reflexivity. }
  split; [apply Hcode |]. split; [reflexivity |].
  intros now'. rewrite !Hcode. reflexivity.
Qed.

(** A secret, a timestamp and the code they give. *)
Lemma generate_one_time_code_spec_witness :
  generate_one_time_code 0 "YWJj" (Some 1600000000) = Ok "XX5RR".
Proof.
  refine (eq_trans (proj1 (generate_one_time_code_spec 0 "YWJj"
            ["a"%byte; "b"%byte; "c"%byte] 1600000000 _ _ _)) _).
  - vm_compute. reflexivity.
  - lia.
  - lia.
  - vm_compute. reflexivity.
Defined.

(** C7 as stated fails for a positive timestamp beyond the 64-bit
    window field: [struct.pack] raises and no code is returned. *)
Lemma generate_one_time_code_large_timestamp :
  b64decode "YWJj" = Ok ["a"%byte; "b"%byte; "c"%byte]
  /\ 0 < 30 * 2 ^ 64
  /\ generate_one_time_code 0 "YWJj" (Some (30 * 2 ^ 64)) = Raise StructError.
Proof. split; [| split]; [vm_compute; reflexivity | lia | vm_compute; reflexivity]. Qed.

(** C10. With the timestamp omitted (or zero) [generate_confirmation_code]
    raises [TypeError] whatever the secret and the tag, also for a
    secret that would not decode; a code is returned only for an
    explicit non-zero timestamp, and then the outcome does not depend on
    the clock. *)
Theorem generate_confirmation_code_default_fails (now : Z)
    (identity_secret tag : string) :
  generate_confirmation_code now identity_secret tag None = Raise TypeError
  /\ generate_confirmation_code now identity_secret tag (Some 0) = Raise TypeError
  /\ (forall timestamp code,
        generate_confirmation_code now identity_secret tag timestamp = Ok code ->
        exists t, timestamp = Some t /\ t <> 0)
  /\ (forall t now', t <> 0 ->
        generate_confirmation_code now' identity_secret tag (Some t)
        = generate_confirmation_code now identity_secret tag (Some t)).
Proof.
  assert (Hnone : generate_confirmation_code now identity_secret tag None = Raise TypeError).
  { unfold generate_confirmation_code, timestamp_or.
    rewrite confirmation_code_clock. reflexivity. }
  assert (Hzero : generate_confirmation_code now identity_secret tag (Some 0) = Raise TypeError).
  { unfold generate_confirmation_code, timestamp_or. cbn [Z.eqb].
    rewrite confirmation_code_clock. reflexivity. }
  split; [exact Hnone | split; [exact Hzero | split]].
  - intros [t |] code Hcode.
    + exists t. split; [reflexivity |]. intros ->. congruence.
    + congruence.
  - intros t now' Ht. unfold generate_confirmation_code.
    rewrite !timestamp_or_explicit by assumption. reflexivity.
Qed.

(** An explicit timestamp does give a code. *)
Lemma generate_confirmation_code_default_fails_witness :
  generate_confirmation_code 0 "YWJj" "allow" (Some 1600000000)
    = Ok "S6Psu2RkDVPN/IJMzS8oXlXknEs="
  /\ generate_confirmation_code 1700000000 "YWJj" "allow" (Some 1600000000)
     = generate_confirmation_code 0 "YWJj" "allow" (Some 1600000000)
  /\ generate_confirmation_code 0 "not base64 !" "allow" None = Raise TypeError.
Proof.
  pose proof (generate_confirmation_code_default_fails 0 "YWJj" "allow") as [_ [_ [_ Hclock]]].
  pose proof (generate_confirmation_code_default_fails 0 "not base64 !" "allow") as [Hnone _].
  split; [vm_compute; reflexivity |].
  split; [apply Hclock; lia | exact Hnone].
Defined.

(** ** The confirmation retry policy *)

Section Retry.

Context {A : Type} (delay : Z) (body : M A) (env : Env).

Lemma retry_ok (more : nat) (w w' : World) (a : A) :
  body env w = (Ok a, w') -> retry more delay body env w = (Ok a, w').
Proof. intros H. destruct more; simpl; rewrite H; reflexivity. Qed.

Lemma retry_again (more : nat) (w w' : World) (e : exn) :
  body env w = (Raise e, w') ->
  retry (S more) delay body env w
  = retry more delay body env (add_sleep delay (add_log LogAfter w')).
Proof. intros H. simpl. rewrite H. reflexivity. Qed.

Lemma retry_exhausted (w w' : World) (e : exn) :
  body env w = (Raise e, w') ->
  retry 0 delay body env w = (Raise RetryError, add_log LogAfter w').
Proof. intros H. simpl. rewrite H. reflexivity. Qed.

End Retry.

Lemma performed_ops_add_log (ev : LogEvent) (w : World) :
  performed_ops (add_log ev w)
  = performed_ops w ++ match ev with LogPerformingOp op => [op] | _ => [] end.
Proof.
  unfold performed_ops, add_log; simpl. rewrite omap_app.
  destruct ev; reflexivity.
Qed.

Lemma performed_ops_add_call c w : performed_ops (add_call c w) = performed_ops w.
Proof. reflexivity. Qed.
Lemma performed_ops_add_sleep d w : performed_ops (add_sleep d w) = performed_ops w.
Proof. reflexivity. Qed.
Lemma performed_ops_add_ignored t w : performed_ops (add_ignored t w) = performed_ops w.
Proof. reflexivity. Qed.
Lemma slept_add_call c w : slept (add_call c w) = slept w.
Proof. reflexivity. Qed.
Lemma slept_add_sleep d w : slept (add_sleep d w) = slept w ++ [d].
Proof. reflexivity. Qed.
Lemma slept_add_ignored t w : slept (add_ignored t w) = slept w.
Proof. reflexivity. Qed.
Lemma slept_add_log ev w : slept (add_log ev w) = slept w.
Proof. reflexivity. Qed.
Lemma calls_add_call c w : calls (add_call c w) = calls w ++ [c].
Proof. reflexivity. Qed.
Lemma calls_add_sleep d w : calls (add_sleep d w) = calls w.
Proof. reflexivity. Qed.
Lemma calls_add_ignored t w : calls (add_ignored t w) = calls w.
Proof. reflexivity. Qed.
Lemma calls_add_log ev w : calls (add_log ev w) = calls w.
Proof. reflexivity. Qed.
Lemma ignored_add_call c w :
  confirmations_to_ignore (add_call c w) = confirmations_to_ignore w.
Proof. reflexivity. Qed.
Lemma ignored_add_sleep d w :
  confirmations_to_ignore (add_sleep d w) = confirmations_to_ignore w.
Proof. reflexivity. Qed.
Lemma ignored_add_ignored t w :
  confirmations_to_ignore (add_ignored t w) = confirmations_to_ignore w ++ [t].
Proof. reflexivity. Qed.
Lemma ignored_add_log ev w :
  confirmations_to_ignore (add_log ev w) = confirmations_to_ignore w.
Proof. reflexivity. Qed.

Create Rewrite HintDb world.
#[local] Hint Rewrite performed_ops_add_log performed_ops_add_call performed_ops_add_sleep
  performed_ops_add_ignored slept_add_call slept_add_sleep slept_add_ignored slept_add_log
  calls_add_call calls_add_sleep calls_add_ignored calls_add_log
  ignored_add_call ignored_add_sleep ignored_add_ignored ignored_add_log
  @length_app @app_nil_r : world.

(** Normalise the projections of a world built with [add_call],
    [add_sleep], [add_ignored] and [add_log], then compare the lists. *)
Ltac world :=
  autorewrite with world; cbn [app repeat length];
  rewrite <- ?app_assoc; cbn [app]; try reflexivity; try lia.

(** A mapping equal to [{'success': False}] has a falsy [success]. *)
Lemma dict_eq_rejected_falsy (d : gmap string pyval) :
  dict_eq d {["success" := VBool false]} = true ->
  py_truthy (dict_get d "success" (VBool false)) = false.
Proof.
  unfold dict_eq, dict_get. rewrite andb_true_iff, forallb_forall.
  intros [_ Hall]. destruct (d !! "success") as [v |] eqn:Hv; [| reflexivity].
  specialize (Hall ("success", v)). simpl in Hall.
  rewrite lookup_singleton_eq in Hall.
  assert (Heq : py_eq v (VBool false) = true).
  { apply Hall. apply list_elem_of_In, elem_of_map_to_list. exact Hv. }
  destruct v as [| [|] | z | t]; simpl in Heq; try discriminate; try reflexivity.
  simpl. apply Z.eqb_eq in Heq. subst z. reflexivity.
Qed.

Section Attempt.

Context (env : Env) (self : Confirmation) (op : string) (w : World).

(** One attempt, step by step: the attempt is logged; when no code is
    generated the error of the generator is raised; otherwise the
    request is sent, and either the transport raises or the call
    [resp.json()] on the dict it returned raises [AttributeError]. The
    lines after it, [_assert_valid] included, are not reached. *)
Lemma attempt_unfold :
  Confirmation._perform_op_attempt self op env w
  = match generate_code env op with
    | Raise e => (Raise e, add_log (LogPerformingOp op) w)
    | Ok ct =>
        (match transport env (length (calls w)) (ajaxop_call env self op ct) with
         | Ok _ => Raise AttributeError
         | Raise e => Raise e
         end,
         add_call (ajaxop_call env self op ct) (add_log (LogPerformingOp op) w))
    end.
Proof.
  unfold Confirmation._perform_op_attempt, Confirmation._confirm_params,
    bind, debug, ask, lift, ret, request, dict_json, ajaxop_call.
  destruct (generate_code env op) as [ct | e]; simpl; [| reflexivity].
  match goal with |- context [transport env ?n ?c] =>
    destruct (transport env n c) as [r | e] end; reflexivity.
Qed.

(** No attempt returns. *)
Lemma attempt_raises :
  exists e, (Confirmation._perform_op_attempt self op env w).1 = Raise e.
Proof.
  rewrite attempt_unfold.
  destruct (generate_code env op) as [ct | e]; simpl; [| eauto].
  destruct (transport env (length (calls w)) (ajaxop_call env self op ct)); simpl; eauto.
Qed.

(** Whatever its outcome, an attempt logs itself once, issues at most
    one request, does not sleep and leaves the ignore list alone. *)
Lemma attempt_footprint :
  slept (Confirmation._perform_op_attempt self op env w).2 = slept w
  /\ performed_ops (Confirmation._perform_op_attempt self op env w).2
     = performed_ops w ++ [op]
  /\ (length (calls (Confirmation._perform_op_attempt self op env w).2)
      <= length (calls w) + 1)%nat
  /\ confirmations_to_ignore (Confirmation._perform_op_attempt self op env w).2
     = confirmations_to_ignore w.
Proof.
  rewrite attempt_unfold.
  destruct (generate_code env op) as [ct | e]; simpl; repeat split; world.
Qed.

(** With a code at hand an attempt issues exactly one request. *)
Lemma attempt_one_call (ct : string * Z) :
  generate_code env op = Ok ct ->
  calls (Confirmation._perform_op_attempt self op env w).2
  = calls w ++ [ajaxop_call env self op ct].
Proof. intros Hgen. rewrite attempt_unfold, Hgen. reflexivity. Qed.

End Attempt.

(** The decorated operation: every attempt fails, so all the attempts
    allowed are made, with a sleep of 4 between two of them, and
    [RetryError] is raised; the ignore list is as it was. *)
Lemma retry_exhausts (env : Env) (self : Confirmation) (op : string) (more : nat) (w : World) :
  (retry more 4 (Confirmation._perform_op_attempt self op) env w).1 = Raise RetryError
  /\ performed_ops (retry more 4 (Confirmation._perform_op_attempt self op) env w).2
     = performed_ops w ++ repeat op (S more)
  /\ slept (retry more 4 (Confirmation._perform_op_attempt self op) env w).2
     = slept w ++ repeat 4 more
  /\ confirmations_to_ignore (retry more 4 (Confirmation._perform_op_attempt self op) env w).2
     = confirmations_to_ignore w.
Proof.
  revert w. induction more as [| more IH]; intros w;
    pose proof (attempt_footprint env self op w) as (Hs & Hp & _ & Hi);
    destruct (attempt_raises env self op w) as [e He];
    destruct (Confirmation._perform_op_attempt self op env w) as [r w1] eqn:Hatt;
    simpl in Hs, Hp, Hi, He; subst r.
  - rewrite (retry_exhausted _ _ _ _ _ _ Hatt). simpl.
    repeat split; world; rewrite ?Hs, ?Hp, ?Hi; world.
  - rewrite (retry_again _ _ _ _ _ _ _ Hatt).
    destruct (IH (add_sleep 4 (add_log LogAfter w1))) as (Hr & Hops & Hsl & Hign).
    rewrite Hr, Hops, Hsl, Hign.
    repeat split; world; rewrite ?Hs, ?Hp, ?Hi; world.
Qed.

(** When codes are generated, each of the attempts sends its
    request. *)
Lemma retry_calls (env : Env) (self : Confirmation) (op : string) (ct : string * Z)
    (more : nat) (w : World) :
  generate_code env op = Ok ct ->
  calls (retry more 4 (Confirmation._perform_op_attempt self op) env w).2
  = calls w ++ repeat (ajaxop_call env self op ct) (S more).
Proof.
  intros Hgen. revert w. induction more as [| more IH]; intros w;
    pose proof (attempt_one_call env self op w ct Hgen) as Hc;
    destruct (attempt_raises env self op w) as [e He];
    destruct (Confirmation._perform_op_attempt self op env w) as [r w1] eqn:Hatt;
    simpl in Hc, He; subst r.
  - rewrite (retry_exhausted _ _ _ _ _ _ Hatt). simpl. world. exact Hc.
  - rewrite (retry_again _ _ _ _ _ _ _ Hatt), IH. world. rewrite Hc. world.
Qed.

Lemma answers_scripted (feed : list Response) (known : list Confirmation) :
  answers (scripted_env feed known) world0 feed.
Proof. intros i r Hi c. simpl. rewrite Hi. reflexivity. Qed.

(** C2: what the code does. The responses are dicts, and [_perform_op]
    calls [resp.json()] on them before it validates them: every attempt
    raises [AttributeError], which the decorator answers with another
    attempt. An [allow] whose responses are [{"success": false}] twice
    and then [{"success": true}] does not succeed at its third attempt:
    a fourth attempt is made and [RetryError] is raised, after three
    sleeps of 4. A [cancel] whose first response is [{"success": false}]
    is not stopped by a confirmation error: it too is tried four times
    and ends in [RetryError], and the trade id is not recorded. *)
Theorem perform_op_every_attempt_fails :
  (Confirmation._perform_op sample_confirmation "allow"
     (scripted_env [rejected; rejected; accepted; accepted] []) world0).1 = Raise RetryError
  /\ performed_ops (Confirmation._perform_op sample_confirmation "allow"
                      (scripted_env [rejected; rejected; accepted; accepted] []) world0).2
     = ["allow"; "allow"; "allow"; "allow"]
  /\ slept (Confirmation._perform_op sample_confirmation "allow"
              (scripted_env [rejected; rejected; accepted; accepted] []) world0).2 = [4; 4; 4]
  /\ (Confirmation._perform_op sample_confirmation "cancel"
        (scripted_env [rejected; accepted; accepted; accepted] []) world0).1 = Raise RetryError
  /\ performed_ops (Confirmation._perform_op sample_confirmation "cancel"
                      (scripted_env [rejected; accepted; accepted; accepted] []) world0).2
     = ["cancel"; "cancel"; "cancel"; "cancel"]
  /\ slept (Confirmation._perform_op sample_confirmation "cancel"
              (scripted_env [rejected; accepted; accepted; accepted] []) world0).2 = [4; 4; 4]
  /\ confirmations_to_ignore
       (Confirmation._perform_op sample_confirmation "cancel"
          (scripted_env [rejected; accepted; accepted; accepted] []) world0).2 = [].
Proof.
  unfold Confirmation._perform_op.
  pose proof (retry_exhausts (scripted_env [rejected; rejected; accepted; accepted] [])
                sample_confirmation "allow" 3 world0) as (Ha & Hao & Has & _).
  pose proof (retry_exhausts (scripted_env [rejected; accepted; accepted; accepted] [])
                sample_confirmation "cancel" 3 world0) as (Hc & Hco & Hcs & Hci).
  rewrite Ha, Hao, Has, Hc, Hco, Hcs, Hci. repeat split.
Qed.

(** The validation that the attempts do not reach: on a body equal to
    [{"success": false}] it records the trade id and raises
    [ConfirmationError], for every operation, so that the test of
    [_perform_op] that follows it would not be reached either. *)
Lemma assert_valid_rejected (self : Confirmation) (resp : Response) (env : Env) (w : World) :
  dict_eq resp {["success" := VBool false]} = true ->
  Confirmation._assert_valid self resp env w
  = (Raise (ConfirmationError ""), add_ignored (conf_trade_id self) w).
Proof.
  intros H. apply dict_eq_rejected_falsy in H.
  unfold Confirmation._assert_valid, resp_get. rewrite H. reflexivity.
Qed.

(** ** The confirmation phase of [User.send] *)

Section ConfirmLoop.

Context (script : nat -> result unit) (trade : TradeOffer) (env : Env).

Let confirm : M unit := scripted_confirm script trade.
Let probe : Call := HttpGet "mobileconf/ajaxop" ∅.

Lemma confirm_loop_ok (tries : Z) (range : list Z) (w : World) :
  script (length (calls w)) = Ok tt ->
  User.confirm_loop confirm (tries :: range) env w
  = User.confirm_loop confirm range env (add_call probe w).
Proof. intros H. simpl. unfold confirm, scripted_confirm. rewrite H. reflexivity. Qed.

Lemma confirm_loop_client_exception (tries : Z) (range : list Z) (w : World) (msg : string) :
  script (length (calls w)) = Raise (ClientException msg) ->
  User.confirm_loop confirm (tries :: range) env w
  = User.confirm_loop confirm range env (add_sleep (tries * 2) (add_call probe w)).
Proof. intros H. simpl. unfold confirm, scripted_confirm. rewrite H. reflexivity. Qed.

Lemma confirm_loop_confirmation_error (tries : Z) (range : list Z) (w : World) (msg : string) :
  script (length (calls w)) = Raise (ConfirmationError msg) ->
  User.confirm_loop confirm (tries :: range) env w = (Ok tt, add_call probe w).
Proof. intros H. simpl. unfold confirm, scripted_confirm. rewrite H. reflexivity. Qed.

(** One invocation of [confirm] per value of [tries], at most. *)
Lemma confirm_loop_attempts (range : list Z) (w : World) :
  (length (calls (User.confirm_loop confirm range env w).2)
   <= length (calls w) + length range)%nat.
Proof.
  revert w. induction range as [| tries range IH]; intros w; simpl; [lia |].
  unfold confirm at 1, scripted_confirm.
  destruct (script (length (calls w))) as [[] | e].
  - etransitivity; [apply IH |]. world.
  - destruct e; simpl; world;
      (etransitivity; [apply IH |]; world).
Qed.

End ConfirmLoop.

Lemma confirm_loop_exits (confirm : M unit) (env : Env) (range : list Z) (w : World) :
  (forall w0, handled (confirm env w0).1) ->
  (User.confirm_loop confirm range env w).1 = Ok tt.
Proof.
  intros Hh. revert w. induction range as [| tries range IH]; intros w; simpl; [reflexivity |].
  specialize (Hh w). destruct (confirm env w) as [[[] | e] w1]; simpl in Hh.
  - apply IH.
  - destruct e; try contradiction; [unfold bind, sleep; apply IH | reflexivity].
Qed.

(** C3. In the send flow, when confirmation is pending:
    - [confirm()] is invoked at most five times;
    - if the first four invocations raise [ClientException] and the
      fifth returns, the phase succeeds having slept [0, 2, 4, 6], that
      is [tries * 2] after the failure of attempt [tries];
    - if the first invocation raises [ConfirmationError], the loop is
      left after this one invocation, without sleeping;
    - whenever the loop is left, the offer's state is [Active], and the
      loop is always left when [confirm()] raises nothing but these two
      exceptions. *)
Theorem send_confirmation_backoff (env : Env) (trade : TradeOffer) (w : World) :
  (forall script,
      (length (calls (User.send_confirmation (scripted_confirm script) true trade env w).2)
       <= length (calls w) + 5)%nat)
  /\ (forall script,
        (forall i, (i < 4)%nat ->
                   exists msg, script (length (calls w) + i)%nat = Raise (ClientException msg)) ->
        script (length (calls w) + 4)%nat = Ok tt ->
        exists w',
          User.send_confirmation (scripted_confirm script) true trade env w
          = (Ok (set_state trade Active), w')
          /\ slept w' = slept w ++ map (fun tries => tries * 2) [0; 1; 2; 3]
          /\ StronglySorted Z.lt (map (fun tries => tries * 2) [0; 1; 2; 3])
          /\ length (calls w') = (length (calls w) + 5)%nat)
  /\ (forall script msg,
        script (length (calls w)) = Raise (ConfirmationError msg) ->
        exists w',
          User.send_confirmation (scripted_confirm script) true trade env w
          = (Ok (set_state trade Active), w')
          /\ slept w' = slept w
          /\ length (calls w') = (length (calls w) + 1)%nat)
  /\ (forall confirm trade' w',
        User.send_confirmation confirm true trade env w = (Ok trade', w') ->
        state trade' = Active)
  /\ (forall confirm,
        (forall w0, handled (confirm trade env w0).1) ->
        (User.send_confirmation confirm true trade env w).1 = Ok (set_state trade Active)).
Proof.
  split; [| split; [| split; [| split]]].
  - intros script. unfold User.send_confirmation, bind.
    pose proof (confirm_loop_attempts script trade env [0; 1; 2; 3; 4] w) as Hle.
    destruct (User.confirm_loop (scripted_confirm script trade) [0; 1; 2; 3; 4] env w)
      as [[[] | e] w1]; exact Hle.
  - intros script Hfail Hok.
    destruct (Hfail 0%nat) as [m0 H0]; [lia |].
    destruct (Hfail 1%nat) as [m1 H1]; [lia |].
    destruct (Hfail 2%nat) as [m2 H2]; [lia |].
    destruct (Hfail 3%nat) as [m3 H3]; [lia |].
    rewrite Nat.add_0_r in H0.
    unfold User.send_confirmation, bind.
    rewrite (confirm_loop_client_exception _ _ _ _ _ _ m0) by exact H0.
    rewrite (confirm_loop_client_exception _ _ _ _ _ _ m1) by (world; exact H1).
    rewrite (confirm_loop_client_exception _ _ _ _ _ _ m2)
      by (world; rewrite <- !Nat.add_assoc; exact H2).
    rewrite (confirm_loop_client_exception _ _ _ _ _ _ m3)
      by (world; rewrite <- !Nat.add_assoc; exact H3).
    rewrite confirm_loop_ok by (world; rewrite <- !Nat.add_assoc; exact Hok).
    cbn [User.confirm_loop ret]. eexists. split; [reflexivity |].
    split; [world |]. split; [| world].
    repeat constructor; lia.
  - intros script msg Herr.
    unfold User.send_confirmation, bind.
    rewrite (confirm_loop_confirmation_error _ _ _ _ _ _ msg) by exact Herr.
    eexists. split; [reflexivity |]. split; world.
  - intros confirm trade' w'. unfold User.send_confirmation, bind, ret.
    destruct (User.confirm_loop (confirm trade) [0; 1; 2; 3; 4] env w) as [[[] | e] w1];
      intros H; inversion H; reflexivity.
  - intros confirm Hh. unfold User.send_confirmation, bind, ret.
    pose proof (confirm_loop_exits (confirm trade) env [0; 1; 2; 3; 4] w Hh) as Hexit.
    destruct (User.confirm_loop (confirm trade) [0; 1; 2; 3; 4] env w) as [[[] | e] w1];
      simpl in Hexit; [reflexivity | discriminate].
Qed.

(** The phase on a [confirm()] that fails four times. *)
Lemma send_confirmation_backoff_witness :
  exists w',
    User.send_confirmation (scripted_confirm busy_four_times) true
      (sample_offer ConfirmationNeed) (scripted_env [] []) world0
    = (Ok (set_state (sample_offer ConfirmationNeed) Active), w')
    /\ slept w' = slept world0 ++ map (fun tries => tries * 2) [0; 1; 2; 3]
    /\ StronglySorted Z.lt (map (fun tries => tries * 2) [0; 1; 2; 3])
    /\ length (calls w') = (length (calls world0) + 5)%nat.
Proof.
  refine (proj1 (proj2 (send_confirmation_backoff (scripted_env [] [])
            (sample_offer ConfirmationNeed) world0)) busy_four_times _ _).
  - intros i Hi. exists "busy". simpl. unfold busy_four_times.
    destruct (Nat.ltb_spec i 4) as [_ | ?]; [reflexivity | lia].
  - reflexivity.
Defined.

(** ** The guards of [TradeOffer] *)

(** C4: what the code does on an offer in state [Accepted]. [accept]
    raises [ClientException], with the message of its first guard,
    'This trade is not active', and the world is left as it was: no
    call is issued. The branch that raises 'This trade has already been
    accepted' comes second and is never reached for this state. *)
Theorem accept_Accepted_not_active (self : TradeOffer) (env : Env) (w : World) :
  state self = Accepted ->
  TradeOffer.accept self env w = (Raise (ClientException "This trade is not active"), w).
Proof. intros Hst. unfold TradeOffer.accept. rewrite Hst. reflexivity. Qed.

Lemma accept_Accepted_not_active_witness :
  TradeOffer.accept (sample_offer Accepted) (scripted_env [] []) world0
  = (Raise (ClientException "This trade is not active"), world0).
Proof. apply accept_Accepted_not_active. reflexivity. Defined.

(** The second guard of [accept] cannot fire: it is only reached when
    the state is [Active]. *)
Lemma accept_second_guard_dead (st : ETradeOfferState) :
  negb (ETradeOfferState.eqb st Active) = false -> ETradeOfferState.eqb st Accepted = false.
Proof. destruct st; simpl; intros H; try discriminate; reflexivity. Qed.

(** C5: what the code does. The test [self.state not in (Active or
    ConfirmationNeed)] evaluates [Active or ConfirmationNeed] to the
    single member [Active] and then asks for membership in it, which
    raises [TypeError]: [decline] and [cancel] raise it for every offer,
    before any call, and never reach their other checks. *)
Theorem decline_cancel_raise_TypeError (self : TradeOffer) (env : Env) (w : World) :
  TradeOffer.decline self env w = (Raise TypeError, w)
  /\ TradeOffer.cancel self env w = (Raise TypeError, w).
Proof. split; reflexivity. Qed.

(** The sibling [confirm] tests membership in the pair: an offer that
    is not a gift passes exactly in the states [Active] and
    [ConfirmationNeed]. *)
Lemma confirm_state_guard (self : TradeOffer) (env : Env) (w : World) :
  TradeOffer.is_gift self = false ->
  (state self <> Active /\ state self <> ConfirmationNeed
   <-> TradeOffer.confirm self env w
       = (Raise (ClientException "This trade cannot be confirmed"), w)).
Proof.
  intros Hgift. unfold TradeOffer.confirm. rewrite Hgift.
  unfold bind, lookup_confirmation, raise.
  destruct (state self); simpl; split;
    try (intros [H1 H2]; congruence); try reflexivity;
    try (intros _; split; discriminate);
    destruct (get_confirmation env (length (calls w)) (id self)) as [c |];
    intros H; try discriminate H.
  all: exfalso; revert H; unfold Confirmation.confirm, bind, debug;
    match goal with |- context [Confirmation._perform_op ?c ?o ?e ?w0] =>
      pose proof (retry_exhausts e c o 3 w0) as (Hr & _);
      unfold Confirmation._perform_op;
      destruct (retry 3 4 (Confirmation._perform_op_attempt c o) e w0) as [r w1]
    end;
    simpl in Hr; subst r; intros H; discriminate H.
Qed.

(** C6: what the code does on an active offer that is neither a gift
    nor our own. [cancel] raises [TypeError] in its first test; the
    cancel endpoint is not invoked, and the [ClientException] of the
    third check is not reached. *)
Theorem cancel_not_gift_TypeError (self : TradeOffer) (env : Env) (w : World) :
  state self = Active ->
  TradeOffer.is_our_offer self = false ->
  TradeOffer.is_gift self = false ->
  TradeOffer.cancel self env w = (Raise TypeError, w)
  /\ calls (TradeOffer.cancel self env w).2 = calls w.
Proof. intros _ _ _. split; reflexivity. Qed.

Lemma cancel_not_gift_TypeError_witness :
  TradeOffer.cancel (sample_offer Active) (scripted_env [] []) world0 = (Raise TypeError, world0)
  /\ calls (TradeOffer.cancel (sample_offer Active) (scripted_env [] []) world0).2
     = calls world0.
Proof. apply cancel_not_gift_TypeError; reflexivity. Defined.

(** The checks that [cancel] does not reach would refuse such an offer
    with [ClientException], without invoking the endpoint. *)
Lemma cancel_checked_not_gift (self : TradeOffer) (env : Env) (w : World) :
  state self = Active ->
  TradeOffer.is_gift self = false ->
  TradeOffer.cancel_checked self env w
  = (Raise (ClientException
       "Offer wasn't created by the ClientUser and therefore cannot be canceled"), w).
Proof.
  intros Hst Hgift. unfold TradeOffer.cancel_checked. rewrite Hst, Hgift. reflexivity.
Qed.

(** The operand of the state test in [decline] and [cancel] is the
    single member [Active]. *)
Lemma state_test_operand :
  ETradeOfferState.Member (ETradeOfferState.or Active ConfirmationNeed)
  = ETradeOfferState.Member Active.
Proof. reflexivity. Qed.

(** ** Inventory reconciliation *)

Lemma rbind_Ok {A B : Type} (r : result A) (k : A -> result B) (b : B) :
  rbind r k = Ok b -> exists a, r = Ok a /\ k a = Ok b.
Proof. destruct r as [a | e]; simpl; [eauto | discriminate]. Qed.

(** Invert a chain of [rbind]s that ends in [Ok]. *)
Ltac rbind_inv H :=
  repeat (let a := fresh "a" in
          let Ha := fresh "Ha" in
          apply rbind_Ok in H as (a & Ha & H)).

Lemma Item_init_missing (data : gmap string pyval) (flag : bool) (i : Item) :
  Item.__init__ data flag = Ok i -> missing i = flag.
Proof.
  unfold Item.__init__. intros H. rbind_inv H. inversion H. reflexivity.
Qed.

(** The items that the scan of the descriptions appends are not flagged. *)
Lemma scan_descriptions_resolved (asset : gmap string pyval)
    (descs : list (gmap string pyval)) r :
  Inventory.scan_descriptions asset descs = Ok r ->
  flagged_missing r.2 = [].
Proof.
  revert r. induction descs as [| item rest IH]; intros r H; simpl in H.
  - inversion H. reflexivity.
  - rbind_inv H. destruct a1.
    + rbind_inv H. inversion H; subst r; simpl.
      unfold flagged_missing in *. rewrite filter_cons.
      apply Item_init_missing in Ha2. rewrite Ha2.
      rewrite decide_False by discriminate. eauto.
    + rbind_inv H. inversion H; subst r; simpl. eauto.
Qed.

(** Every asset contributes exactly one item flagged [missing], whether
    or not a description matched it. *)
Lemma reconcile_flagged (assets : list (gmap string pyval))
    (descs : option (list (gmap string pyval))) (acc its : list Item) :
  Inventory.reconcile assets descs acc = Ok its ->
  length (flagged_missing its) = (length (flagged_missing acc) + length assets)%nat.
Proof.
  revert descs acc. induction assets as [| asset more IH]; intros descs acc H; simpl in H.
  - inversion H. simpl. lia.
  - destruct descs as [ds |]; [| discriminate]. rbind_inv H.
    apply IH in H. rewrite H. unfold flagged_missing in *.
    rewrite !filter_app, !length_app.
    apply scan_descriptions_resolved in Ha. unfold flagged_missing in Ha. rewrite Ha.
    apply Item_init_missing in Ha0.
    rewrite filter_cons, decide_True by exact Ha0. simpl. lia.
Qed.

(** The item built from the bare asset is in the inventory for every
    asset, hence for one that no description matches. *)
Lemma reconcile_lone (assets : list (gmap string pyval))
    (descs : option (list (gmap string pyval))) (acc its : list Item) :
  Inventory.reconcile assets descs acc = Ok its ->
  (forall i, i ∈ acc -> i ∈ its)
  /\ (forall asset, asset ∈ assets ->
        exists lone, Item.__init__ asset true = Ok lone /\ lone ∈ its /\ missing lone = true).
Proof.
  revert descs acc. induction assets as [| asset more IH]; intros descs acc H; simpl in H.
  - inversion H; subst. split; [auto |]. intros asset Hin. inversion Hin.
  - destruct descs as [ds |]; [| discriminate]. rbind_inv H.
    apply IH in H as [Hacc Hmore]. split.
    + intros i Hi. apply Hacc. apply elem_of_app. left. exact Hi.
    + intros asset' Hin. apply elem_of_cons in Hin as [-> | Hin]; [| auto].
      exists a0. split; [exact Ha0 |].
      split; [apply Hacc; rewrite !elem_of_app, list_elem_of_singleton; auto |].
      eapply Item_init_missing; exact Ha0.
Qed.

(** An asset of the payload gives an item flagged
    [missing] (in particular one that no description matches). *)
Lemma Inventory_lone_asset_missing (data : Payload) (inv : Inventory)
    (l : list (gmap string pyval)) (asset : gmap string pyval) :
  Inventory.__init__ data = Ok inv ->
  inv_game inv <> None ->
  assets data = Some l ->
  asset ∈ l ->
  exists lone, Item.__init__ asset true = Ok lone /\ lone ∈ items inv /\ missing lone = true.
Proof.
  unfold Inventory.__init__, Inventory._update. intros H Hgame Hassets Hin.
  destruct (Inventory.first_game data) as [g | e].
  - rbind_inv H. rewrite Hassets in Ha. simpl in Ha.
    destruct (total_inventory_count data); inversion H; subst inv; simpl.
    apply reconcile_lone in Ha as [_ Hl]. auto.
  - destruct e; inversion H; subst inv; simpl in Hgame; contradiction.
Qed.

(** An asset that no description matches gives one item, flagged. *)
Example Inventory_lone_asset :
  match Inventory.__init__ payload_lone with
  | Ok inv => map summary (items inv) = [(1, VNone, true)]
  | Raise _ => False
  end.
Proof. vm_compute. reflexivity. Qed.

(** A payload without [assets] gives the empty
    inventory, of length 0 and with no game. *)
Lemma Inventory_without_assets (data : Payload) :
  assets data = None ->
  exists inv,
    Inventory.__init__ data = Ok inv
    /\ Inventory.__len__ inv = Ok 0
    /\ items inv = []
    /\ inv_game inv = None.
Proof.
  intros Hassets. eexists. unfold Inventory.__init__, Inventory._update, Inventory.first_game.
  rewrite Hassets. repeat split.
Qed.

(** In general: whenever the reconciliation goes
    through, as many items are flagged [missing] as there are assets. *)
Lemma Inventory_flagged_per_asset (data : Payload) (inv : Inventory)
    (l : list (gmap string pyval)) :
  Inventory.__init__ data = Ok inv ->
  inv_game inv <> None ->
  assets data = Some l ->
  length (flagged_missing (items inv)) = length l.
Proof.
  unfold Inventory.__init__, Inventory._update. intros H Hgame Hassets.
  destruct (Inventory.first_game data) as [g | e].
  - rbind_inv H. rewrite Hassets in Ha. simpl in Ha.
    destruct (total_inventory_count data); inversion H; subst inv; simpl.
    apply reconcile_flagged in Ha. exact Ha.
  - destruct e; inversion H; subst inv; simpl in Hgame; contradiction.
Qed.

(** C1: what the code does on the smallest payload. One asset and its one
    matching description give two items, the second of which wraps the
    bare asset and is flagged [missing]. *)
Theorem Inventory_described_asset_twice :
  match Inventory.__init__ payload_one with
  | Ok inv =>
      map summary (items inv) = [(1, VStr "key", false); (1, VNone, true)]
      /\ length (items inv) = 2%nat
      /\ length (flagged_missing (items inv)) = 1%nat
  | Raise _ => False
  end.
Proof. vm_compute. repeat split. Qed.

(** ** [Inventory.filter_items] *)

Lemma Item_eqb_key (x y : Item) : Item.eqb x y = true <-> item_key x = item_key y.
Proof.
  rewrite Item_eqb_spec. unfold item_key. split.
  - intros [-> ->]. reflexivity.
  - intros H. inversion H. auto.
Qed.

Lemma Item_eqb_refl (x : Item) : Item.eqb x x = true.
Proof. apply Item_eqb_key. reflexivity. Qed.

(** [list.remove] succeeds when an equal element is present, and takes
    one occurrence of the key away. *)
Lemma list_remove_found (x : Item) (l : list Item) :
  item_key x ∈ item_key <$> l ->
  list_remove x l = Ok (remove_first x l)
  /\ item_key <$> l ≡ₚ item_key x :: (item_key <$> remove_first x l).
Proof.
  induction l as [| y l IH]; intros Hin; [inversion Hin |].
  simpl. destruct (Item.eqb y x) eqn:Heq.
  - apply Item_eqb_key in Heq. rewrite Heq. split; reflexivity.
  - rewrite fmap_cons in Hin. apply elem_of_cons in Hin as [Hk | Hin].
    + assert (Item.eqb y x = true) by (apply Item_eqb_key; congruence). congruence.
    + destruct (IH Hin) as [-> Hperm]. split; [reflexivity |].
      rewrite fmap_cons, Hperm. apply Permutation_swap.
Qed.

(** The removal loop goes through when the keys of the found items
    form a sub-multiset of the keys of the list. *)
Lemma remove_each_runs (found current : list Item) :
  item_key <$> found ⊆+ item_key <$> current ->
  Inventory.remove_each found current
  = (Ok tt, fold_left (fun l x => remove_first x l) found current).
Proof.
  revert current. induction found as [| x found IH]; intros current Hsub; [reflexivity |].
  rewrite fmap_cons in Hsub. apply submseteq_cons_l in Hsub as (k' & Hperm & Hsub).
  assert (Hin : item_key x ∈ item_key <$> current).
  { rewrite Hperm. apply elem_of_cons. left. reflexivity. }
  destruct (list_remove_found x current Hin) as [Hrm Hperm'].
  simpl. rewrite Hrm. apply IH.
  rewrite Hperm' in Hperm. apply Permutation_cons_inv in Hperm.
  rewrite Hperm. exact Hsub.
Qed.

(** C8: what the code does. The inventory that [Inventory(...)] builds
    from [payload_two] holds, for each of the two assets, the described
    item and the bare one, and all four are equal as assets (same
    [instance_id] and [class_id]). Asking for two items named "key"
    returns the two described items, but [list.remove] takes away the
    first item equal to each: the second removal removes the bare item
    of asset 1. The returned item of asset 2 stays in the inventory and
    the bare item of asset 1, which was not returned, is gone; the last
    line shows what would remain if the returned items were the ones
    removed. *)
Theorem filter_items_removes_another_item :
  Inventory.__init__ payload_two = Ok inventory_two
  /\ map summary (items inventory_two)
     = [(1, VStr "key", false); (1, VNone, true); (2, VStr "key", false); (2, VNone, true)]
  /\ match (Inventory.filter_items inventory_two (VStr "key") (Some 2)).1 with
     | Ok found => map summary found = [(1, VStr "key", false); (2, VStr "key", false)]
     | Raise _ => False
     end
  /\ map summary (items (Inventory.filter_items inventory_two (VStr "key") (Some 2)).2)
     = [(2, VStr "key", false); (2, VNone, true)]
  /\ map summary (without_first_named (VStr "key") 2 (items inventory_two))
     = [(1, VNone, true); (2, VNone, true)].
Proof. vm_compute. repeat split. Qed.

(** * Further properties *)

(** ** The device id *)

Lemma digit_char_code (d : Z) :
  0 <= d < 10 -> nat_of_ascii (digit_char d) = (48 + Z.to_nat d)%nat.
Proof. intros Hd. unfold digit_char. apply nat_ascii_embedding. lia. Qed.

Lemma decimal_digits_ascii (fuel : nat) (n : Z) (acc : list ascii) :
  Forall (fun c => (nat_of_ascii c < 128)%nat) acc ->
  Forall (fun c => (nat_of_ascii c < 128)%nat) (decimal_digits fuel n acc).
Proof.
  revert n acc. induction fuel as [| fuel IH]; intros n acc Hacc; simpl; [exact Hacc |].
  assert (Hd : (nat_of_ascii (digit_char (n mod 10)) < 128)%nat).
  { rewrite digit_char_code by (apply Z.mod_pos_bound; lia).
    pose proof (Z.mod_pos_bound n 10). lia. }
  destruct (n <? 10); [constructor; assumption |].
  apply IH. constructor; assumption.
Qed.

(** [str(n)] is ASCII, so that encoding it never fails. *)
Lemma encode_ascii_py_str (n : Z) :
  encode_ascii (py_str n) = Ok (list_byte_of_string (py_str n)).
Proof.
  unfold encode_ascii.
  assert (H : forallb (fun c => (nat_of_ascii c <? 128)%nat)
                (list_ascii_of_string (py_str n)) = true).
  { apply forallb_forall. intros c Hc. apply Nat.ltb_lt.
    revert c Hc. apply List.Forall_forall.
    unfold py_str. destruct (n <? 0); cbn [list_ascii_of_string];
      rewrite list_ascii_of_string_of_list_ascii;
      [constructor; [vm_compute; lia |] |]; apply decimal_digits_ascii; constructor. }
  rewrite H. reflexivity.
Qed.

Lemma length_hexdigest (bs : list byte) : length (hexdigest bs) = (2 * length bs)%nat.
Proof. induction bs as [| b bs IH]; simpl; [reflexivity | rewrite IH; lia]. Qed.

Lemma hex_char_is_hex (d : Z) : 0 <= d < 16 -> is_hex (hex_char d).
Proof.
  intros Hd. rewrite <- (Z2Nat.id d) by lia.
  assert (Hn : (Z.to_nat d < 16)%nat) by lia.
  revert Hn. generalize (Z.to_nat d) as k. intros k Hk.
  do 16 (destruct k as [| k]; [vm_compute; tauto |]). lia.
Qed.

Lemma hexdigest_is_hex (bs : list byte) : Forall is_hex (hexdigest bs).
Proof.
  induction bs as [| b bs IH]; simpl; [constructor |].
  pose proof (byte_to_Z_range b) as Hb.
  constructor; [apply hex_char_is_hex; split;
                  [apply Z.div_pos; lia | apply Z.div_lt_upper_bound; lia] |].
  constructor; [apply hex_char_is_hex, Z.mod_pos_bound; lia | exact IH].
Qed.

Lemma length_slice {A : Type} (l : list A) (lo hi : Z) :
  0 <= lo <= hi -> hi <= Z.of_nat (length l) ->
  length (slice l lo hi) = Z.to_nat (hi - lo).
Proof.
  intros Hlo Hhi. unfold slice. rewrite length_take, length_drop. lia.
Qed.

Lemma slice_Forall {A : Type} (P : A -> Prop) (l : list A) (lo hi : Z) :
  Forall P l -> Forall P (slice l lo hi).
Proof. intros H. unfold slice. apply Forall_take, Forall_drop, H. Qed.

(** X1. For every id that [int()] accepts, [generate_device_id] returns
    ["android:"] followed by five groups of 8, 4, 4, 4 and 12 lowercase
    hexadecimal digits, separated by hyphens. *)
Theorem generate_device_id_format (user_id64 : pyval) (n : Z) :
  py_int user_id64 = Ok n ->
  exists g1 g2 g3 g4 g5 : list ascii,
    generate_device_id user_id64
    = Ok ("android:" ++ string_of_list_ascii
            (g1 ++ "-"%char :: g2 ++ "-"%char :: g3 ++ "-"%char :: g4 ++ "-"%char :: g5))%string
    /\ (length g1 = 8 /\ length g2 = 4 /\ length g3 = 4 /\ length g4 = 4
        /\ length g5 = 12)%nat
    /\ Forall is_hex (g1 ++ g2 ++ g3 ++ g4 ++ g5).
Proof.
  intros Hint. unfold generate_device_id. rewrite Hint. cbn [rbind].
  rewrite encode_ascii_py_str. cbn [rbind].
  set (hexed := hexdigest (sha1 (list_byte_of_string (py_str n)))).
  assert (Hlen : length hexed = 40%nat)
    by (subst hexed; rewrite length_hexdigest, length_sha1; reflexivity).
  assert (Hhex : Forall is_hex hexed) by apply hexdigest_is_hex.
  exists (slice hexed 0 8), (slice hexed 8 12), (slice hexed 12 16),
    (slice hexed 16 20), (slice hexed 20 32).
  split; [reflexivity |]. split.
  - rewrite !length_slice by lia. repeat split; reflexivity.
  - rewrite !Forall_app. repeat split; apply slice_Forall, Hhex.
Qed.

Lemma generate_device_id_format_witness :
  exists g1 g2 g3 g4 g5 : list ascii,
    generate_device_id (VInt 76561197960265728)
    = Ok ("android:" ++ string_of_list_ascii
            (g1 ++ "-"%char :: g2 ++ "-"%char :: g3 ++ "-"%char :: g4 ++ "-"%char :: g5))%string
    /\ (length g1 = 8 /\ length g2 = 4 /\ length g3 = 4 /\ length g4 = 4
        /\ length g5 = 12)%nat
    /\ Forall is_hex (g1 ++ g2 ++ g3 ++ g4 ++ g5).
Proof.
  exact (generate_device_id_format (VInt 76561197960265728) 76561197960265728 eq_refl).
Defined.

Example generate_device_id_sample :
  generate_device_id (VStr "76561197960265728")
  = Ok "android:63e01aa8-e99c-42c4-ef4c-e78bd041f129".
Proof. vm_compute. reflexivity. Qed.

(** ** The confirmation code *)

Lemma length_b64encode (bs : list byte) :
  String.length (b64encode bs) = (4 * ((length bs + 2) / 3))%nat.
Proof.
  assert (H : forall n bs', (length bs' <= n)%nat ->
              String.length (b64encode bs') = (4 * ((length bs' + 2) / 3))%nat).
  { induction n as [n IH] using lt_wf_ind. intros bs' Hle.
    destruct bs' as [| a [| b [| c rest]]]; try reflexivity.
    cbn [b64encode String.length length].
    rewrite (IH (length rest)) by (simpl in Hle; lia).
    replace (S (S (S (length rest))) + 2)%nat with (length rest + 2 + 1 * 3)%nat by lia.
    rewrite Nat.div_add by lia. lia. }
  apply (H (length bs)). lia.
Qed.

(** What a returned confirmation code is made of. *)
Lemma confirmation_code_shape (now : Z) (identity_secret tag : string)
    (timestamp : option Z) (code : string) :
  generate_confirmation_code now identity_secret tag timestamp = Ok code ->
  exists t encoded key,
    timestamp = Some t /\ 0 < t < 2 ^ 64
    /\ encode_ascii tag = Ok encoded
    /\ b64decode identity_secret = Ok key
    /\ code = b64encode (hmac_sha1 key (be_bytes 8 t ++ encoded)).
Proof.
  intros H. unfold generate_confirmation_code in H.
  destruct timestamp as [t |]; unfold timestamp_or in H;
    [destruct (Z.eqb_spec t 0) as [-> | Ht] |];
    rewrite ?confirmation_code_clock in H; try discriminate H.
  cbn [rbind] in H. unfold struct_pack_Q in H.
  destruct (Z.leb_spec 0 t) as [Hlo | Hlo];
    destruct (Z.ltb_spec t (2 ^ 64)) as [Hhi | Hhi]; cbn [andb rbind] in H;
    try discriminate H.
  destruct (encode_ascii tag) as [encoded |]; cbn [rbind] in H; [| discriminate H].
  destruct (b64decode identity_secret) as [key |]; cbn [rbind] in H; [| discriminate H].
  inversion H. exists t, encoded, key. repeat split; try reflexivity; lia.
Qed.

(** X2. [generate_confirmation_code] returns a code exactly when the
    timestamp is given and lies in [1, 2^64), the tag is ASCII and the
    secret decodes; the code then has 28 characters. *)
Theorem generate_confirmation_code_succeeds (now : Z) (identity_secret tag : string)
    (timestamp : option Z) :
  ((exists code, generate_confirmation_code now identity_secret tag timestamp = Ok code)
   <-> (exists t, timestamp = Some t /\ 0 < t < 2 ^ 64)
       /\ (exists encoded, encode_ascii tag = Ok encoded)
       /\ (exists key, b64decode identity_secret = Ok key))
  /\ (forall code,
        generate_confirmation_code now identity_secret tag timestamp = Ok code ->
        String.length code = 28%nat).
Proof.
  split; [split |].
  - intros [code H].
    destruct (confirmation_code_shape _ _ _ _ _ H) as (t & encoded & key & -> & Ht & He & Hk & _).
    eauto 10.
  - intros [[t [-> Ht]] [[encoded He] [key Hk]]].
    unfold generate_confirmation_code. rewrite timestamp_or_explicit by lia.
    cbn [rbind]. unfold struct_pack_Q.
    destruct (Z.leb_spec 0 t) as [_ | ?]; [| lia].
    destruct (Z.ltb_spec t (2 ^ 64)) as [_ | ?]; [| lia].
    cbn [andb rbind]. rewrite He. cbn [rbind]. rewrite Hk. cbn [rbind]. eauto.
  - intros code H.
    destruct (confirmation_code_shape _ _ _ _ _ H) as (t & encoded & key & _ & _ & _ & _ & ->).
    rewrite length_b64encode, length_hmac_sha1. reflexivity.
Qed.

Lemma generate_confirmation_code_succeeds_witness :
  String.length "S6Psu2RkDVPN/IJMzS8oXlXknEs=" = 28%nat.
Proof.
  apply (proj2 (generate_confirmation_code_succeeds 0 "YWJj" "allow" (Some 1600000000))).
  vm_compute. reflexivity.
Defined.

(** ** The one-time code, for every timestamp *)

Lemma timestamp_or_effective (now : Z) (timestamp : option Z) :
  timestamp_or timestamp
    (m <- load_global "time" ;; f <- py_getattr m "time" ;; py_call_int now f)%res
  = Ok (effective_timestamp now timestamp).
Proof.
  unfold timestamp_or, effective_timestamp. rewrite one_time_code_clock.
  destruct timestamp as [t |]; [destruct (t =? 0) |]; reflexivity.
Qed.

Lemma spec_digit_in_alphabet (v : Z) (i : nat) : in_alphabet (spec_digit v i).
Proof.
  unfold spec_digit.
  assert (Hr : 0 <= (v / 26 ^ Z.of_nat i) mod 26 < 26) by (apply Z.mod_pos_bound; lia).
  revert Hr. generalize ((v / 26 ^ Z.of_nat i) mod 26) as d. intros d Hd.
  assert (Hn : (Z.to_nat d < 26)%nat) by lia.
  revert Hn. generalize (Z.to_nat d) as k. intros k Hk.
  do 26 (destruct k as [| k]; [vm_compute; tauto |]). lia.
Qed.

Lemma spec_one_time_code_alphabet (key : list byte) (t : Z) :
  Forall in_alphabet (list_ascii_of_string (spec_one_time_code key t)).
Proof.
  unfold spec_one_time_code. cbv zeta. rewrite list_ascii_of_string_of_list_ascii.
  apply Forall_map, Forall_forall. intros i _. apply spec_digit_in_alphabet.
Qed.

(** The code for an effective timestamp inside the 64-bit window field. *)
Lemma one_time_code_in_range (now : Z) (shared_secret : string) (timestamp : option Z)
    (key : list byte) :
  b64decode shared_secret = Ok key ->
  0 <= effective_timestamp now timestamp < 30 * 2 ^ 64 ->
  generate_one_time_code now shared_secret timestamp
  = Ok (spec_one_time_code key (effective_timestamp now timestamp)).
Proof.
  intros Hkey Hrange. unfold generate_one_time_code.
  rewrite timestamp_or_effective. cbn [rbind].
  set (e := effective_timestamp now timestamp) in *.
  unfold struct_pack_Q.
  assert (Hlo : 0 <= e / 30) by (apply Z.div_pos; lia).
  assert (Hhi : e / 30 < 2 ^ 64) by (apply Z.div_lt_upper_bound; lia).
  destruct (Z.leb_spec 0 (e / 30)) as [_ | ?]; [| lia].
  destruct (Z.ltb_spec (e / 30) (2 ^ 64)) as [_ | ?]; [| lia].
  cbn [andb rbind]. rewrite Hkey. cbn [rbind].
  set (digest := hmac_sha1 key (be_bytes 8 (e / 30))).
  assert (Hlen : length digest = 20%nat) by apply length_hmac_sha1.
  change 19 with (Z.of_nat 19).
  rewrite bytes_index_nth by lia. cbn [rbind].
  set (last := byte_to_Z (nth 19 digest x00)).
  assert (Hlast : 0 <= last < 256) by apply byte_to_Z_range.
  change 15 with (Z.ones 4). rewrite Z.land_ones by lia.
  change (2 ^ 4) with 16.
  assert (Hbegin : 0 <= last mod 16 < 16) by (apply Z.mod_pos_bound; lia).
  unfold slice, struct_unpack_I.
  replace (last mod 16 + 4 - last mod 16) with 4 by lia.
  rewrite length_take, length_drop, Hlen.
  replace (Z.to_nat 4 `min` (20 - Z.to_nat (last mod 16)))%nat with 4%nat by lia.
  cbn [Nat.eqb rbind].
  change 2147483647 with (Z.ones 31). rewrite Z.land_ones by lia.
  set (v := be_decode _ mod 2 ^ 31).
  assert (Hv : 0 <= v) by (apply Z.mod_pos_bound; lia).
  pose proof (code_loop_digits v 5 0 [] Hv) as Hloop.
  change (26 ^ Z.of_nat 0) with 1 in Hloop. rewrite Z.div_1_r in Hloop.
  rewrite Hloop. reflexivity.
Qed.

(** X3. With the timestamp omitted or zero, [generate_one_time_code]
    reads the clock (the call [time.time()] works here) and returns the
    code of the current time. Whatever the timestamp, a returned code
    has five characters, all from the 26-symbol alphabet, and two
    timestamps in the same 30-second window give the same code. *)
Theorem generate_one_time_code_clock_and_window (now : Z) (shared_secret : string)
    (key : list byte) :
  b64decode shared_secret = Ok key ->
  (0 <= now < 30 * 2 ^ 64 ->
   generate_one_time_code now shared_secret None = Ok (spec_one_time_code key now)
   /\ generate_one_time_code now shared_secret (Some 0) = Ok (spec_one_time_code key now))
  /\ (forall timestamp code,
        generate_one_time_code now shared_secret timestamp = Ok code ->
        String.length code = 5%nat /\ Forall in_alphabet (list_ascii_of_string code))
  /\ (forall t1 t2,
        0 < t1 -> 0 < t2 -> t1 / 30 = t2 / 30 ->
        generate_one_time_code now shared_secret (Some t1)
        = generate_one_time_code now shared_secret (Some t2)).
Proof.
  intros Hkey. split; [| split].
  - intros Hnow.
    pose proof (one_time_code_in_range now shared_secret None key Hkey) as Hnone.
    pose proof (one_time_code_in_range now shared_secret (Some 0) key Hkey) as Hzero.
    change (effective_timestamp now None) with now in Hnone.
    change (effective_timestamp now (Some 0)) with now in Hzero.
    split; [apply Hnone | apply Hzero]; exact Hnow.
  - intros timestamp code Hcode.
    destruct (Z.le_gt_cases 0 (effective_timestamp now timestamp)) as [Hlo | Hlo];
      [destruct (Z.lt_ge_cases (effective_timestamp now timestamp) (30 * 2 ^ 64))
         as [Hhi | Hhi] |].
    + rewrite (one_time_code_in_range now shared_secret timestamp key Hkey) in Hcode
        by (split; assumption).
      inversion Hcode. split; [reflexivity | apply spec_one_time_code_alphabet].
    + exfalso. unfold generate_one_time_code in Hcode.
      rewrite timestamp_or_effective in Hcode. cbn [rbind] in Hcode.
      unfold struct_pack_Q in Hcode.
      assert (2 ^ 64 <= effective_timestamp now timestamp / 30)
        by (apply Z.div_le_lower_bound; lia).
      destruct (Z.ltb_spec (effective_timestamp now timestamp / 30) (2 ^ 64)); [lia |].
      rewrite andb_false_r in Hcode. discriminate Hcode.
    + exfalso. unfold generate_one_time_code in Hcode.
      rewrite timestamp_or_effective in Hcode. cbn [rbind] in Hcode.
      unfold struct_pack_Q in Hcode.
      assert (effective_timestamp now timestamp / 30 < 0)
        by (apply Z.div_lt_upper_bound; lia).
      destruct (Z.leb_spec 0 (effective_timestamp now timestamp / 30)); [lia |].
      discriminate Hcode.
  - intros t1 t2 H1 H2 Hwin. unfold generate_one_time_code.
    rewrite !timestamp_or_explicit by lia. cbn [rbind]. rewrite Hwin. reflexivity.
Qed.

Lemma generate_one_time_code_clock_and_window_witness :
  generate_one_time_code 1600000000 "YWJj" None
  = Ok (spec_one_time_code ["a"%byte; "b"%byte; "c"%byte] 1600000000)
  /\ generate_one_time_code 1600000000 "YWJj" (Some 0)
     = Ok (spec_one_time_code ["a"%byte; "b"%byte; "c"%byte] 1600000000).
Proof.
  refine (proj1 (generate_one_time_code_clock_and_window 1600000000 "YWJj"
                   ["a"%byte; "b"%byte; "c"%byte] _) _).
  - vm_compute. reflexivity.
  - lia.
Defined.

(** X4. The errors of [generate_one_time_code]: [struct.error] is
    raised exactly when the effective timestamp is negative or at least
    [30 * 2^64], and it is raised before the secret is looked at;
    inside that range a secret that does not decode raises the decoding
    error. *)
Theorem generate_one_time_code_errors (now : Z) (shared_secret : string)
    (timestamp : option Z) :
  (generate_one_time_code now shared_secret timestamp = Raise StructError
   <-> effective_timestamp now timestamp < 0
       \/ 30 * 2 ^ 64 <= effective_timestamp now timestamp)
  /\ (forall e,
        0 <= effective_timestamp now timestamp < 30 * 2 ^ 64 ->
        b64decode shared_secret = Raise e ->
        generate_one_time_code now shared_secret timestamp = Raise e).
Proof.
  set (t := effective_timestamp now timestamp).
  assert (Hout : t < 0 \/ 30 * 2 ^ 64 <= t ->
                 generate_one_time_code now shared_secret timestamp = Raise StructError).
  { intros Hr. unfold generate_one_time_code. rewrite timestamp_or_effective.
    cbn [rbind]. fold t. unfold struct_pack_Q. destruct Hr as [Hneg | Hbig].
    - assert (t / 30 < 0) by (apply Z.div_lt_upper_bound; lia).
      destruct (Z.leb_spec 0 (t / 30)); [lia | reflexivity].
    - assert (2 ^ 64 <= t / 30) by (apply Z.div_le_lower_bound; lia).
      destruct (Z.ltb_spec (t / 30) (2 ^ 64)); [lia |].
      rewrite andb_false_r. reflexivity. }
  assert (Hin : 0 <= t < 30 * 2 ^ 64 ->
                generate_one_time_code now shared_secret timestamp
                = match b64decode shared_secret with
                  | Ok key => Ok (spec_one_time_code key t)
                  | Raise e => Raise e
                  end).
  { intros Hr. destruct (b64decode shared_secret) as [key | e] eqn:Hkey.
    - apply one_time_code_in_range; assumption.
    - unfold generate_one_time_code. rewrite timestamp_or_effective.
      cbn [rbind]. fold t. unfold struct_pack_Q.
      assert (0 <= t / 30) by (apply Z.div_pos; lia).
      assert (t / 30 < 2 ^ 64) by (apply Z.div_lt_upper_bound; lia).
      destruct (Z.leb_spec 0 (t / 30)); [| lia].
      destruct (Z.ltb_spec (t / 30) (2 ^ 64)); [| lia].
      cbn [andb rbind]. rewrite Hkey. reflexivity. }
  split; [split; [| exact Hout] |].
  - intros Hraise.
    destruct (Z.lt_ge_cases t 0) as [? | Hlo]; [left; assumption |].
    destruct (Z.lt_ge_cases t (30 * 2 ^ 64)) as [Hhi | ?]; [| right; assumption].
    exfalso. rewrite Hin in Hraise by lia.
    destruct (b64decode shared_secret) as [key | e] eqn:Hkey; [discriminate |].
    inversion Hraise; subst e. revert Hkey. unfold b64decode.
    destruct (forallb _ _); [| discriminate].
    generalize (A2b 0 0 0 []). generalize (list_ascii_of_string shared_secret).
    intros l. induction l as [| c l IH]; intros st; simpl.
    + destruct (quad_pos st =? 0); discriminate.
    + repeat match goal with
             | |- context [if ?b then _ else _] => destruct b
             | |- context [match b64_value ?c with _ => _ end] => destruct (b64_value c)
             end; try discriminate; apply IH.
  - intros e Hr Hkey. rewrite Hin by exact Hr. rewrite Hkey. reflexivity.
Qed.

Lemma generate_one_time_code_errors_witness :
  generate_one_time_code 0 "YWJj" (Some (-30)) = Raise StructError.
Proof.
  apply (proj1 (generate_one_time_code_errors 0 "YWJj" (Some (-30)))).
  left. simpl. lia.
Defined.

(** ** What [_perform_op] raises, sends and records *)

Lemma retry_outcome {A : Type} (more : nat) (delay : Z) (body : M A) (env : Env) (w : World) :
  (exists a, (retry more delay body env w).1 = Ok a)
  \/ (retry more delay body env w).1 = Raise RetryError.
Proof.
  revert w. induction more as [| more IH]; intros w; simpl;
    destruct (body env w) as [[a | e] w1]; simpl; eauto.
  apply IH.
Qed.

(** X5. [_perform_op], and with it [confirm()] and [cancel()] of a
    confirmation, either returns or raises [RetryError]: a
    [ConfirmationError] raised by an attempt, or an error of the
    transport, never reaches the caller. *)
Theorem perform_op_raises_only_RetryError (env : Env) (self : Confirmation) (w : World) :
  (forall op, (Confirmation._perform_op self op env w).1 = Ok tt
              \/ (Confirmation._perform_op self op env w).1 = Raise RetryError)
  /\ ((Confirmation.confirm self env w).1 = Ok tt
      \/ (Confirmation.confirm self env w).1 = Raise RetryError)
  /\ ((Confirmation.cancel self env w).1 = Ok tt
      \/ (Confirmation.cancel self env w).1 = Raise RetryError).
Proof.
  assert (H : forall op w0, (Confirmation._perform_op self op env w0).1 = Ok tt
                            \/ (Confirmation._perform_op self op env w0).1 = Raise RetryError).
  { intros op w0. unfold Confirmation._perform_op.
    destruct (retry_outcome 3 4 (Confirmation._perform_op_attempt self op) env w0)
      as [[[] Ha] | Hr]; auto. }
  split; [intros op; apply H |]. split; [| apply H].
  unfold Confirmation.confirm, bind, debug.
  destruct (H "allow" (add_log LogReceived w)) as [Hok | Hr];
    destruct (Confirmation._perform_op self "allow" env (add_log LogReceived w))
      as [[[] | e] w1]; simpl in *; auto; discriminate.
Qed.

(** X6. The statement [raise TryAgain] of [_perform_op] is never
    reached: an attempt raises [TryAgain] only if a collaborator does.
    The call [resp.json()] raises before it, and a body equal to
    [{'success': False}] would have made [_assert_valid] raise first. *)
Theorem attempt_never_TryAgain (env : Env) (self : Confirmation) (op : string) (w : World) :
  generate_code env op <> Raise TryAgain ->
  (forall n c, transport env n c <> Raise TryAgain) ->
  (Confirmation._perform_op_attempt self op env w).1 <> Raise TryAgain.
Proof.
  intros Hgen Htr. rewrite attempt_unfold.
  destruct (generate_code env op) as [ct | e] eqn:Hg; simpl; [| congruence].
  specialize (Htr (length (calls w)) (ajaxop_call env self op ct)).
  destruct (transport env (length (calls w)) (ajaxop_call env self op ct)); simpl;
    [discriminate | congruence].
Qed.

Lemma attempt_never_TryAgain_witness :
  (Confirmation._perform_op_attempt sample_confirmation "allow"
     (scripted_env [rejected] []) world0).1 <> Raise TryAgain.
Proof.
  apply attempt_never_TryAgain.
  - discriminate.
  - intros n c. simpl. destruct ([rejected] !! n); discriminate.
Defined.

Lemma ajaxop_call_request (env : Env) (self : Confirmation) (op : string) (ct : string * Z) :
  ajaxop_request env self op (ajaxop_call env self op ct).
Proof.
  eexists. split; [reflexivity |].
  repeat split; repeat (rewrite lookup_insert_ne by discriminate); apply lookup_insert_eq.
Qed.

(** The requests of one attempt. *)
Lemma attempt_sent (env : Env) (self : Confirmation) (op : string) (w : World) :
  exists sent : list Call,
    calls (Confirmation._perform_op_attempt self op env w).2 = calls w ++ sent
    /\ Forall (ajaxop_request env self op) sent
    /\ (length sent <= 1)%nat.
Proof.
  rewrite attempt_unfold. destruct (generate_code env op) as [ct | e]; simpl.
  - exists [ajaxop_call env self op ct]. split; [reflexivity |].
    split; [| simpl; lia]. constructor; [apply ajaxop_call_request | constructor].
  - exists []. rewrite app_nil_r. split; [reflexivity |]. split; [constructor | simpl; lia].
Qed.

Lemma retry_sent (env : Env) (self : Confirmation) (op : string) (more : nat) (w : World) :
  exists sent : list Call,
    calls (retry more 4 (Confirmation._perform_op_attempt self op) env w).2 = calls w ++ sent
    /\ Forall (ajaxop_request env self op) sent
    /\ (length sent <= S more)%nat.
Proof.
  revert w. induction more as [| more IH]; intros w;
    destruct (attempt_sent env self op w) as (sent & Hc & Hf & Hl);
    destruct (attempt_raises env self op w) as [e He];
    destruct (Confirmation._perform_op_attempt self op env w) as [r w1] eqn:Hatt;
    simpl in Hc, He; subst r.
  - exists sent. rewrite (retry_exhausted _ _ _ _ _ _ Hatt). simpl. auto.
  - rewrite (retry_again _ _ _ _ _ _ _ Hatt).
    destruct (IH (add_sleep 4 (add_log LogAfter w1))) as (sent' & Hc' & Hf' & Hl').
    exists (sent ++ sent'). rewrite Hc'. simpl. rewrite Hc, <- app_assoc, length_app.
    split; [reflexivity |]. split; [apply Forall_app; auto | lia].
Qed.

Lemma perform_op_sent (env : Env) (self : Confirmation) (op : string) (w : World) :
  exists sent : list Call,
    calls (Confirmation._perform_op self op env w).2 = calls w ++ sent
    /\ Forall (ajaxop_request env self op) sent.
Proof.
  unfold Confirmation._perform_op.
  destruct (retry_sent env self op 3 w) as (sent & Hc & Hf & _).
  exists sent. auto.
Qed.

(** X7. Every request that [_perform_op] sends goes to the
    confirmation endpoint and is signed for the operation itself (its
    [tag] is the operation name, for [allow] too), with the
    confirmation's id and key, the device id and the account id; at
    most four are sent. *)
Theorem perform_op_requests (env : Env) (self : Confirmation) (op : string) (w : World) :
  exists sent : list Call,
    calls (Confirmation._perform_op self op env w).2 = calls w ++ sent
    /\ Forall (ajaxop_request env self op) sent
    /\ (length sent <= 4)%nat.
Proof.
  unfold Confirmation._perform_op.
  destruct (retry_sent env self op 3 w) as (sent & Hc & Hf & Hl).
  exists sent. auto.
Qed.

(** X8. [_perform_op] never records a trade id and never returns.
    The response is a dict, so [resp.json()] raises in every attempt,
    before [_assert_valid] is reached: whatever the collaborators
    answer, the list [_confirmations_to_ignore] is left as it was, four
    attempts are made with a sleep of 4 between two of them, and
    [RetryError] is raised. So it is for [confirm()] and [cancel()]. *)
Theorem perform_op_ignore_list (env : Env) (self : Confirmation) (op : string) (w : World) :
  confirmations_to_ignore (Confirmation._perform_op self op env w).2
    = confirmations_to_ignore w
  /\ (Confirmation._perform_op self op env w).1 = Raise RetryError
  /\ performed_ops (Confirmation._perform_op self op env w).2
     = performed_ops w ++ [op; op; op; op]
  /\ slept (Confirmation._perform_op self op env w).2 = slept w ++ [4; 4; 4]
  /\ (Confirmation.confirm self env w).1 = Raise RetryError
  /\ confirmations_to_ignore (Confirmation.confirm self env w).2 = confirmations_to_ignore w
  /\ (Confirmation.cancel self env w).1 = Raise RetryError
  /\ confirmations_to_ignore (Confirmation.cancel self env w).2 = confirmations_to_ignore w.
Proof.
  assert (H : forall o w0,
             (Confirmation._perform_op self o env w0).1 = Raise RetryError
             /\ confirmations_to_ignore (Confirmation._perform_op self o env w0).2
                = confirmations_to_ignore w0).
  { intros o w0. unfold Confirmation._perform_op.
    destruct (retry_exhausts env self o 3 w0) as (Hr & _ & _ & Hi). auto. }
  unfold Confirmation._perform_op at 1 2 3 4.
  destruct (retry_exhausts env self op 3 w) as (Hr & Hops & Hsl & Hi).
  split; [exact Hi |]. split; [exact Hr |]. split; [exact Hops |]. split; [exact Hsl |].
  split; [| split; [| apply H]].
  - unfold Confirmation.confirm, bind, debug.
    destruct (H "allow" (add_log LogReceived w)) as [Ha _].
    destruct (Confirmation._perform_op self "allow" env (add_log LogReceived w))
      as [[[] | e] w1]; simpl in *; [discriminate | exact Ha].
  - unfold Confirmation.confirm, bind, debug.
    destruct (H "allow" (add_log LogReceived w)) as [_ Hb].
    destruct (Confirmation._perform_op self "allow" env (add_log LogReceived w))
      as [[[] | e] w1]; simpl in *; exact Hb.
Qed.

(** ** [Confirmation.details] *)

(** X9. [details()] is not retried. When a code is generated it sends
    exactly one request, to the details path of the confirmation and
    tagged ["details" + str(data_conf_id)], and never sleeps; an error
    of the transport is raised as it is, a response with a falsy
    [success] raises [ConfirmationError] at once and records the trade
    id, and otherwise the [html] entry is returned ([KeyError] when the
    response has none). *)
Theorem details_single_request (env : Env) (self : Confirmation) (w : World)
    (ct : string * Z) :
  generate_code env (Confirmation.tag self) = Ok ct ->
  exists params,
    params !! "tag" = Some (VStr ("details" ++ py_str (data_conf_id self))%string)
    /\ calls (Confirmation.details self env w).2
       = calls w ++ [HttpGet ("mobileconf/details/" ++ conf_id self)%string params]
    /\ slept (Confirmation.details self env w).2 = slept w
    /\ match transport env (length (calls w))
               (HttpGet ("mobileconf/details/" ++ conf_id self)%string params) with
       | Raise e =>
           (Confirmation.details self env w).1 = Raise e
           /\ confirmations_to_ignore (Confirmation.details self env w).2
              = confirmations_to_ignore w
       | Ok resp =>
           if success resp
           then (Confirmation.details self env w).1 = getitem resp "html"
                /\ confirmations_to_ignore (Confirmation.details self env w).2
                   = confirmations_to_ignore w
           else (Confirmation.details self env w).1 = Raise (ConfirmationError "")
                /\ confirmations_to_ignore (Confirmation.details self env w).2
                   = confirmations_to_ignore w ++ [conf_trade_id self]
       end.
Proof.
  intros Hgen. eexists. split; [| split; [| split]].
  2: { unfold Confirmation.details, Confirmation._confirm_params, Confirmation._assert_valid,
         bind, ask, lift, ret, request, ignore_confirmation, raise.
       rewrite Hgen. simpl.
       match goal with |- context [transport env ?n ?c] =>
         destruct (transport env n c) as [r | e] end; simpl;
         [destruct (py_truthy (resp_get r "success" (VBool false))); simpl |];
         reflexivity. }
  - repeat (rewrite lookup_insert_ne by discriminate). apply lookup_insert_eq.
  - unfold Confirmation.details, Confirmation._confirm_params, Confirmation._assert_valid,
      bind, ask, lift, ret, request, ignore_confirmation, raise.
    rewrite Hgen. simpl.
    match goal with |- context [transport env ?n ?c] =>
      destruct (transport env n c) as [r | e] end; simpl;
      [destruct (py_truthy (resp_get r "success" (VBool false))); simpl |];
      reflexivity.
  - unfold Confirmation.details, Confirmation._confirm_params, Confirmation._assert_valid,
      bind, ask, lift, ret, request, ignore_confirmation, raise, success.
    rewrite Hgen. simpl.
    match goal with |- context [transport env ?n ?c] =>
      destruct (transport env n c) as [r | e] end; simpl;
      [destruct (py_truthy (resp_get r "success" (VBool false))); simpl |];
      split; reflexivity.
Qed.

Lemma details_single_request_witness :
  (Confirmation.details sample_confirmation (scripted_env [rejected; accepted] []) world0).1
  = Raise (ConfirmationError "")
  /\ length (calls (Confirmation.details sample_confirmation
                      (scripted_env [rejected; accepted] []) world0).2) = 1%nat.
Proof.
  destruct (details_single_request (scripted_env [rejected; accepted] [])
              sample_confirmation world0 ("code", 1600000000) eq_refl)
    as (params & _ & Hcalls & _ & Hout).
  split; [| rewrite Hcalls; reflexivity].
  simpl in Hout. exact (proj1 Hout).
Defined.

(** ** [TradeOffer]: predicates, [confirm] and [accept] *)

(** X10. An offer is a gift exactly when it has items to receive and
    none to send, one-sided exactly when one of the two lists is empty
    and the other is not; every gift is one-sided, and an offer with
    items on both sides, or on neither, is neither. *)
Theorem is_gift_is_one_sided (self : TradeOffer) :
  (TradeOffer.is_gift self = true
   <-> items_to_receive self <> [] /\ items_to_send self = [])
  /\ (TradeOffer.is_one_sided self = true
      <-> (items_to_receive self = [] /\ items_to_send self <> [])
          \/ (items_to_receive self <> [] /\ items_to_send self = []))
  /\ (TradeOffer.is_gift self = true -> TradeOffer.is_one_sided self = true)
  /\ (items_to_receive self <> [] -> items_to_send self <> [] ->
      TradeOffer.is_gift self = false /\ TradeOffer.is_one_sided self = false)
  /\ (items_to_receive self = [] -> items_to_send self = [] ->
      TradeOffer.is_gift self = false /\ TradeOffer.is_one_sided self = false).
Proof.
  unfold TradeOffer.is_gift, TradeOffer.is_one_sided.
  destruct (items_to_receive self) as [| r rs], (items_to_send self) as [| x xs]; simpl;
    intuition congruence.
Qed.

Lemma is_gift_is_one_sided_witness :
  TradeOffer.is_gift (sample_offer Active) = false
  /\ TradeOffer.is_one_sided (sample_offer Active) = false.
Proof.
  destruct (is_gift_is_one_sided (sample_offer Active)) as (_ & _ & _ & _ & H).
  apply H; reflexivity.
Defined.

Lemma Confirmation_confirm_calls (env : Env) (self : Confirmation) (w : World) :
  exists sent,
    calls (Confirmation.confirm self env w).2 = calls w ++ sent
    /\ Forall (ajaxop_request env self "allow") sent.
Proof.
  unfold Confirmation.confirm, bind, debug.
  destruct (perform_op_sent env self "allow" (add_log LogReceived w))
    as (sent & Hc & Hf).
  exists sent.
  destruct (Confirmation._perform_op self "allow" env (add_log LogReceived w))
    as [[[] | e] w1]; simpl in *; auto.
Qed.

(** X11. [TradeOffer.confirm] does nothing at all for a gift, whatever
    the state of the offer; for another offer in state [Active] or
    [ConfirmationNeed] that the manager has no confirmation for, it
    raises [ConfirmationError] without a request. A request is only
    ever sent for an offer that is not a gift, is in one of the two
    states and has a confirmation. *)
Theorem confirm_requests_only_known (env : Env) (self : TradeOffer) (w : World) :
  (TradeOffer.is_gift self = true -> TradeOffer.confirm self env w = (Ok tt, w))
  /\ (TradeOffer.is_gift self = false ->
      state self = Active \/ state self = ConfirmationNeed ->
      get_confirmation env (length (calls w)) (id self) = None ->
      TradeOffer.confirm self env w
      = (Raise (ConfirmationError "No matching confirmation could be found for this trade"),
         w))
  /\ (calls (TradeOffer.confirm self env w).2 <> calls w ->
      TradeOffer.is_gift self = false
      /\ (state self = Active \/ state self = ConfirmationNeed)
      /\ exists c, get_confirmation env (length (calls w)) (id self) = Some c).
Proof.
  unfold TradeOffer.confirm. split; [| split].
  - intros ->. reflexivity.
  - intros -> Hst Hnone. unfold bind, lift, lookup_confirmation, raise.
    destruct Hst as [-> | ->]; simpl; rewrite Hnone; reflexivity.
  - destruct (TradeOffer.is_gift self); [intros H; contradiction H; reflexivity |].
    unfold bind, lift, lookup_confirmation, raise.
    destruct (state self); simpl; try (intros H; contradiction H; reflexivity);
      (destruct (get_confirmation env (length (calls w)) (id self)) as [c |];
       [intros _; repeat split; eauto | intros H; contradiction H; reflexivity]).
Qed.

Lemma confirm_requests_only_known_witness :
  TradeOffer.confirm (sample_giving_offer ConfirmationNeed) (scripted_env [] []) world0
  = (Raise (ConfirmationError "No matching confirmation could be found for this trade"),
     world0).
Proof.
  apply (proj1 (proj2 (confirm_requests_only_known (scripted_env [] [])
                         (sample_giving_offer ConfirmationNeed) world0)));
    [reflexivity | right; reflexivity | reflexivity].
Defined.

(** X12. [accept] reaches the network only for an offer that is
    [Active], was not made by the client and whose partner has been
    resolved, and the first call is then the accept endpoint with the
    partner's id and the offer's id. An offer of the client itself is
    refused with [ClientException]; an unresolved partner raises
    [AttributeError] before any call. *)
Theorem accept_calls_endpoint_first (env : Env) (self : TradeOffer) (w : World) :
  (calls (TradeOffer.accept self env w).2 <> calls w ->
   state self = Active /\ TradeOffer.is_our_offer self = false
   /\ exists p rest,
        partner self = Some p
        /\ calls (TradeOffer.accept self env w).2
           = calls w ++ AcceptUserTrade p (id self) :: rest)
  /\ (state self = Active -> TradeOffer.is_our_offer self = true ->
      TradeOffer.accept self env w
      = (Raise (ClientException "You cannot accept an offer the ClientUser has made"), w))
  /\ (state self = Active -> TradeOffer.is_our_offer self = false ->
      partner self = None ->
      TradeOffer.accept self env w = (Raise AttributeError, w)).
Proof.
  unfold TradeOffer.accept. split; [| split].
  - destruct (ETradeOfferState.eqb (state self) Active) eqn:Hact; simpl;
      [| intros H; contradiction H; reflexivity].
    assert (Hst : state self = Active) by (destruct (state self); try discriminate; reflexivity).
    rewrite Hst. simpl.
    destruct (TradeOffer.is_our_offer self); [intros H; contradiction H; reflexivity |].
    destruct (partner self) as [p |]; [| intros H; contradiction H; reflexivity].
    intros _. split; [exact eq_refl |]. split; [exact eq_refl |].
    match goal with |- exists p0 rest, Some p = Some p0 /\ calls ?res = _ =>
      cut (exists rest, calls res = calls w ++ AcceptUserTrade p (id self) :: rest);
        [intros [rest Hrest]; exists p, rest; split; [reflexivity | exact Hrest] |]
    end.
    unfold bind at 1, lift. unfold bind at 1, request.
    destruct (transport env (length (calls w)) (AcceptUserTrade p (id self))) as [resp | e];
      [| exists []; reflexivity].
    destruct (py_truthy (resp_get resp "needs_mobile_confirmation" (VBool false)));
      [| exists []; reflexivity].
    unfold bind, ask.
    destruct (identity_secret env) as [secret |]; [| exists []; reflexivity].
    destruct (negb (String.eqb secret "")); [| exists []; reflexivity].
    unfold TradeOffer.confirm.
    destruct (TradeOffer.is_gift self); [exists []; reflexivity |].
    unfold bind, lift, lookup_confirmation, raise. rewrite Hst. simpl.
    match goal with |- context [get_confirmation env ?n ?i] =>
      destruct (get_confirmation env n i) as [c |] end; [| exists []; reflexivity].
    destruct (Confirmation_confirm_calls env c (add_call (AcceptUserTrade p (id self)) w))
      as (sent & Hc & _).
    exists sent. rewrite Hc. simpl. rewrite <- app_assoc. reflexivity.
  - intros -> ->. reflexivity.
  - intros -> -> ->. reflexivity.
Qed.

Lemma accept_calls_endpoint_first_witness :
  state (sample_offer Active) = Active
  /\ TradeOffer.is_our_offer (sample_offer Active) = false
  /\ exists p rest,
       partner (sample_offer Active) = Some p
       /\ calls (TradeOffer.accept (sample_offer Active)
                   (scripted_env [accepted] []) world0).2
          = calls world0 ++ AcceptUserTrade p (id (sample_offer Active)) :: rest.
Proof.
  apply (proj1 (accept_calls_endpoint_first (scripted_env [accepted] [])
                  (sample_offer Active) world0)).
  vm_compute. discriminate.
Defined.

(** X13. For an active offer of a resolved partner that the client did
    not make, [accept] makes the accept call and nothing else when the
    offer is a gift, or when no identity secret is configured (none, or
    the empty string): also when the response asks for a mobile
    confirmation. The outcome is that of the call. *)
Theorem accept_without_confirmation (env : Env) (self : TradeOffer) (w : World) (p : Z) :
  state self = Active ->
  TradeOffer.is_our_offer self = false ->
  partner self = Some p ->
  TradeOffer.is_gift self = true
    \/ identity_secret env = None \/ identity_secret env = Some "" ->
  TradeOffer.accept self env w
  = (match transport env (length (calls w)) (AcceptUserTrade p (id self)) with
     | Ok _ => Ok tt
     | Raise e => Raise e
     end,
     add_call (AcceptUserTrade p (id self)) w).
Proof.
  intros Hst Hour Hp Hwhy. unfold TradeOffer.accept. rewrite Hst, Hour, Hp. simpl.
  unfold bind at 1, lift. unfold bind at 1, request.
  destruct (transport env (length (calls w)) (AcceptUserTrade p (id self))) as [resp | e];
    [| reflexivity].
  destruct (py_truthy (resp_get resp "needs_mobile_confirmation" (VBool false)));
    [| reflexivity].
  unfold bind, ask.
  destruct Hwhy as [Hgift | [Hsec | Hsec]].
  - destruct (identity_secret env) as [secret |]; [| reflexivity].
    destruct (negb (String.eqb secret "")); [| reflexivity].
    unfold TradeOffer.confirm. rewrite Hgift. reflexivity.
  - rewrite Hsec. reflexivity.
  - rewrite Hsec. reflexivity.
Qed.

Lemma accept_without_confirmation_witness :
  TradeOffer.accept (sample_offer Active) env_without_secret world0
  = (Ok tt, add_call (AcceptUserTrade 76561197960265729 42) world0).
Proof.
  exact (accept_without_confirmation env_without_secret (sample_offer Active) world0
           76561197960265729 eq_refl eq_refl eq_refl (or_intror (or_introl eq_refl))).
Defined.

(** [TradeOffer.confirm] on an offer that has a confirmation. *)
Lemma TradeOffer_confirm_known (env : Env) (trade : TradeOffer) (c : Confirmation) (w : World) :
  TradeOffer.is_gift trade = false ->
  state trade = Active \/ state trade = ConfirmationNeed ->
  get_confirmation env (length (calls w)) (id trade) = Some c ->
  TradeOffer.confirm trade env w
  = retry 3 4 (Confirmation._perform_op_attempt c "allow") env (add_log LogReceived w).
Proof.
  intros Hgift Hst Hconf. unfold TradeOffer.confirm. rewrite Hgift.
  unfold bind at 1, lift.
  destruct Hst as [-> | ->]; simpl; unfold bind at 1, lookup_confirmation;
    rewrite Hconf; reflexivity.
Qed.

(** X14. Accepting with automatic confirmation never returns. For an
    active offer that is not a gift, with a configured identity secret
    and a confirmation known to the manager: when the accept call
    answers that a mobile confirmation is needed, [accept] raises
    [RetryError]. By then the accept call has been made, followed by
    the four attempts of the [allow] request and three sleeps of 4. *)
Theorem accept_then_confirm (env : Env) (self : TradeOffer) (w : World) (p : Z)
    (secret : string) (c : Confirmation) (asked : Response) :
  state self = Active ->
  TradeOffer.is_our_offer self = false ->
  TradeOffer.is_gift self = false ->
  partner self = Some p ->
  identity_secret env = Some secret -> secret <> "" ->
  transport env (length (calls w)) (AcceptUserTrade p (id self)) = Ok asked ->
  needs_mobile_confirmation asked = true ->
  get_confirmation env (length (calls w) + 1) (id self) = Some c ->
  (TradeOffer.accept self env w).1 = Raise RetryError
  /\ (exists sent,
        calls (TradeOffer.accept self env w).2
        = calls w ++ AcceptUserTrade p (id self) :: sent
        /\ Forall (ajaxop_request env c "allow") sent
        /\ (length sent <= 4)%nat)
  /\ (forall ct, generate_code env "allow" = Ok ct ->
        calls (TradeOffer.accept self env w).2
        = calls w ++ AcceptUserTrade p (id self) :: repeat (ajaxop_call env c "allow" ct) 4)
  /\ performed_ops (TradeOffer.accept self env w).2
     = performed_ops w ++ ["allow"; "allow"; "allow"; "allow"]
  /\ slept (TradeOffer.accept self env w).2 = slept w ++ [4; 4; 4].
Proof.
  intros Hst Hour Hgift Hp Hsec Hne Hacc Hasked Hconf.
  set (w1 := add_call (AcceptUserTrade p (id self)) w).
  assert (Hrun : TradeOffer.accept self env w
                 = retry 3 4 (Confirmation._perform_op_attempt c "allow") env
                     (add_log LogReceived w1)).
  { rewrite <- (TradeOffer_confirm_known env self c w1 Hgift (or_introl Hst))
      by (subst w1; world; exact Hconf).
    unfold TradeOffer.accept. rewrite Hst, Hour, Hp. simpl.
    unfold bind at 1, lift. unfold bind at 1, request. rewrite Hacc.
    unfold needs_mobile_confirmation in Hasked. rewrite Hasked.
    unfold bind at 1, ask. rewrite Hsec.
    assert (Hnb : negb (String.eqb secret "") = true).
    { destruct (String.eqb_spec secret ""); [contradiction | reflexivity]. }
    rewrite Hnb. reflexivity. }
  rewrite Hrun.
  destruct (retry_exhausts env c "allow" 3 (add_log LogReceived w1)) as (Hr & Hops & Hsl & _).
  split; [exact Hr |]. split; [| split; [| split]].
  - destruct (retry_sent env c "allow" 3 (add_log LogReceived w1)) as (sent & Hc & Hf & Hl).
    exists sent. rewrite Hc. subst w1. split; [world | auto].
  - intros ct Hgen. rewrite (retry_calls env c "allow" ct 3 _ Hgen). subst w1. world.
  - rewrite Hops. subst w1. world.
  - rewrite Hsl. subst w1. world.
Qed.

Lemma accept_then_confirm_witness :
  (TradeOffer.accept (sample_giving_offer Active)
     (scripted_env [confirmation_needed; accepted; accepted; accepted; accepted]
        [sample_confirmation]) world0).1 = Raise RetryError
  /\ slept (TradeOffer.accept (sample_giving_offer Active)
              (scripted_env [confirmation_needed; accepted; accepted; accepted; accepted]
                 [sample_confirmation]) world0).2 = slept world0 ++ [4; 4; 4].
Proof.
  destruct (accept_then_confirm
              (scripted_env [confirmation_needed; accepted; accepted; accepted; accepted]
                 [sample_confirmation])
              (sample_giving_offer Active) world0 76561197960265729 "YWJj"
              sample_confirmation confirmation_needed)
    as (Hr & _ & _ & _ & Hsl); try reflexivity; [discriminate |].
  split; [exact Hr | exact Hsl].
Defined.

(** ** The confirmation phase of [User.send] with [TradeOffer.confirm] *)

Lemma confirm_loop_step_ok (confirm : M unit) (env : Env) (tries : Z) (range : list Z)
    (w w1 : World) :
  confirm env w = (Ok tt, w1) ->
  User.confirm_loop confirm (tries :: range) env w = User.confirm_loop confirm range env w1.
Proof. intros H. simpl. rewrite H. reflexivity. Qed.

(** A [confirm()] that returns every time is invoked once per value of
    [tries]. *)
Lemma confirm_loop_all_ok (confirm : M unit) (env : Env) (range : list Z) (w : World) :
  (forall w0, (confirm env w0).1 = Ok tt) ->
  User.confirm_loop confirm range env w
  = (Ok tt, Nat.iter (length range) (fun w0 => (confirm env w0).2) w).
Proof.
  intros Hok. revert w. induction range as [| tries range IH]; intros w; [reflexivity |].
  rewrite (confirm_loop_step_ok confirm env tries range w (confirm env w).2).
  - rewrite IH. cbn [length]. rewrite Nat.iter_succ_r. reflexivity.
  - specialize (Hok w). destruct (confirm env w) as [r w1]. simpl in *. rewrite Hok.
    reflexivity.
Qed.

(** X15. The loop of [send] has no [break] after a success: a
    [confirm()] that returns is invoked again, five times in a row and
    without a sleep of the loop, before the state is set to [Active].
    [TradeOffer.confirm] returns in this way for a gift, for which it
    does nothing: the phase then leaves the world as it was. *)
Theorem send_confirmation_keeps_confirming (env : Env) (trade : TradeOffer) (w : World) :
  (forall confirm,
      (forall w0, (confirm trade env w0).1 = Ok tt) ->
      User.send_confirmation confirm true trade env w
      = (Ok (set_state trade Active), Nat.iter 5 (fun w0 => (confirm trade env w0).2) w))
  /\ (TradeOffer.is_gift trade = true ->
      User.send_confirmation TradeOffer.confirm true trade env w
      = (Ok (set_state trade Active), w)).
Proof.
  assert (Hgen : forall confirm,
             (forall w0, (confirm trade env w0).1 = Ok tt) ->
             User.send_confirmation confirm true trade env w
             = (Ok (set_state trade Active),
                Nat.iter 5 (fun w0 => (confirm trade env w0).2) w)).
  { intros confirm Hok. unfold User.send_confirmation, bind.
    rewrite (confirm_loop_all_ok (confirm trade) env [0; 1; 2; 3; 4] w Hok). reflexivity. }
  split; [exact Hgen |].
  intros Hgift.
  assert (Hconf : forall w0, TradeOffer.confirm trade env w0 = (Ok tt, w0))
    by (intros w0; unfold TradeOffer.confirm; rewrite Hgift; reflexivity).
  rewrite Hgen by (intros w0; rewrite Hconf; reflexivity).
  simpl. rewrite !Hconf. reflexivity.
Qed.

Lemma send_confirmation_keeps_confirming_witness :
  exists w',
    User.send_confirmation (scripted_confirm (fun _ => Ok tt)) true
      (sample_offer ConfirmationNeed) (scripted_env [] []) world0
    = (Ok (set_state (sample_offer ConfirmationNeed) Active), w')
    /\ length (calls w') = 5%nat
    /\ slept w' = [].
Proof.
  eexists. split.
  - apply (proj1 (send_confirmation_keeps_confirming (scripted_env [] [])
                    (sample_offer ConfirmationNeed) world0)).
    intros w0. reflexivity.
  - split; reflexivity.
Defined.

(** X16. When every invocation of [confirm()] raises
    [ClientException], the loop gives up after five attempts having
    slept 0, 2, 4, 6 and 8 (it also sleeps after the last attempt), and
    the state is set to [Active] all the same. [TradeOffer.confirm]
    behaves so for an offer that is not a gift and is neither [Active]
    nor [ConfirmationNeed]: then nothing is sent. *)
Theorem send_confirmation_gives_up (env : Env) (trade : TradeOffer) (w : World) :
  (forall confirm,
      (forall w0, exists msg, confirm trade env w0 = (Raise (ClientException msg), w0)) ->
      User.send_confirmation confirm true trade env w
      = (Ok (set_state trade Active),
         add_sleep 8 (add_sleep 6 (add_sleep 4 (add_sleep 2 (add_sleep 0 w))))))
  /\ (TradeOffer.is_gift trade = false ->
      state trade <> Active -> state trade <> ConfirmationNeed ->
      User.send_confirmation TradeOffer.confirm true trade env w
      = (Ok (set_state trade Active),
         add_sleep 8 (add_sleep 6 (add_sleep 4 (add_sleep 2 (add_sleep 0 w)))))).
Proof.
  assert (Hgen : forall confirm,
             (forall w0, exists msg, confirm trade env w0 = (Raise (ClientException msg), w0)) ->
             User.send_confirmation confirm true trade env w
             = (Ok (set_state trade Active),
                add_sleep 8 (add_sleep 6 (add_sleep 4 (add_sleep 2 (add_sleep 0 w)))))).
  { intros confirm Hc. unfold User.send_confirmation, bind at 1.
    cbn [User.confirm_loop].
    destruct (Hc w) as [m0 ->]. unfold bind at 1, sleep at 1.
    destruct (Hc (add_sleep (0 * 2) w)) as [m1 ->]. unfold bind at 1, sleep at 1.
    destruct (Hc (add_sleep (1 * 2) (add_sleep (0 * 2) w))) as [m2 ->].
    unfold bind at 1, sleep at 1.
    destruct (Hc (add_sleep (2 * 2) (add_sleep (1 * 2) (add_sleep (0 * 2) w)))) as [m3 ->].
    unfold bind at 1, sleep at 1.
    destruct (Hc (add_sleep (3 * 2) (add_sleep (2 * 2) (add_sleep (1 * 2)
                   (add_sleep (0 * 2) w))))) as [m4 ->].
    reflexivity. }
  split; [exact Hgen |].
  intros Hgift Hact Hneed. apply Hgen. intros w0.
  exists "This trade cannot be confirmed". unfold TradeOffer.confirm. rewrite Hgift.
  destruct (state trade); try contradiction; reflexivity.
Qed.

Lemma send_confirmation_gives_up_witness :
  User.send_confirmation TradeOffer.confirm true (sample_giving_offer Declined)
    env_always_accepting world0
  = (Ok (set_state (sample_giving_offer Declined) Active),
     add_sleep 8 (add_sleep 6 (add_sleep 4 (add_sleep 2 (add_sleep 0 world0))))).
Proof.
  apply (proj2 (send_confirmation_gives_up env_always_accepting
                  (sample_giving_offer Declined) world0)); try reflexivity; discriminate.
Defined.

(** X17. [RetryError] is not caught by the loop of [send]: when the
    offer has a confirmation that is rejected four times, the first
    [confirm()] raises [RetryError], which leaves the confirmation phase
    at once; the state is not set and only the three sleeps of the
    retry policy have taken place. *)
Theorem send_confirmation_RetryError_escapes (env : Env) (trade : TradeOffer)
    (c : Confirmation) (f1 f2 f3 f4 : Response) (w : World) :
  TradeOffer.is_gift trade = false ->
  state trade = Active \/ state trade = ConfirmationNeed ->
  get_confirmation env (length (calls w)) (id trade) = Some c ->
  (exists ct, generate_code env "allow" = Ok ct) ->
  Forall (fun f => success f = false) [f1; f2; f3; f4] ->
  answers env w [f1; f2; f3; f4] ->
  (User.send_confirmation TradeOffer.confirm true trade env w).1 = Raise RetryError
  /\ slept (User.send_confirmation TradeOffer.confirm true trade env w).2
     = slept w ++ [4; 4; 4]
  /\ performed_ops (User.send_confirmation TradeOffer.confirm true trade env w).2
     = performed_ops w ++ ["allow"; "allow"; "allow"; "allow"].
Proof.
  intros Hgift Hst Hconf _ _ _.
  destruct (retry_exhausts env c "allow" 3 (add_log LogReceived w)) as (Hr & Hops & Hsl & _).
  destruct (retry 3 4 (Confirmation._perform_op_attempt c "allow") env (add_log LogReceived w))
    as [r w'] eqn:Hrun.
  simpl in Hr, Hops, Hsl. subst r.
  assert (Hsend : User.send_confirmation TradeOffer.confirm true trade env w
                  = (Raise RetryError, w')).
  { unfold User.send_confirmation, bind at 1. cbn [User.confirm_loop].
    rewrite (TradeOffer_confirm_known env trade c w Hgift Hst Hconf), Hrun. reflexivity. }
  rewrite Hsend. simpl. rewrite Hops, Hsl. split; [reflexivity |]. split; world.
Qed.

Lemma send_confirmation_RetryError_escapes_witness :
  (User.send_confirmation TradeOffer.confirm true (sample_giving_offer ConfirmationNeed)
     (scripted_env [rejected; rejected; rejected; rejected] [sample_confirmation]) world0).1
  = Raise RetryError.
Proof.
  refine (proj1 (send_confirmation_RetryError_escapes
            (scripted_env [rejected; rejected; rejected; rejected] [sample_confirmation])
            (sample_giving_offer ConfirmationNeed) sample_confirmation
            rejected rejected rejected rejected world0 eq_refl (or_intror eq_refl) eq_refl
            _ _ _)).
  - eexists. reflexivity.
  - repeat constructor.
  - apply answers_scripted.
Defined.

(** ** [Inventory.filter_items], for every limit *)

Lemma slice_to_is_take {A : Type} (l : list A) (n : Z) : exists m, slice_to l n = take m l.
Proof. unfold slice_to. destruct (n <? 0); eauto. Qed.

Lemma fold_remove_first_length (found current : list Item) :
  item_key <$> found ⊆+ item_key <$> current ->
  (length (fold_left (fun l x => remove_first x l) found current) + length found
   = length current)%nat.
Proof.
  revert current. induction found as [| x found IH]; intros current Hsub; simpl; [lia |].
  rewrite fmap_cons in Hsub. apply submseteq_cons_l in Hsub as (k' & Hperm & Hsub).
  assert (Hin : item_key x ∈ item_key <$> current).
  { rewrite Hperm. apply elem_of_cons. left. reflexivity. }
  destruct (list_remove_found x current Hin) as [_ Hperm'].
  assert (Hlen : length current = S (length (remove_first x current))).
  { apply Permutation_length in Hperm'. rewrite length_fmap in Hperm'.
    simpl in Hperm'. rewrite length_fmap in Hperm'. exact Hperm'. }
  rewrite Hperm' in Hperm. apply Permutation_cons_inv in Hperm.
  rewrite <- Hperm in Hsub. specialize (IH _ Hsub). lia.
Qed.

(** X18. [filter_items] never raises, whatever the limit (negative
    ones included). It returns a prefix of the items that bear the name,
    the list loses exactly as many items as are returned, and neither
    [len(inventory)] nor the game changes: the length reported stays
    the server's count. *)
Theorem filter_items_conserves (self : Inventory) (item_name : pyval) (limit : option Z) :
  exists found rest,
    (Inventory.filter_items self item_name limit).1 = Ok found
    /\ named item_name (items self) = found ++ rest
    /\ (length (items (Inventory.filter_items self item_name limit).2) + length found
        = length (items self))%nat
    /\ Inventory.__len__ (Inventory.filter_items self item_name limit).2
       = Inventory.__len__ self
    /\ inv_game (Inventory.filter_items self item_name limit).2 = inv_game self.
Proof.
  unfold Inventory.filter_items. fold (named item_name (items self)).
  set (all := named item_name (items self)).
  destruct (slice_to_is_take all (match limit with
                                  | None => Z.of_nat (length all) - 1
                                  | Some m => m
                                  end)) as [m ->].
  assert (Hsub : item_key <$> take m all ⊆+ item_key <$> items self).
  { apply sublist_submseteq, fmap_sublist.
    transitivity all; [apply sublist_take | apply sublist_filter]. }
  rewrite (remove_each_runs _ _ Hsub). simpl.
  exists (take m all), (drop m all). split; [reflexivity |].
  split; [symmetry; apply take_drop |].
  split; [apply fold_remove_first_length, Hsub |]. split; reflexivity.
Qed.

Lemma slice_to_minus_one {A : Type} (l : list A) :
  slice_to l (-1) = slice_to l (Z.of_nat (length l) - 1).
Proof.
  unfold slice_to. destruct l as [| a l]; [reflexivity |].
  destruct (Z.ltb_spec (Z.of_nat (length (a :: l)) - 1) 0) as [H | H];
    [simpl in H; lia |].
  simpl Z.ltb. cbv iota. f_equal; lia.
Qed.

(** X19. The edges of the limit. [limit=-1] behaves exactly as no limit
    (all matches but the last); a negative limit [-n] returns all
    matches but the last [n]; [limit=0] returns nothing and removes
    nothing. *)
Theorem filter_items_limit_edges (self : Inventory) (item_name : pyval) :
  Inventory.filter_items self item_name (Some (-1))
    = Inventory.filter_items self item_name None
  /\ (forall n, 0 < n ->
        (Inventory.filter_items self item_name (Some (- n))).1
        = Ok (take (length (named item_name (items self)) - Z.to_nat n)
                   (named item_name (items self))))
  /\ (Inventory.filter_items self item_name (Some 0)).1 = Ok []
  /\ items (Inventory.filter_items self item_name (Some 0)).2 = items self.
Proof.
  split; [| split; [| split]].
  - unfold Inventory.filter_items. rewrite slice_to_minus_one. reflexivity.
  - intros n Hn.
    unfold Inventory.filter_items. fold (named item_name (items self)).
    set (all := named item_name (items self)).
    assert (Hslice : slice_to all (- n) = take (length all - Z.to_nat n) all).
    { unfold slice_to. destruct (Z.ltb_spec (- n) 0); [| lia]. f_equal; lia. }
    rewrite Hslice.
    assert (Hsub : item_key <$> take (length all - Z.to_nat n) all
                   ⊆+ item_key <$> items self).
    { apply sublist_submseteq, fmap_sublist.
      transitivity all; [apply sublist_take | apply sublist_filter]. }
    rewrite (remove_each_runs _ _ Hsub). reflexivity.
  - reflexivity.
  - reflexivity.
Qed.

Lemma filter_items_limit_edges_witness :
  (Inventory.filter_items inventory_two (VStr "key") (Some (-1))).1
  = Ok (take (length (named (VStr "key") (items inventory_two)) - Z.to_nat 1)
             (named (VStr "key") (items inventory_two))).
Proof.
  apply (proj1 (proj2 (filter_items_limit_edges inventory_two (VStr "key"))) 1). lia.
Defined.

(** ** Refreshing an inventory *)

Lemma reconcile_from (assets : list (gmap string pyval))
    (descs : option (list (gmap string pyval))) (acc : list Item) :
  Inventory.reconcile assets descs acc
  = match Inventory.reconcile assets descs [] with
    | Ok its => Ok (acc ++ its)
    | Raise e => Raise e
    end.
Proof.
  revert descs acc. induction assets as [| asset more IH]; intros descs acc; simpl.
  - rewrite app_nil_r. reflexivity.
  - destruct descs as [ds |]; [| reflexivity].
    destruct (Inventory.scan_descriptions asset ds) as [r | e]; simpl; [| reflexivity].
    destruct (Item.__init__ asset true) as [lone | e]; simpl; [| reflexivity].
    rewrite (IH (Some r.1) (acc ++ r.2 ++ [lone])).
    rewrite (IH (Some r.1) (r.2 ++ [lone])).
    destruct (Inventory.reconcile more (Some r.1) []) as [its | e]; [| reflexivity].
    rewrite <- !app_assoc. reflexivity.
Qed.

(** X20. [update()] never replaces the items: [_update] appends to the
    list that is there. An inventory without game (built from a payload
    without assets) cannot be refreshed, [update()] raises
    [AttributeError] for it; a refresh that returns either keeps every
    previous item in front of the new ones or, for a payload without
    assets, empties the inventory; and refreshing with the payload the
    inventory was built from doubles its items while [len()] stays the
    same. *)
Theorem Inventory_update_appends
    (fetch_user_inventory : Z -> pyval -> pyval -> result Payload)
    (context_id : Game -> pyval) (owner_id64 : Z) (self : Inventory) :
  (inv_game self = None ->
   Inventory.update fetch_user_inventory context_id owner_id64 self = Raise AttributeError)
  /\ (forall inv,
        Inventory.update fetch_user_inventory context_id owner_id64 self = Ok inv ->
        (inv_game inv = None /\ items inv = [])
        \/ (exists new, items inv = items self ++ new))
  /\ (forall data g,
        Inventory.__init__ data = Ok self ->
        inv_game self = Some g ->
        fetch_user_inventory owner_id64 (game_app_id g) (context_id g) = Ok data ->
        exists inv,
          Inventory.update fetch_user_inventory context_id owner_id64 self = Ok inv
          /\ items inv = items self ++ items self
          /\ Inventory.__len__ inv = Inventory.__len__ self).
Proof.
  unfold Inventory.update. split; [| split].
  - intros ->. reflexivity.
  - intros inv. destruct (inv_game self) as [g |]; [| discriminate].
    destruct (fetch_user_inventory owner_id64 (game_app_id g) (context_id g))
      as [data | e]; simpl; [| discriminate].
    unfold Inventory._update.
    destruct (Inventory.first_game data) as [g' | e].
    + rewrite reconcile_from.
      destruct (Inventory.reconcile (default [] (assets data)) (descriptions data) [])
        as [its | e]; simpl; [| discriminate].
      destruct (total_inventory_count data); [| discriminate].
      intros H; inversion H; subst inv. right. eauto.
    + destruct e; try discriminate. intros H; inversion H. left. auto.
  - intros data g Hinit Hgame Hfetch. rewrite Hgame, Hfetch. simpl.
    unfold Inventory.__init__, Inventory._update in *.
    destruct (Inventory.first_game data) as [g' | e].
    + rewrite reconcile_from. cbn [items] in Hinit.
      destruct (Inventory.reconcile (default [] (assets data)) (descriptions data) [])
        as [its | e]; cbn [rbind] in *; [| discriminate].
      destruct (total_inventory_count data) as [total |]; [| discriminate].
      inversion Hinit; subst self. cbn [items]. eexists. split; [reflexivity |].
      split; reflexivity.
    + destruct e; try discriminate. inversion Hinit; subst self. discriminate.
Qed.

Lemma Inventory_update_appends_witness :
  exists inv,
    Inventory.update (fun _ _ _ => Ok payload_two) (fun _ => VInt 2) 76561197960265728
      inventory_two = Ok inv
    /\ items inv = items inventory_two ++ items inventory_two
    /\ Inventory.__len__ inv = Inventory.__len__ inventory_two.
Proof.
  refine (proj2 (proj2 (Inventory_update_appends (fun _ _ _ => Ok payload_two)
            (fun _ => VInt 2) 76561197960265728 inventory_two))
            payload_two (Build_Game (VInt 440)) _ _ _).
  - vm_compute. reflexivity.
  - vm_compute. reflexivity.
  - reflexivity.
Defined.

(** ** The edges of [Inventory._update] *)

Lemma py_int_raises (v : pyval) (e : exn) :
  py_int v = Raise e -> e = ValueError \/ e = TypeError.
Proof.
  destruct v as [| b | z | t]; simpl; try discriminate.
  - intros H; inversion H; auto.
  - destruct (parse_signed 10 (strip (list_ascii_of_string t))); [discriminate |].
    intros H; inversion H; auto.
Qed.

(** X21. What [Inventory(...)] does with an odd payload. An empty
    [assets] list raises [IndexError] (only [KeyError] is caught); a
    first asset without [appid] makes the whole payload count as "no
    inventory": the result is empty, with no game and length 0, however
    many assets there are; an [appid] that is not a number raises the
    error of [int()]; and with a good first asset a payload without
    [descriptions] raises [KeyError]. *)
Theorem Inventory_init_edges (data : Payload) :
  (assets data = Some [] -> Inventory.__init__ data = Raise IndexError)
  /\ (forall first rest,
        assets data = Some (first :: rest) -> first !! "appid" = None ->
        Inventory.__init__ data = Ok (Build_Inventory None [] (VInt 0)))
  /\ (forall first rest v e,
        assets data = Some (first :: rest) -> first !! "appid" = Some v ->
        py_int v = Raise e ->
        Inventory.__init__ data = Raise e)
  /\ (forall first rest v n,
        assets data = Some (first :: rest) -> first !! "appid" = Some v ->
        py_int v = Ok n -> descriptions data = None ->
        Inventory.__init__ data = Raise (KeyError "descriptions")).
Proof.
  unfold Inventory.__init__, Inventory._update, Inventory.first_game.
  split; [| split; [| split]].
  - intros ->. reflexivity.
  - intros first rest -> Hno. unfold getitem. rewrite Hno. reflexivity.
  - intros first rest v e -> Hv Hint. unfold getitem. rewrite Hv. cbn [rbind].
    rewrite Hint. cbn [rbind].
    destruct (py_int_raises v e Hint) as [-> | ->]; reflexivity.
  - intros first rest v n -> Hv Hint Hdesc. unfold getitem. rewrite Hv. cbn [rbind].
    rewrite Hint. cbn [rbind default]. rewrite Hdesc. reflexivity.
Qed.

Lemma Inventory_init_edges_witness :
  Inventory.__init__ payload_first_without_appid = Ok (Build_Inventory None [] (VInt 0)).
Proof.
  refine (proj1 (proj2 (Inventory_init_edges payload_first_without_appid))
            (delete "appid" (sample_asset "1")) [sample_asset "2"] eq_refl _).
  apply lookup_delete_eq.
Defined.

(** ** [str] and [int], and [Asset.to_dict] *)

Lemma digit_char_cases (d : Z) :
  0 <= d < 10 ->
  digit_value (digit_char d) = Some d
  /\ is_space (digit_char d) = false
  /\ Ascii.eqb (digit_char d) "_" = false
  /\ Ascii.eqb (digit_char d) "-" = false
  /\ Ascii.eqb (digit_char d) "+" = false.
Proof.
  intros Hd.
  assert (H : d = 0 \/ d = 1 \/ d = 2 \/ d = 3 \/ d = 4 \/ d = 5 \/ d = 6 \/ d = 7
              \/ d = 8 \/ d = 9) by lia.
  repeat (destruct H as [-> | H]; [vm_compute; repeat split; reflexivity |]).
  subst d. vm_compute. repeat split; reflexivity.
Qed.

Lemma decimal_digits_decimal (fuel : nat) (n : Z) (acc : list ascii) :
  Forall decimal acc -> Forall decimal (decimal_digits fuel n acc).
Proof.
  revert n acc. induction fuel as [| fuel IH]; intros n acc Hacc; simpl; [exact Hacc |].
  assert (Hd : decimal (digit_char (n mod 10))).
  { exists (n mod 10). split; [apply Z.mod_pos_bound; lia | reflexivity]. }
  destruct (n <? 10); [constructor; assumption |].
  apply IH. constructor; assumption.
Qed.

Lemma decimal_digits_nonempty (fuel : nat) (n : Z) (acc : list ascii) :
  decimal_digits (S fuel) n acc <> [].
Proof.
  revert n acc. induction fuel as [| fuel IH]; intros n acc.
  - simpl. destruct (n <? 10); discriminate.
  - change (decimal_digits (S (S fuel)) n acc)
      with (let acc' := digit_char (n mod 10) :: acc in
            if n <? 10 then acc' else decimal_digits (S fuel) (n / 10) acc').
    cbv zeta. destruct (n <? 10); [discriminate | apply IH].
Qed.

(** Reading decimal digits adds them up in base 10. *)
Lemma parse_digits_decimal (l : list ascii) (a : Z) :
  Forall decimal l ->
  parse_digits 10 (Some a) false l = Some (fold_left (fun x c => x * 10 + digit_of c) l a).
Proof.
  intros Hl. revert a. induction Hl as [| c l [d [Hd ->]] _ IH]; intros a; [reflexivity |].
  destruct (digit_char_cases d Hd) as (Hv & _ & Hu & _).
  cbn [parse_digits fold_left]. rewrite Hu, Hv.
  destruct (Z.ltb_spec d 10); [| lia].
  rewrite IH. unfold digit_of. rewrite Hv. reflexivity.
Qed.

Lemma parse_digits_decimal_start (l : list ascii) :
  Forall decimal l -> l <> [] ->
  parse_digits 10 None false l = Some (fold_left (fun x c => x * 10 + digit_of c) l 0).
Proof.
  intros Hl Hne. destruct Hl as [| c l [d [Hd ->]] Hl]; [contradiction |].
  destruct (digit_char_cases d Hd) as (Hv & _ & Hu & _).
  cbn [parse_digits fold_left]. rewrite Hu, Hv.
  destruct (Z.ltb_spec d 10); [| lia].
  rewrite parse_digits_decimal by exact Hl. unfold digit_of. rewrite Hv. reflexivity.
Qed.

(** The digits produced for [n] read back as [n], shifted into what was
    read before. *)
Lemma decimal_digits_value (fuel : nat) (n : Z) (acc : list ascii) (a : Z) :
  0 <= n < 2 ^ Z.of_nat fuel ->
  exists k, 0 <= k /\
    fold_left (fun x c => x * 10 + digit_of c) (decimal_digits fuel n acc) a
    = fold_left (fun x c => x * 10 + digit_of c) acc (a * 10 ^ k + n).
Proof.
  revert n acc a. induction fuel as [| fuel IH]; intros n acc a Hn.
  - exists 0. split; [lia |]. simpl in *. f_equal; lia.
  - cbn [decimal_digits]. cbv zeta.
    assert (Hd : digit_of (digit_char (n mod 10)) = n mod 10).
    { unfold digit_of.
      destruct (digit_char_cases (n mod 10)) as (-> & _); [apply Z.mod_pos_bound; lia |].
      reflexivity. }
    destruct (Z.ltb_spec n 10) as [Hlt | Hge].
    + exists 1. split; [lia |]. cbn [fold_left]. rewrite Hd.
      rewrite Z.mod_small by lia. f_equal; lia.
    + destruct (IH (n / 10) (digit_char (n mod 10) :: acc) a) as [k [Hk Hfold]].
      { split; [apply Z.div_pos; lia |].
        apply Z.div_lt_upper_bound; [lia |].
        rewrite Nat2Z.inj_succ, Z.pow_succ_r in Hn by lia. lia. }
      exists (k + 1). split; [lia |]. rewrite Hfold. cbn [fold_left]. rewrite Hd.
      f_equal. rewrite Z.pow_add_r by lia.
      pose proof (Z.div_mod n 10). lia.
Qed.

Lemma digits_fuel_enough (n : Z) : 0 <= n -> n < 2 ^ Z.of_nat (digits_fuel n).
Proof.
  intros Hn. unfold digits_fuel. rewrite Nat2Z.inj_succ, Z2Nat.id by apply Z.log2_nonneg.
  destruct (Z.eq_dec n 0) as [-> | Hne]; [reflexivity |].
  apply Z.log2_spec. lia.
Qed.

Lemma lstrip_nonspace (c : ascii) (l : list ascii) :
  is_space c = false -> lstrip (c :: l) = c :: l.
Proof. intros H. simpl. rewrite H. reflexivity. Qed.

Lemma strip_nonspace (s : list ascii) :
  Forall (fun c => is_space c = false) s -> s <> [] -> strip s = s.
Proof.
  intros Hs Hne. unfold strip.
  destruct s as [| c s]; [contradiction |].
  rewrite lstrip_nonspace by (inversion Hs; assumption).
  assert (Hrev : Forall (fun c => is_space c = false) (rev (c :: s)))
    by (apply Forall_rev; exact Hs).
  destruct (rev (c :: s)) as [| c' s'] eqn:Hr.
  - apply (f_equal (@length ascii)) in Hr. rewrite length_rev in Hr. discriminate.
  - rewrite lstrip_nonspace by (inversion Hrev; assumption).
    rewrite <- Hr. apply rev_involutive.
Qed.

(** [int(str(n)) == n] *)
Lemma py_int_py_str (n : Z) : py_int (VStr (py_str n)) = Ok n.
Proof.
  assert (Hspace : forall l, Forall decimal l -> Forall (fun c => is_space c = false) l).
  { intros l Hl. apply (Forall_impl _ _ _ Hl). intros c [d [Hd ->]].
    destruct (digit_char_cases d Hd) as (_ & H & _). exact H. }
  assert (Hval : forall m, 0 <= m ->
            parse_digits 10 None false (decimal_digits (digits_fuel m) m []) = Some m).
  { intros m Hm.
    rewrite parse_digits_decimal_start
      by (try apply decimal_digits_decimal; try apply decimal_digits_nonempty; constructor).
    destruct (decimal_digits_value (digits_fuel m) m [] 0) as [k [_ ->]];
      [split; [exact Hm | apply digits_fuel_enough; exact Hm] |].
    reflexivity. }
  unfold py_int, py_str. destruct (Z.ltb_spec n 0) as [Hneg | Hpos].
  - cbn [list_ascii_of_string]. rewrite list_ascii_of_string_of_list_ascii.
    set (ds := decimal_digits (digits_fuel (- n)) (- n) []).
    assert (Hds : Forall decimal ds) by (apply decimal_digits_decimal; constructor).
    rewrite (strip_nonspace ("-"%char :: ds));
      [| constructor; [reflexivity | apply Hspace, Hds] | discriminate].
    cbn [parse_signed]. change (Ascii.eqb "-" "-") with true. cbv iota.
    subst ds. rewrite Hval by lia. simpl. f_equal; lia.
  - rewrite list_ascii_of_string_of_list_ascii.
    set (ds := decimal_digits (digits_fuel n) n []).
    assert (Hds : Forall decimal ds) by (apply decimal_digits_decimal; constructor).
    assert (Hne : ds <> []) by apply decimal_digits_nonempty.
    rewrite (strip_nonspace ds); [| apply Hspace, Hds | exact Hne].
    unfold parse_signed.
    destruct ds as [| c ds'] eqn:Heq; [contradiction |].
    destruct (Forall_cons_1 _ _ _ Hds) as [[d [Hd ->]] _].
    destruct (digit_char_cases d Hd) as (_ & _ & _ & Hm & Hp).
    rewrite Hm, Hp. rewrite <- Heq. subst ds. rewrite Hval by lia. reflexivity.
Qed.

Lemma to_dict_unfold (context_id : Game -> Z) (self : Asset) :
  Asset.to_dict context_id self
  = <["assetid" := VStr (py_str (asset_id self))]>
      (<["amount" := VInt (amount self)]>
         (<["appid" := VStr (py_str (app_id self))]>
            (<["contextid" := VStr (py_str (context_id (game self)))]> ∅))).
Proof. reflexivity. Qed.

(** X22. [to_dict] keeps the asset id, the amount, the app id and the
    context id, the ids as decimal strings that [int()] reads back, but
    not the two ids that equality looks at: [Asset(asset.to_dict())]
    raises [KeyError('instanceid')]. Once [instanceid] and [classid] are
    put back, [Asset(...)] restores every number of the asset and the
    result is equal to the original. *)
Theorem to_dict_round_trip (context_id : Game -> Z) (self : Asset) :
  Asset.__init__ (Asset.to_dict context_id self) = Raise (KeyError "instanceid")
  /\ exists restored,
       Asset.__init__
         (<["instanceid" := VInt (instance_id self)]>
            (<["classid" := VInt (class_id self)]> (Asset.to_dict context_id self)))
       = Ok restored
       /\ asset_id restored = asset_id self
       /\ app_id restored = app_id self
       /\ amount restored = amount self
       /\ instance_id restored = instance_id self
       /\ class_id restored = class_id self
       /\ Asset.__eq__ self (ObjAsset restored) = true.
Proof.
  rewrite to_dict_unfold. split.
  - unfold Asset.__init__, getitem.
    repeat (rewrite ?lookup_insert_eq; rewrite ?lookup_insert_ne by discriminate;
            cbn [rbind]; rewrite ?py_int_py_str; cbn [rbind py_int]).
    rewrite lookup_empty. reflexivity.
  - eexists. split.
    + unfold Asset.__init__, getitem.
      repeat (rewrite ?lookup_insert_eq; rewrite ?lookup_insert_ne by discriminate;
              cbn [rbind]; rewrite ?py_int_py_str; cbn [rbind py_int]).
      reflexivity.
    + cbn [asset_id app_id amount instance_id class_id]. repeat split.
      unfold Asset.__eq__. cbn [as_asset instance_id class_id].
      rewrite !Z.eqb_refl. reflexivity.
Qed.

(** ** The confirmation code is base64 *)

Lemma below_In (n : nat) (x : Z) : 0 <= x < Z.of_nat n -> In x (below n).
Proof.
  intros Hx. unfold below. apply in_map_iff. exists (Z.to_nat x).
  split; [lia |]. apply in_seq. lia.
Qed.

Lemma b64_char_value (v : Z) :
  0 <= v < 64 ->
  b64_value (b64_char v) = Some v
  /\ Ascii.eqb (b64_char v) "=" = false
  /\ (nat_of_ascii (b64_char v) <? 128)%nat = true.
Proof.
  intros Hv.
  assert (Hall : forallb (fun v => match b64_value (b64_char v) with
                                   | Some v' => Z.eqb v' v
                                   | None => false
                                   end
                                   && negb (Ascii.eqb (b64_char v) "=")
                                   && (nat_of_ascii (b64_char v) <? 128)%nat)
                   (below 64) = true) by (vm_compute; reflexivity).
  rewrite forallb_forall in Hall. specialize (Hall v (below_In 64 v Hv)).
  apply andb_true_iff in Hall as [Hall Hascii].
  apply andb_true_iff in Hall as [Hval Hpad].
  destruct (b64_value (b64_char v)) as [v' |]; [| discriminate].
  apply Z.eqb_eq in Hval. subst v'.
  destruct (Ascii.eqb (b64_char v) "="); [discriminate |]. auto.
Qed.

Lemma Z_to_byte_to_Z (b : byte) : Z_to_byte (byte_to_Z b) = b.
Proof. destruct b; reflexivity. Qed.

(** The bit arithmetic of one quad, on the pieces of the three bytes. *)
Lemma quad_first (h l t : Z) :
  0 <= h < 64 -> 0 <= l < 4 -> 0 <= t < 16 ->
  0 <= Z.lor (Z.shiftl l 4) t < 64
  /\ Z.lor (Z.shiftl h 2) (Z.shiftr (Z.lor (Z.shiftl l 4) t) 4) = 4 * h + l
  /\ Z.land (Z.lor (Z.shiftl l 4) t) 15 = t.
Proof.
  intros Hh Hl Ht.
  assert (Hall : forallb (fun h => forallb (fun l => forallb (fun t =>
              let v := Z.lor (Z.shiftl l 4) t in
              (0 <=? v) && (v <? 64)
              && (Z.lor (Z.shiftl h 2) (Z.shiftr v 4) =? 4 * h + l)
              && (Z.land v 15 =? t)) (below 16)) (below 4)) (below 64) = true)
    by (vm_compute; reflexivity).
  rewrite forallb_forall in Hall. specialize (Hall h (below_In 64 h Hh)).
  rewrite forallb_forall in Hall. specialize (Hall l (below_In 4 l Hl)).
  rewrite forallb_forall in Hall. specialize (Hall t (below_In 16 t Ht)).
  cbv zeta in Hall. rewrite !andb_true_iff in Hall. lia.
Qed.

Lemma quad_second (t u s : Z) :
  0 <= t < 16 -> 0 <= u < 16 -> 0 <= s < 4 ->
  0 <= Z.lor (Z.shiftl u 2) s < 64
  /\ Z.lor (Z.shiftl t 4) (Z.shiftr (Z.lor (Z.shiftl u 2) s) 2) = 16 * t + u
  /\ Z.land (Z.lor (Z.shiftl u 2) s) 3 = s.
Proof.
  intros Ht Hu Hs.
  assert (Hall : forallb (fun t => forallb (fun u => forallb (fun s =>
              let v := Z.lor (Z.shiftl u 2) s in
              (0 <=? v) && (v <? 64)
              && (Z.lor (Z.shiftl t 4) (Z.shiftr v 2) =? 16 * t + u)
              && (Z.land v 3 =? s)) (below 4)) (below 16)) (below 16) = true)
    by (vm_compute; reflexivity).
  rewrite forallb_forall in Hall. specialize (Hall t (below_In 16 t Ht)).
  rewrite forallb_forall in Hall. specialize (Hall u (below_In 16 u Hu)).
  rewrite forallb_forall in Hall. specialize (Hall s (below_In 4 s Hs)).
  cbv zeta in Hall. rewrite !andb_true_iff in Hall. lia.
Qed.

Lemma quad_third (s m : Z) :
  0 <= s < 4 -> 0 <= m < 64 -> Z.lor (Z.shiftl s 6) m = 64 * s + m.
Proof.
  intros Hs Hm.
  assert (Hall : forallb (fun s => forallb (fun m =>
              Z.lor (Z.shiftl s 6) m =? 64 * s + m) (below 64)) (below 4) = true)
    by (vm_compute; reflexivity).
  rewrite forallb_forall in Hall. specialize (Hall s (below_In 4 s Hs)).
  rewrite forallb_forall in Hall. specialize (Hall m (below_In 64 m Hm)).
  lia.
Qed.

(** The pieces of a byte that the encoder cuts out. *)
Lemma byte_pieces (b : byte) :
  Z.shiftr (byte_to_Z b) 2 = byte_to_Z b / 4
  /\ Z.land (byte_to_Z b) 3 = byte_to_Z b mod 4
  /\ Z.shiftr (byte_to_Z b) 4 = byte_to_Z b / 16
  /\ Z.land (byte_to_Z b) 15 = byte_to_Z b mod 16
  /\ Z.shiftr (byte_to_Z b) 6 = byte_to_Z b / 64
  /\ Z.land (byte_to_Z b) 63 = byte_to_Z b mod 64.
Proof.
  rewrite !Z.shiftr_div_pow2 by lia.
  change 3 with (Z.ones 2). change 15 with (Z.ones 4). change 63 with (Z.ones 6).
  rewrite !Z.land_ones by lia. repeat split.
Qed.

Section Decode.

Context (v : Z) (Hv : 0 <= v < 64) (s : list ascii) (lc p : Z) (out : list byte).

Lemma a2b_quad_0 :
  a2b_base64 (b64_char v :: s) (A2b 0 lc p out) = a2b_base64 s (A2b 1 v 0 out).
Proof.
  destruct (b64_char_value v Hv) as (Hval & Hpad & _).
  cbn [a2b_base64]. rewrite Hpad, Hval. reflexivity.
Qed.

Lemma a2b_quad_1 :
  a2b_base64 (b64_char v :: s) (A2b 1 lc p out)
  = a2b_base64 s (A2b 2 (Z.land v 15) 0
                    (out ++ [Z_to_byte (Z.lor (Z.shiftl lc 2) (Z.shiftr v 4))])).
Proof.
  destruct (b64_char_value v Hv) as (Hval & Hpad & _).
  cbn [a2b_base64]. rewrite Hpad, Hval. reflexivity.
Qed.

Lemma a2b_quad_2 :
  a2b_base64 (b64_char v :: s) (A2b 2 lc p out)
  = a2b_base64 s (A2b 3 (Z.land v 3) 0
                    (out ++ [Z_to_byte (Z.lor (Z.shiftl lc 4) (Z.shiftr v 2))])).
Proof.
  destruct (b64_char_value v Hv) as (Hval & Hpad & _).
  cbn [a2b_base64]. rewrite Hpad, Hval. reflexivity.
Qed.

Lemma a2b_quad_3 :
  a2b_base64 (b64_char v :: s) (A2b 3 lc p out)
  = a2b_base64 s (A2b 0 0 0 (out ++ [Z_to_byte (Z.lor (Z.shiftl lc 6) v)])).
Proof.
  destruct (b64_char_value v Hv) as (Hval & Hpad & _).
  cbn [a2b_base64]. rewrite Hpad, Hval. reflexivity.
Qed.

End Decode.

(** The ranges of the pieces of a byte. *)
Lemma byte_piece_ranges (b : byte) :
  0 <= byte_to_Z b / 4 < 64 /\ 0 <= byte_to_Z b mod 4 < 4
  /\ 0 <= byte_to_Z b / 16 < 16 /\ 0 <= byte_to_Z b mod 16 < 16
  /\ 0 <= byte_to_Z b / 64 < 4 /\ 0 <= byte_to_Z b mod 64 < 64.
Proof.
  pose proof (byte_to_Z_range b) as Hb.
  repeat split; try (apply Z.div_pos; lia); try (apply Z.div_lt_upper_bound; lia);
    apply Z.mod_pos_bound; lia.
Qed.

(** The first two characters of a group give the first byte back. *)
Lemma decode_first (a : byte) (t : Z) (s : list ascii) (out : list byte) :
  0 <= t < 16 ->
  a2b_base64 (b64_char (Z.shiftr (byte_to_Z a) 2)
                :: b64_char (Z.lor (Z.shiftl (Z.land (byte_to_Z a) 3) 4) t) :: s)
             (A2b 0 0 0 out)
  = a2b_base64 s (A2b 2 t 0 (out ++ [a])).
Proof.
  intros Ht.
  destruct (byte_pieces a) as (-> & -> & _).
  destruct (byte_piece_ranges a) as (Hh & Hl & _).
  destruct (quad_first _ _ t Hh Hl Ht) as (Hr & Hb & Hlc).
  rewrite a2b_quad_0 by exact Hh. rewrite a2b_quad_1 by exact Hr.
  rewrite Hb, Hlc.
  replace (4 * (byte_to_Z a / 4) + byte_to_Z a mod 4) with (byte_to_Z a)
    by (pose proof (Z.div_mod (byte_to_Z a) 4); lia).
  rewrite Z_to_byte_to_Z. reflexivity.
Qed.

(** The third character gives the second byte back. *)
Lemma decode_second (b : byte) (sx : Z) (s : list ascii) (out : list byte) :
  0 <= sx < 4 ->
  a2b_base64 (b64_char (Z.lor (Z.shiftl (Z.land (byte_to_Z b) 15) 2) sx) :: s)
             (A2b 2 (Z.shiftr (byte_to_Z b) 4) 0 out)
  = a2b_base64 s (A2b 3 sx 0 (out ++ [b])).
Proof.
  intros Hs.
  destruct (byte_pieces b) as (_ & _ & -> & -> & _).
  destruct (byte_piece_ranges b) as (_ & _ & Ht & Hu & _).
  destruct (quad_second _ _ sx Ht Hu Hs) as (Hr & Hb & Hlc).
  rewrite a2b_quad_2 by exact Hr. rewrite Hb, Hlc.
  replace (16 * (byte_to_Z b / 16) + byte_to_Z b mod 16) with (byte_to_Z b)
    by (pose proof (Z.div_mod (byte_to_Z b) 16); lia).
  rewrite Z_to_byte_to_Z. reflexivity.
Qed.

(** The fourth character gives the third byte back. *)
Lemma decode_third (c : byte) (s : list ascii) (out : list byte) :
  a2b_base64 (b64_char (Z.land (byte_to_Z c) 63) :: s)
             (A2b 3 (Z.shiftr (byte_to_Z c) 6) 0 out)
  = a2b_base64 s (A2b 0 0 0 (out ++ [c])).
Proof.
  destruct (byte_pieces c) as (_ & _ & _ & _ & -> & ->).
  destruct (byte_piece_ranges c) as (_ & _ & _ & _ & Hs & Hm).
  rewrite a2b_quad_3 by exact Hm. rewrite (quad_third _ _ Hs Hm).
  replace (64 * (byte_to_Z c / 64) + byte_to_Z c mod 64) with (byte_to_Z c)
    by (pose proof (Z.div_mod (byte_to_Z c) 64); lia).
  rewrite Z_to_byte_to_Z. reflexivity.
Qed.

Lemma a2b_b64encode (bs out : list byte) :
  a2b_base64 (list_ascii_of_string (b64encode bs)) (A2b 0 0 0 out) = Ok (out ++ bs).
Proof.
  assert (H : forall n bs' out', (length bs' <= n)%nat ->
              a2b_base64 (list_ascii_of_string (b64encode bs')) (A2b 0 0 0 out')
              = Ok (out' ++ bs')).
  { induction n as [n IH] using lt_wf_ind. intros bs' out' Hle.
    destruct bs' as [| a [| b [| c rest]]].
    - simpl. rewrite app_nil_r. reflexivity.
    - cbn [b64encode list_ascii_of_string].
      rewrite <- (Z.lor_0_r (Z.shiftl (Z.land (byte_to_Z a) 3) 4)).
      rewrite decode_first by lia. reflexivity.
    - cbn [b64encode list_ascii_of_string].
      destruct (byte_piece_ranges b) as (_ & _ & Ht & _).
      rewrite decode_first by (rewrite Z.shiftr_div_pow2 by lia; exact Ht).
      rewrite <- (Z.lor_0_r (Z.shiftl (Z.land (byte_to_Z b) 15) 2)).
      rewrite decode_second by lia. cbn [a2b_base64].
      rewrite <- app_assoc. reflexivity.
    - cbn [b64encode list_ascii_of_string].
      destruct (byte_piece_ranges b) as (_ & _ & Ht & _).
      destruct (byte_piece_ranges c) as (_ & _ & _ & _ & Hs & _).
      rewrite decode_first by (rewrite Z.shiftr_div_pow2 by lia; exact Ht).
      rewrite decode_second by (rewrite Z.shiftr_div_pow2 by lia; exact Hs).
      rewrite decode_third.
      rewrite (IH (length rest)) by (simpl in Hle; lia).
      rewrite <- !app_assoc. reflexivity. }
  apply (H (length bs)). lia.
Qed.

Lemma b64encode_ascii (bs : list byte) :
  forallb (fun c => (nat_of_ascii c <? 128)%nat) (list_ascii_of_string (b64encode bs)) = true.
Proof.
  assert (Hc : forall x, 0 <= x < 64 -> (nat_of_ascii (b64_char x) <? 128)%nat = true)
    by (intros x Hx; apply b64_char_value; exact Hx).
  assert (H : forall n bs', (length bs' <= n)%nat ->
              forallb (fun c => (nat_of_ascii c <? 128)%nat)
                (list_ascii_of_string (b64encode bs')) = true).
  { induction n as [n IH] using lt_wf_ind. intros bs' Hle.
    destruct bs' as [| a [| b [| c rest]]].
    - reflexivity.
    - cbn [b64encode list_ascii_of_string forallb].
      destruct (byte_pieces a) as (-> & -> & _).
      destruct (byte_piece_ranges a) as (Hh & Hl & _).
      rewrite <- (Z.lor_0_r (Z.shiftl (byte_to_Z a mod 4) 4)).
      destruct (quad_first _ _ 0 Hh Hl ltac:(lia)) as (Hr & _).
      rewrite (Hc _ Hh), (Hc _ Hr). reflexivity.
    - cbn [b64encode list_ascii_of_string forallb].
      destruct (byte_pieces a) as (-> & -> & _).
      destruct (byte_pieces b) as (_ & _ & -> & -> & _).
      destruct (byte_piece_ranges a) as (Hh & Hl & _).
      destruct (byte_piece_ranges b) as (_ & _ & Ht & Hu & _).
      rewrite <- (Z.lor_0_r (Z.shiftl (byte_to_Z b mod 16) 2)).
      destruct (quad_first _ _ _ Hh Hl Ht) as (Hr & _).
      destruct (quad_second _ _ 0 Ht Hu ltac:(lia)) as (Hr2 & _).
      rewrite (Hc _ Hh), (Hc _ Hr), (Hc _ Hr2). reflexivity.
    - cbn [b64encode list_ascii_of_string forallb].
      destruct (byte_pieces a) as (-> & -> & _).
      destruct (byte_pieces b) as (_ & _ & -> & -> & _).
      destruct (byte_pieces c) as (_ & _ & _ & _ & -> & ->).
      destruct (byte_piece_ranges a) as (Hh & Hl & _).
      destruct (byte_piece_ranges b) as (_ & _ & Ht & Hu & _).
      destruct (byte_piece_ranges c) as (_ & _ & _ & _ & Hs & Hm).
      destruct (quad_first _ _ _ Hh Hl Ht) as (Hr & _).
      destruct (quad_second _ _ _ Ht Hu Hs) as (Hr2 & _).
      rewrite (Hc _ Hh), (Hc _ Hr), (Hc _ Hr2), (Hc _ Hm).
      rewrite (IH (length rest)) by (simpl in Hle; lia). reflexivity. }
  apply (H (length bs)). lia.
Qed.

(** [b64decode(b64encode(bs)) == bs] *)
Lemma b64decode_b64encode (bs : list byte) : b64decode (b64encode bs) = Ok bs.
Proof.
  unfold b64decode. rewrite b64encode_ascii. apply (a2b_b64encode bs []).
Qed.

(** X23. A confirmation code is valid base64: [b64decode] gives back
    the 20 bytes of the HMAC-SHA1 of the packed timestamp followed by
    the tag, under the decoded secret. *)
Theorem generate_confirmation_code_decodes (now : Z) (identity_secret tag : string)
    (timestamp : option Z) (code : string) :
  generate_confirmation_code now identity_secret tag timestamp = Ok code ->
  exists t encoded key digest,
    timestamp = Some t
    /\ encode_ascii tag = Ok encoded
    /\ b64decode identity_secret = Ok key
    /\ digest = hmac_sha1 key (be_bytes 8 t ++ encoded)
    /\ b64decode code = Ok digest
    /\ length digest = 20%nat.
Proof.
  intros H.
  destruct (confirmation_code_shape _ _ _ _ _ H) as (t & encoded & key & -> & _ & He & Hk & ->).
  exists t, encoded, key, (hmac_sha1 key (be_bytes 8 t ++ encoded)).
  split; [reflexivity |]. split; [exact He |]. split; [exact Hk |].
  split; [reflexivity |]. split; [apply b64decode_b64encode | apply length_hmac_sha1].
Qed.

Lemma generate_confirmation_code_decodes_witness :
  exists t encoded key digest,
    Some 1600000000 = Some t
    /\ encode_ascii "allow" = Ok encoded
    /\ b64decode "YWJj" = Ok key
    /\ digest = hmac_sha1 key (be_bytes 8 t ++ encoded)
    /\ b64decode "S6Psu2RkDVPN/IJMzS8oXlXknEs=" = Ok digest
    /\ length digest = 20%nat.
Proof.
  apply (generate_confirmation_code_decodes 0 "YWJj" "allow" (Some 1600000000)).
  vm_compute. reflexivity.
Defined.
